(** * TalosMapEditor: entity store, visual proxies, persistence and camera

    A shallow embedding of the Python sources

    - [components/id_manager.py], [components/class_holder.py],
      [components/qclass_holder.py]
    - [components/station.py], [components/path.py], [components/agv.py]
    - [ui/file_management.py], [ui/realtime_view.py]
    - the handlers of [ui/map_editor.py] and [ui/agv_editor.py] that
      change the stores

    Conventions of the embedding.

    - Python [int] is [Z]; Python [float] (and numpy [float32]) is idealised
      as a real number [R]: rounding is not modelled.
    - A Python [dict] is a [gmap]; [dict.pop(k, None)] is [delete].  The
      program iterates a dictionary in insertion order, which a [gmap]
      does not record: the embedding iterates in the order of
      [map_to_list], and no statement below depends on the order.
    - A Python [str] is the [string] of the bytes of its UTF-8 encoding.
    - An entity is a record value.  Where the program stores one object
      in two dictionaries, the embedding stores the same value in both.
    - A raised exception is a value of [exn]; a method that can raise
      returns [result A]; a method that also updates its receiver returns
      the receiver next to the outcome, so that the fields assigned before
      the exception was raised stay visible.
    - [math.cos], [math.sin], [math.pi], [np.radians] are the functions of
      the real numbers; [np.linalg.inv] is the inverse of a 4x4 matrix and
      raises [LinAlgError] on a singular matrix. *)

From Stdlib Require Import ZArith List String Reals Lra Lia.
From stdpp Require Import gmap strings list fin_maps.

Set Default Proof Using "Type".

(** ** Exceptions *)

Inductive exn : Type :=
| AttributeError (cls attr : string)
| ValueError
| ZeroDivisionError
| LinAlgError
| ExpatError.

Definition result (A : Type) : Type := exn + A.

Definition ret {A} (a : A) : result A := inr a.
Definition raise {A} (e : exn) : result A := inl e.
Definition bind {A B} (m : result A) (k : A -> result B) : result B :=
  match m with
  | inl e => inl e
  | inr a => k a
  end.

Notation "'let*' x ':=' m 'in' k" := (bind m (fun x => k))
  (at level 10, x name, m at level 100, k at level 200).

(** ** [components/id_manager.py] *)

Module IDManager.

Record t : Type := mk { _id_counter : Z }.

(** [__init__] *)
Definition init : t := mk 0.

(** [get_new_id]: increments the counter and returns it. *)
Definition get_new_id (self : t) : Z * t :=
  let c := (_id_counter self + 1)%Z in (c, mk c).

(** [reset] *)
Definition reset (self : t) : t := mk 0.

(** [n] successive calls of [get_new_id], oldest result first. *)
Fixpoint get_new_ids (n : nat) (self : t) : list Z * t :=
  match n with
  | O => ([], self)
  | S k =>
      let (i, self1) := get_new_id self in
      let (is_, self2) := get_new_ids k self1 in
      (i :: is_, self2)
  end.

End IDManager.

(** ** Backend entities *)

(** [components/station.py], dataclass [StationType]. *)
Module StationType.

Record t : Type := mk {
  name : string;
  color : string;
  description : string;
  port_x : R;
  port_y : R;
  port_direction : R
}.

(** The dataclass constructor with its defaults
    ([description=""], [port_x=1.5], [port_y=0.0], [port_direction=0.0]). *)
Definition new (name color description : string) : t :=
  mk name color description 1.5%R 0%R 0%R.

End StationType.

(** [components/path.py], class [PathNode]. *)
Module PathNode.

Record t : Type := mk {
  position : R * R;
  connected_paths : list Z;
  id : option Z;
  direction : R;
  name : option string
}.

(** [PathNode(x, y, direction=0.0, id=None, name=None)] *)
Definition new (x y direction : R) (id : option Z) (name : option string) : t :=
  mk (x, y) [] id direction name.

Definition set_direction (self : t) (direction : R) : t :=
  mk (position self) (connected_paths self) (id self) direction (name self).

Definition with_id (self : t) (i : option Z) : t :=
  mk (position self) (connected_paths self) i (direction self) (name self).

Definition with_position (self : t) (p : R * R) : t :=
  mk p (connected_paths self) (id self) (direction self) (name self).

End PathNode.

(** [components/station.py], class [Station].  [size] is the list
    [[width, length, height]]. *)
Module Station.

Record t : Type := mk {
  position : R * R;
  station_type : StationType.t;
  name : string;
  id : option Z;
  size : R * R * R;
  direction : R;
  port : option PathNode.t;
  mesh_path : option string
}.

(** [Station(x, y, station_type, name, id=None)] *)
Definition new (x y : R) (station_type : StationType.t) (name : string)
    (id : option Z) : t :=
  mk (x, y) station_type name id (1, 1, 1)%R 0%R None None.

Definition set_3d_size (self : t) (width length height : R) : t :=
  mk (position self) (station_type self) (name self) (id self)
     (width, length, height) (direction self) (port self) (mesh_path self).

Definition with_id (self : t) (i : option Z) : t :=
  mk (position self) (station_type self) (name self) i
     (size self) (direction self) (port self) (mesh_path self).

(** The assignments [station.id = ...] and [station.direction = ...]. *)
Definition with_direction (self : t) (angle : R) : t :=
  mk (position self) (station_type self) (name self) (id self)
     (size self) angle (port self) (mesh_path self).

End Station.

(** [components/agv.py], class [AGV].  [status] is one of the string
    constants of [AGVStatus]; [size] is the list [[width, length, height]]. *)
Module AGVStatus.
Definition IDLE : string := "idle".
Definition MOVING : string := "moving".
Definition LOADING : string := "loading".
Definition UNLOADING : string := "unloading".
Definition CHARGING : string := "charging".
Definition ERROR : string := "error".
Definition UNKNOWN : string := "unknown".
End AGVStatus.

Module AGV.

Record t : Type := mk {
  name : string;
  position : R * R;
  size : R * R * R;
  id : option Z;
  max_speed : R;
  max_acc : R;
  max_dec : R;
  direction : R;
  status : string;
  agv_interactions : list Z;
  port : option PathNode.t
}.

(** [AGV(name, position, size)].  The class has no method; the
    [with_] functions below are the assignments [agv.id = ...],
    [agv.direction = ...], [agv.status = ...] of its callers. *)
Definition new (name : string) (position : R * R) (size : R * R * R) : t :=
  mk name position size None 1%R 0.5%R 0.5%R 0%R AGVStatus.UNKNOWN [] None.

Definition with_id (self : t) (i : option Z) : t :=
  mk (name self) (position self) (size self) i (max_speed self)
     (max_acc self) (max_dec self) (direction self) (status self)
     (agv_interactions self) (port self).

Definition with_direction (self : t) (d : R) : t :=
  mk (name self) (position self) (size self) (id self) (max_speed self)
     (max_acc self) (max_dec self) d (status self)
     (agv_interactions self) (port self).

Definition with_status (self : t) (s : string) : t :=
  mk (name self) (position self) (size self) (id self) (max_speed self)
     (max_acc self) (max_dec self) (direction self) s
     (agv_interactions self) (port self).

End AGV.

(** Truth value of a string in a condition: [if station.name:]. *)
Definition truthy (s : string) : bool :=
  match s with
  | EmptyString => false
  | String _ _ => true
  end.

(** The value [None] that a method without a [return] statement
    returns, and its truth value [bool(None)]. *)
Inductive NoneType : Type := PyNone.
Definition bool_of_None (_ : NoneType) : bool := false.

(** ** [components/class_holder.py] *)

Module ClassHolder.

Record t : Type := mk {
  station_id_manager : IDManager.t;
  agv_id_manager : IDManager.t;
  path_id_manager : IDManager.t;
  path_node_id_manager : IDManager.t;
  stations : gmap Z Station.t;
  agvs : gmap Z AGV.t;
  path_nodes : gmap Z PathNode.t;
  stations_by_name : gmap string Station.t;
  agvs_by_name : gmap string AGV.t;
  station_types : gmap string StationType.t
}.

(** [__init__].  The dictionary [paths] is created empty and never used
    (the sources define no path class); it is left out. *)
Definition init : t :=
  mk IDManager.init IDManager.init IDManager.init IDManager.init
     ∅ ∅ ∅ ∅ ∅ ∅.

(** *** Station *)

Definition add_station (self : t) (station : Station.t) : Station.t * t :=
  let '(i, station, idm) :=
    match Station.id station with
    | None =>
        let (i, idm) := IDManager.get_new_id (station_id_manager self) in
        (i, Station.with_id station (Some i), idm)
    | Some i => (i, station, station_id_manager self)
    end in
  (station,
   mk idm (agv_id_manager self) (path_id_manager self)
      (path_node_id_manager self)
      (<[i := station]> (stations self)) (agvs self) (path_nodes self)
      (if truthy (Station.name station)
       then <[Station.name station := station]> (stations_by_name self)
       else stations_by_name self)
      (agvs_by_name self) (station_types self)).

Definition get_station_by_id (self : t) (station_id : Z) : option Station.t :=
  stations self !! station_id.

Definition get_station_by_name (self : t) (name : string) : option Station.t :=
  stations_by_name self !! name.

Definition delete_station (self : t) (station_id : Z) : NoneType * t :=
  match stations self !! station_id with
  | None => (PyNone, self)
  | Some station =>
      (PyNone,
       mk (station_id_manager self) (agv_id_manager self)
          (path_id_manager self) (path_node_id_manager self)
          (delete station_id (stations self)) (agvs self) (path_nodes self)
          (if decide (is_Some (stations_by_name self !! Station.name station))
           then delete (Station.name station) (stations_by_name self)
           else stations_by_name self)
          (agvs_by_name self) (station_types self))
  end.

Definition get_all_stations (self : t) : list Station.t :=
  (map_to_list (stations self)).*2.

(** *** AGV *)

Definition add_agv (self : t) (agv : AGV.t) : AGV.t * t :=
  let '(i, agv, idm) :=
    match AGV.id agv with
    | None =>
        let (i, idm) := IDManager.get_new_id (agv_id_manager self) in
        (i, AGV.with_id agv (Some i), idm)
    | Some i => (i, agv, agv_id_manager self)
    end in
  (agv,
   mk (station_id_manager self) idm (path_id_manager self)
      (path_node_id_manager self)
      (stations self) (<[i := agv]> (agvs self)) (path_nodes self)
      (stations_by_name self)
      (if truthy (AGV.name agv)
       then <[AGV.name agv := agv]> (agvs_by_name self)
       else agvs_by_name self)
      (station_types self)).

Definition get_agv_by_id (self : t) (agv_id : Z) : option AGV.t :=
  agvs self !! agv_id.

Definition get_agv_by_name (self : t) (name : string) : option AGV.t :=
  agvs_by_name self !! name.

Definition delete_agv (self : t) (agv_id : Z) : NoneType * t :=
  match agvs self !! agv_id with
  | None => (PyNone, self)
  | Some agv =>
      (PyNone,
       mk (station_id_manager self) (agv_id_manager self)
          (path_id_manager self) (path_node_id_manager self)
          (stations self) (delete agv_id (agvs self)) (path_nodes self)
          (stations_by_name self)
          (if decide (is_Some (agvs_by_name self !! AGV.name agv))
           then delete (AGV.name agv) (agvs_by_name self)
           else agvs_by_name self)
          (station_types self))
  end.

Definition get_all_agvs (self : t) : list AGV.t :=
  (map_to_list (agvs self)).*2.

(** *** PathNode *)

Definition add_path_node (self : t) (node : PathNode.t) : PathNode.t * t :=
  let '(i, node, idm) :=
    match PathNode.id node with
    | None =>
        let (i, idm) := IDManager.get_new_id (path_node_id_manager self) in
        (i, PathNode.with_id node (Some i), idm)
    | Some i => (i, node, path_node_id_manager self)
    end in
  (node,
   mk (station_id_manager self) (agv_id_manager self) (path_id_manager self)
      idm
      (stations self) (agvs self) (<[i := node]> (path_nodes self))
      (stations_by_name self) (agvs_by_name self) (station_types self)).

Definition get_path_node_by_id (self : t) (node_id : Z) : option PathNode.t :=
  path_nodes self !! node_id.

Definition delete_path_node (self : t) (node_id : Z) : NoneType * t :=
  (PyNone,
   mk (station_id_manager self) (agv_id_manager self) (path_id_manager self)
      (path_node_id_manager self)
      (stations self) (agvs self) (delete node_id (path_nodes self))
      (stations_by_name self) (agvs_by_name self) (station_types self)).

Definition get_all_path_nodes (self : t) : list PathNode.t :=
  (map_to_list (path_nodes self)).*2.

(** *** StationType *)

Definition add_station_type (self : t) (station_type : StationType.t) : t :=
  mk (station_id_manager self) (agv_id_manager self) (path_id_manager self)
     (path_node_id_manager self)
     (stations self) (agvs self) (path_nodes self)
     (stations_by_name self) (agvs_by_name self)
     (<[StationType.name station_type := station_type]> (station_types self)).

Definition get_station_type (self : t) (name : string) : option StationType.t :=
  station_types self !! name.


End ClassHolder.

(** ** Vocabulary of the statements *)

(** Consistency of a name index with the identifier map it accompanies:
    every entity is filed under its own identifier, and a non-empty name
    resolves to an entity exactly when that entity is in the identifier
    map and carries the name. *)
Section NameIndexDef.

Context {E : Type} (eid : E -> option Z) (ename : E -> string).

Definition index_consistent (by_id : gmap Z E) (by_name : gmap string E)
  : Prop :=
  (forall i e, by_id !! i = Some e -> eid e = Some i)
  /\ (forall n e, n <> EmptyString ->
        (by_name !! n = Some e
         <-> exists i, by_id !! i = Some e /\ ename e = n)).

End NameIndexDef.

Definition stations_consistent (h : ClassHolder.t) : Prop :=
  index_consistent Station.id Station.name
    (ClassHolder.stations h) (ClassHolder.stations_by_name h).

Definition agvs_consistent (h : ClassHolder.t) : Prop :=
  index_consistent AGV.id AGV.name
    (ClassHolder.agvs h) (ClassHolder.agvs_by_name h).

(** The identifier under which [add_station] files the station. *)
Definition station_key (h : ClassHolder.t) (e : Station.t) : Z :=
  match Station.id e with
  | Some i => i
  | None => fst (IDManager.get_new_id (ClassHolder.station_id_manager h))
  end.

Definition agv_key (h : ClassHolder.t) (e : AGV.t) : Z :=
  match AGV.id e with
  | Some i => i
  | None => fst (IDManager.get_new_id (ClassHolder.agv_id_manager h))
  end.

Definition path_node_key (h : ClassHolder.t) (e : PathNode.t) : Z :=
  match PathNode.id e with
  | Some i => i
  | None => fst (IDManager.get_new_id (ClassHolder.path_node_id_manager h))
  end.

(** Sample entities used in the closed statements below. *)
Definition Loading : StationType.t :=
  StationType.new "Loading" "#4CAF50" "Loading station for materials".

Definition station_A : Station.t := Station.new 0 0 Loading "Dock" None.
Definition station_B : Station.t := Station.new 1 1 Loading "Dock" None.

(** ** Visual proxies: [QPathNode], [QAGV], [QStation] *)

(** Geometry kept by a Qt graphics item: the rectangle given to the base
    constructor of a [QGraphicsRectItem] or [QGraphicsEllipseItem]
    (x, y, width, height in item coordinates) and the item position set by
    [setPos], which is the origin unless [setPos] is called. *)
Record QRectF : Type := mkRect { rect_x : R; rect_y : R; rect_w : R; rect_h : R }.

Definition rect_center (r : QRectF) : R * R :=
  (rect_x r + rect_w r / 2, rect_y r + rect_h r / 2)%R.

Definition QPointF_origin : R * R := (0, 0)%R.

(** Where an item with position [p] and local shape [r] sits in the scene:
    Qt adds the item position to the local coordinates. *)
Definition scene_center (p : R * R) (r : QRectF) : R * R :=
  (fst p + fst (rect_center r), snd p + snd (rect_center r))%R.

(** [math.radians] *)
Definition radians (deg : R) : R := (deg * PI / 180)%R.

(** The [%] of two floats: the result has the sign of the divisor,
    [x - m * floor (x / m)]. *)
Definition float_mod (x m : R) : R := (x - m * IZR (Int_part (x / m)))%R.

Module QPathNode.

Record t : Type := mk {
  node : PathNode.t;
  node_size : R;
  arrow_size : R;
  arrow_angle : R;
  rect : QRectF;
  item_pos : R * R;
  direction_arrow : list (R * R)
}.

(** [_update_arrow]: the polygon of the child item [direction_arrow]. *)
Definition arrow_polygon (arrow_size arrow_angle direction : R) : list (R * R) :=
  let angle := radians direction in
  let end_x := (arrow_size * cos angle)%R in
  let end_y := (- arrow_size * sin angle)%R in
  let arrow_angle_rad := radians arrow_angle in
  let arrow_p1 := ((- arrow_size / 2 * cos (angle + arrow_angle_rad))%R,
                   (arrow_size / 2 * sin (angle + arrow_angle_rad))%R) in
  let arrow_p2 := ((- arrow_size / 2 * cos (angle - arrow_angle_rad))%R,
                   (arrow_size / 2 * sin (angle - arrow_angle_rad))%R) in
  [ (0, 0)%R; (end_x, end_y); arrow_p1; (end_x, end_y); arrow_p2 ].

Definition _update_arrow (self : t) (direction : R) : t :=
  mk (node self) (node_size self) (arrow_size self) (arrow_angle self)
     (rect self) (item_pos self)
     (arrow_polygon (arrow_size self) (arrow_angle self) direction).

(** [__init__].  The tooltip text, brush, pen and z-value are
    presentation state of Qt and are not part of the record. *)
Definition init (node : PathNode.t) : t :=
  let x := fst (PathNode.position node) in
  let y := snd (PathNode.position node) in
  let node_size := 10%R in
  let arrow_size := 8%R in
  let arrow_angle := 30%R in
  mk node node_size arrow_size arrow_angle
     (mkRect (x * 100 - node_size / 2) (- (y * 100) - node_size / 2)
             node_size node_size)%R
     QPointF_origin
     (arrow_polygon arrow_size arrow_angle (PathNode.direction node)).

(** [pos]: overridden to return the stored model position. *)
Definition pos (self : t) : R * R := PathNode.position (node self).

Definition id (self : t) : option Z := PathNode.id (node self).

Definition set_direction (self : t) (angle : R) : t :=
  let self1 :=
    mk (PathNode.set_direction (node self) angle) (node_size self)
       (arrow_size self) (arrow_angle self) (rect self) (item_pos self)
       (direction_arrow self) in
  _update_arrow self1 angle.

(** The assignments [qport.node.position = ...],
    [qport.node.direction = ...] and the call [qport.setPos(...)] made by
    [QStation._update_port]. *)
Definition with_node (self : t) (n : PathNode.t) : t :=
  mk n (node_size self) (arrow_size self) (arrow_angle self) (rect self)
     (item_pos self) (direction_arrow self).

Definition setPos (self : t) (x y : R) : t :=
  mk (node self) (node_size self) (arrow_size self) (arrow_angle self)
     (rect self) (x, y) (direction_arrow self).

End QPathNode.

(** Where the polygon of the child item [direction_arrow] is drawn.  The
    child is created with the proxy as its parent and is never moved, so
    the scene position of a point of its polygon is the point offset by
    the position of the proxy item. *)
Definition arrow_in_scene (q : QPathNode.t) : list (R * R) :=
  map (fun p => (fst (QPathNode.item_pos q) + fst p,
                 snd (QPathNode.item_pos q) + snd p)%R)
    (QPathNode.direction_arrow q).

Module QAGV.

Record t : Type := mk {
  agv : AGV.t;
  id : option Z;
  position : R * R;
  direction : R;
  name : string;
  item_pos : R * R;
  color : string
}.

(** [__init__] *)
Definition init (agv : AGV.t) : t :=
  mk agv (AGV.id agv)
     (fst (AGV.position agv), snd (AGV.position agv))
     (AGV.direction agv) (AGV.name agv)
     (fst (AGV.position agv) * 100, - snd (AGV.position agv) * 100)%R
     "#4287f5".

(** [boundingRect] *)
Definition boundingRect (self : t) : QRectF :=
  let width := (fst (fst (AGV.size (agv self))) * 100)%R in
  let length := (snd (fst (AGV.size (agv self))) * 100)%R in
  mkRect (- length / 2) (- width / 2) length width.

End QAGV.

(** An attribute access on a Python list, as in [station.size.width]:
    [Station.size] is the list [[width, length, height]], and a list has
    no data attribute, so the access raises AttributeError. *)
Definition list_getattr {A B : Type} (l : A) (attr : string) : result B :=
  raise (AttributeError "list" attr).

Module QStation.

(** A [QStation] instance has exactly the attributes assigned in
    [__init__]: [station] and [qport] (besides the geometry held by its
    base class [QGraphicsRectItem]). *)
Record t : Type := mk {
  station : Station.t;
  rect : QRectF;
  qport : option QPathNode.t
}.

(** The attribute access [self.station_type].  Neither [QStation] nor
    [QGraphicsRectItem] defines [station_type], and no statement assigns
    it, so the access raises AttributeError.  (The station type is
    reachable as [self.station.station_type].) *)
Definition get_station_type (self : t) : result StationType.t :=
  raise (AttributeError "QStation" "station_type").

(** The rectangle handed to [QGraphicsRectItem.__init__]. *)
Definition init_rect (station : Station.t) : QRectF :=
  let x := fst (Station.position station) in
  let y := snd (Station.position station) in
  let size0 := fst (fst (Station.size station)) in
  let size1 := snd (fst (Station.size station)) in
  (mkRect (x * 100 - size1 / 2 * 100) (- (y * 100) - size0 / 2 * 100)
          (size1 * 100) (size0 * 100))%R.

(** The port pose computed by [_update_port] from the station. *)
Definition port_pose (station : Station.t) : R * R * R :=
  let ty := Station.station_type station in
  let angle := (Station.direction station * PI / 180)%R in
  let port_x := (fst (Station.position station)
                 + StationType.port_x ty * cos angle
                 - StationType.port_y ty * sin angle)%R in
  let port_y := (snd (Station.position station)
                 + StationType.port_x ty * sin angle
                 + StationType.port_y ty * cos angle)%R in
  let port_direction :=
    float_mod (Station.direction station + StationType.port_direction ty) 360 in
  (port_x, port_y, port_direction).

(** [_update_port].  The receiver is returned with the outcome.  The
    condition [hasattr(self.station_type, 'port_x') and ...] first
    evaluates [self.station_type]; a [StationType] always has both
    attributes.  On an existing port the last statement calls
    [update_arrow] on the [QGraphicsPolygonItem] [direction_arrow], which
    has no such method. *)
Definition _update_port (self : t) : t * result unit :=
  match get_station_type self with
  | inl e => (self, inl e)
  | inr _ =>
      let '(port_x, port_y, port_direction) := port_pose (station self) in
      match qport self with
      | None =>
          let path_node :=
            PathNode.new port_x port_y port_direction None
              (Some (Station.name (station self) ++ " Port")%string) in
          (mk (station self) (rect self) (Some (QPathNode.init path_node)),
           ret tt)
      | Some qp =>
          let n1 := PathNode.with_position (QPathNode.node qp) (port_x, port_y) in
          let n2 := PathNode.set_direction n1 port_direction in
          let qp1 := QPathNode.with_node qp n2 in
          let qp2 := QPathNode.setPos qp1 (port_x * 100) (- port_y * 100) in
          (mk (station self) (rect self) (Some qp2),
           raise (AttributeError "QGraphicsPolygonItem" "update_arrow"))
      end
  end.

(** [pos] *)
Definition pos (self : t) : R * R := Station.position (station self).

(** [_update_tooltip]: the f-string reads [self.station.size.width]. *)
Definition _update_tooltip (self : t) : result unit :=
  let* width := list_getattr (B := R) (Station.size (station self)) "width" in
  ret tt.

(** [__init__]: after the base constructor and [setFlag], the brush is
    built from [self.station_type.color]. *)
Definition init (station : Station.t) : result t :=
  let self := mk station (init_rect station) None in
  let* ty := get_station_type self in
  match _update_port self with
  | (_, inl e) => raise e
  | (self, inr _) =>
      let* _ := _update_tooltip self in
      ret self
  end.

(** [set_direction] *)
Definition set_direction (self : t) (angle : R) : t * result unit :=
  let self1 :=
    mk (Station.with_direction (station self) angle) (rect self) (qport self) in
  match _update_port self1 with
  | (self2, inl e) => (self2, inl e)
  | (self2, inr _) => (self2, _update_tooltip self2)
  end.

(** [set_3d_size] *)
Definition set_3d_size (self : t) (width length height : R) : t * result unit :=
  let self1 :=
    mk (Station.set_3d_size (station self) width length height)
       (rect self) (qport self) in
  (self1, _update_tooltip self1).

End QStation.

(** ** [components/qclass_holder.py] *)

Module QClassHolder.

(** The dictionaries are keyed by the entity's [id] attribute, which is
    [None] for an entity that was never added to the [ClassHolder]. *)
Record t : Type := mk {
  qstations : gmap (option Z) QStation.t;
  qagvs : gmap (option Z) QAGV.t;
  qpath_nodes : gmap (option Z) QPathNode.t
}.

Definition init : t := mk ∅ ∅ ∅.

Definition add_qstation (self : t) (station : Station.t)
  : t * result QStation.t :=
  match QStation.init station with
  | inl e => (self, inl e)
  | inr qstation =>
      (mk (<[Station.id station := qstation]> (qstations self))
          (qagvs self) (qpath_nodes self),
       ret qstation)
  end.

Definition get_qstation_by_id (self : t) (station_id : Z) : option QStation.t :=
  qstations self !! Some station_id.

Definition delete_qstation (self : t) (station_id : Z) : t :=
  mk (delete (Some station_id) (qstations self)) (qagvs self) (qpath_nodes self).

Definition get_all_qstations (self : t) : list QStation.t :=
  (map_to_list (qstations self)).*2.

Definition add_qagv (self : t) (agv : AGV.t) : t * QAGV.t :=
  let qagv := QAGV.init agv in
  (mk (qstations self) (<[AGV.id agv := qagv]> (qagvs self)) (qpath_nodes self),
   qagv).

Definition get_qagv_by_id (self : t) (agv_id : Z) : option QAGV.t :=
  qagvs self !! Some agv_id.


Definition get_all_qagvs (self : t) : list QAGV.t :=
  (map_to_list (qagvs self)).*2.

Definition add_qpath_node (self : t) (node : PathNode.t) : t * QPathNode.t :=
  let qnode := QPathNode.init node in
  (mk (qstations self) (qagvs self)
      (<[PathNode.id node := qnode]> (qpath_nodes self)),
   qnode).

Definition get_qpath_node_by_id (self : t) (node_id : Z) : option QPathNode.t :=
  qpath_nodes self !! Some node_id.


Definition get_all_qpath_nodes (self : t) : list QPathNode.t :=
  (map_to_list (qpath_nodes self)).*2.

(** The attribute accesses [qclass_holder.add_path_node],
    [qclass_holder.add_station] and [qclass_holder.add_agv] made by the
    map loader: the class defines [add_qpath_node], [add_qstation] and
    [add_qagv] only. *)
Definition get_add_path_node (self : t) : result (PathNode.t -> t * QPathNode.t) :=
  raise (AttributeError "QClassHolder" "add_path_node").

Definition get_add_station (self : t)
  : result (Station.t -> t * result QStation.t) :=
  raise (AttributeError "QClassHolder" "add_station").

Definition get_add_agv (self : t) : result (AGV.t -> t * QAGV.t) :=
  raise (AttributeError "QClassHolder" "add_agv").

End QClassHolder.

(** Counter-clockwise rotation of a point about the origin by an angle in
    degrees, as the specification words it ([rotate2d]). *)
Definition rotate2d (p : R * R) (degrees : R) : R * R :=
  (fst p * cos (radians degrees) - snd p * sin (radians degrees),
   fst p * sin (radians degrees) + snd p * cos (radians degrees))%R.

(** The station of the port scenario: type "Loading" with port offset
    (1.5, 0) and port direction 0, placed at (2, 3) with direction 90. *)
Definition scenario_type : StationType.t :=
  StationType.mk "Loading" "#4CAF50" "" 1.5 0 0.

Definition scenario_station : Station.t :=
  Station.with_direction (Station.new 2 3 scenario_type "S1" None) 90.

(** ** [components/station.py], class [StationTypeManager] *)

Module StationTypeManager.

Record t : Type := mk { _types : gmap string StationType.t }.

Definition add_type (self : t) (station_type : StationType.t) : bool * t :=
  match _types self !! StationType.name station_type with
  | Some _ => (false, self)
  | None =>
      (true, mk (<[StationType.name station_type := station_type]> (_types self)))
  end.

(** [__init__] with [_initialize_default_types] *)
Definition init : t :=
  let m0 := mk ∅ in
  let m1 := snd (add_type m0
    (StationType.new "Loading" "#4CAF50" "Loading station for materials")) in
  let m2 := snd (add_type m1
    (StationType.new "Unloading" "#f44336" "Unloading station for materials")) in
  let m3 := snd (add_type m2
    (StationType.new "Charging" "#FFC107" "QAGV charging station")) in
  snd (add_type m3 (StationType.new "Storage" "#2196F3" "Storage location")).

Definition get_type (self : t) (name : string) : option StationType.t :=
  _types self !! name.

Definition get_all_types (self : t) : gmap string StationType.t := _types self.

Definition remove_type (self : t) (name : string) : bool * t :=
  match _types self !! name with
  | Some _ => (true, mk (delete name (_types self)))
  | None => (false, self)
  end.

End StationTypeManager.

(** ** [ui/map_editor.py]: the editor *)

(** The part of the map editor that its handlers, the exporter and the
    loader read and write.  The graphics scene and the widgets are Qt
    state and are left out, except for the value of the spin box
    [map_size_spin], whose [valueChanged] signal is connected to
    [update_map_size].  The signals that the editor itself emits
    ([map_changed], [map_size_changed], ...) have their receivers outside
    the editor. *)
Module MapEditor.

Record t : Type := mk {
  map_size : Z;
  map_size_spin : Z;
  station_manager : StationTypeManager.t;
  class_holder : ClassHolder.t;
  qclass_holder : QClassHolder.t
}.

(** [__init__] with [setup_ui]: the spin box gets the range [5, 100] and
    the value of [map_size]. *)
Definition init : t :=
  mk 10 10 StationTypeManager.init ClassHolder.init QClassHolder.init.

End MapEditor.

(** ** [ui/map_editor.py] and [ui/agv_editor.py]: the handlers that change
    the stores *)

(** The handlers of the class [MapEditor], on the part of the editor
    given by [MapEditor.t].  What the user enters in a dialog, and what is
    selected or under the cursor, are arguments. *)
Module MapEditorHandlers.

Definition with_holders (self : MapEditor.t) (h : ClassHolder.t)
    (q : QClassHolder.t) : MapEditor.t :=
  MapEditor.mk (MapEditor.map_size self) (MapEditor.map_size_spin self)
    (MapEditor.station_manager self) h q.

(** The attributes [current_mode] and [path_tool], which the press
    handler reads. *)
Inductive Mode : Type := StationMode | PathMode | AGVMode.
Inductive PathTool : Type := AddTool | DeleteTool.
Inductive Button : Type := LeftButton | MiddleButton | RightButton.

Definition with_path_node_id_manager (h : ClassHolder.t) (idm : IDManager.t)
  : ClassHolder.t :=
  ClassHolder.mk (ClassHolder.station_id_manager h)
    (ClassHolder.agv_id_manager h) (ClassHolder.path_id_manager h) idm
    (ClassHolder.stations h) (ClassHolder.agvs h) (ClassHolder.path_nodes h)
    (ClassHolder.stations_by_name h) (ClassHolder.agvs_by_name h)
    (ClassHolder.station_types h).

(** The node object stored under [i], after it was changed through a
    reference held elsewhere. *)
Definition with_path_node (h : ClassHolder.t) (i : Z) (node : PathNode.t)
  : ClassHolder.t :=
  ClassHolder.mk (ClassHolder.station_id_manager h)
    (ClassHolder.agv_id_manager h) (ClassHolder.path_id_manager h)
    (ClassHolder.path_node_id_manager h)
    (ClassHolder.stations h) (ClassHolder.agvs h)
    (<[i := node]> (ClassHolder.path_nodes h))
    (ClassHolder.stations_by_name h) (ClassHolder.agvs_by_name h)
    (ClassHolder.station_types h).

(** [dict.pop(key, None)] with the [id] attribute of an item as the key:
    an [id] that is [None] is no key of the backend dictionaries. *)
Definition pop_path_node (h : ClassHolder.t) (k : option Z) : ClassHolder.t :=
  match k with
  | Some i => snd (ClassHolder.delete_path_node h i)
  | None => h
  end.

Definition pop_qpath_node (q : QClassHolder.t) (k : option Z) : QClassHolder.t :=
  QClassHolder.mk (QClassHolder.qstations q) (QClassHolder.qagvs q)
    (delete k (QClassHolder.qpath_nodes q)).

Definition pop_agv (h : ClassHolder.t) (k : option Z) : ClassHolder.t :=
  match k with
  | Some i => snd (ClassHolder.delete_agv h i)
  | None => h
  end.

Definition pop_qagv (q : QClassHolder.t) (k : option Z) : QClassHolder.t :=
  QClassHolder.mk (QClassHolder.qstations q)
    (delete k (QClassHolder.qagvs q)) (QClassHolder.qpath_nodes q).

(** [handle_mouse_press].  [pos] is the scene position of the press,
    [dialog] the direction entered in the dialog ([None] when it is
    cancelled), [item] the [QPathNode] under the cursor, if there is one.
    The new node gets its identifier from the allocator of the backend
    holder; the proxy holds the node object that the backend holder
    stores, so [set_direction] on the proxy is seen in both. *)
Definition handle_mouse_press (self : MapEditor.t) (mode : Mode)
    (tool : PathTool) (button : Button) (pos : R * R) (dialog : option R)
    (item : option QPathNode.t) : MapEditor.t :=
  match button, mode, tool with
  | LeftButton, PathMode, AddTool =>
      match dialog with
      | None => self
      | Some direction =>
          let h := MapEditor.class_holder self in
          let (i, idm) :=
            IDManager.get_new_id (ClassHolder.path_node_id_manager h) in
          let h1 := with_path_node_id_manager h idm in
          let node :=
            PathNode.new (fst pos / 100) (- snd pos / 100) direction
              (Some i) None in
          let (node, h2) := ClassHolder.add_path_node h1 node in
          let (q1, qnode) :=
            QClassHolder.add_qpath_node (MapEditor.qclass_holder self) node in
          let qnode := QPathNode.set_direction qnode direction in
          let q2 :=
            QClassHolder.mk (QClassHolder.qstations q1) (QClassHolder.qagvs q1)
              (<[Some i := qnode]> (QClassHolder.qpath_nodes q1)) in
          let h3 := with_path_node h2 i (QPathNode.node qnode) in
          with_holders self h3 q2
      end
  | LeftButton, PathMode, DeleteTool =>
      match item with
      | None => self
      | Some item =>
          let q1 :=
            pop_qpath_node (MapEditor.qclass_holder self) (QPathNode.id item) in
          let h1 :=
            pop_path_node (MapEditor.class_holder self) (QPathNode.id item) in
          with_holders self h1 q1
      end
  | _, _, _ => self
  end.

(** [add_path_node_by_position]: [dialog] is what was entered (name, x,
    y, direction), [None] when the dialog is cancelled. *)
Definition add_path_node_by_position (self : MapEditor.t)
    (dialog : option (string * R * R * R)) : MapEditor.t :=
  match dialog with
  | None => self
  | Some (name, x, y, direction) =>
      let node := PathNode.new x y direction None (Some name) in
      let (node, h1) :=
        ClassHolder.add_path_node (MapEditor.class_holder self) node in
      let (q1, qnode) :=
        QClassHolder.add_qpath_node (MapEditor.qclass_holder self) node in
      with_holders self h1 q1
  end.

(** [add_station_type] *)
Definition add_station_type (self : MapEditor.t)
    (dialog : option StationType.t) : MapEditor.t :=
  match dialog with
  | None => self
  | Some station_type =>
      MapEditor.mk (MapEditor.map_size self) (MapEditor.map_size_spin self)
        (snd (StationTypeManager.add_type (MapEditor.station_manager self)
                station_type))
        (MapEditor.class_holder self) (MapEditor.qclass_holder self)
  end.

(** The values of the spin boxes that [add_station_at_position] reads. *)
Record StationForm : Type := mkForm {
  pos_x : R; pos_y : R;
  width_spin : R; length_spin : R; height_spin : R;
  direction_spin : R
}.

(** [add_station_at_position].  [selected] is the selected station type,
    [name] and [ok] what the name dialog returns.  Only [ValueError] is
    caught. *)
Definition add_station_at_position (self : MapEditor.t)
    (selected : option StationType.t) (name : string) (ok : bool)
    (form : StationForm) : MapEditor.t * result unit :=
  match selected with
  | None => (self, ret tt)
  | Some station_type =>
      if ok && truthy name then
        let station :=
          Station.new (pos_x form) (pos_y form) station_type name None in
        let station :=
          Station.set_3d_size station (width_spin form) (length_spin form)
            (height_spin form) in
        let station := Station.with_direction station (direction_spin form) in
        let (station, h1) :=
          ClassHolder.add_station (MapEditor.class_holder self) station in
        match QClassHolder.add_qstation (MapEditor.qclass_holder self) station with
        | (q1, inl ValueError) => (with_holders self h1 q1, ret tt)
        | (q1, inl e) => (with_holders self h1 q1, inl e)
        | (q1, inr qstation) => (with_holders self h1 q1, ret tt)
        end
      else (self, ret tt)
  end.

(** [update_map_size] hands the proxies themselves to [add_qpath_node],
    [add_qstation] and [add_qagv], whose constructors read attributes of
    the backend classes: [QPathNode(qnode)] reads [qnode.position],
    [QStation(qstation)] reads [qstation.position], and [QAGV(qagv)] gets
    as far as the tooltip, which reads [qagv.status]. *)
Definition add_qpath_node_of_proxy (q : QClassHolder.t) (qnode : QPathNode.t)
  : QClassHolder.t * result unit :=
  (q, raise (AttributeError "QPathNode" "position")).

Definition add_qstation_of_proxy (q : QClassHolder.t) (qstation : QStation.t)
  : QClassHolder.t * result unit :=
  (q, raise (AttributeError "QStation" "position")).

Definition add_qagv_of_proxy (q : QClassHolder.t) (qagv : QAGV.t)
  : QClassHolder.t * result unit :=
  (q, raise (AttributeError "QAGV" "status")).

(** A [for] loop that adds to the proxy holder. *)
Fixpoint add_each {A} (add : QClassHolder.t -> A -> QClassHolder.t * result unit)
    (l : list A) (q : QClassHolder.t) : QClassHolder.t * result unit :=
  match l with
  | [] => (q, ret tt)
  | a :: rest =>
      match add q a with
      | (q1, inl e) => (q1, inl e)
      | (q1, inr _) => add_each add rest q1
      end
  end.

(** [update_map_size] *)
Definition update_map_size (self : MapEditor.t) (new_size : Z)
  : MapEditor.t * result unit :=
  let q := MapEditor.qclass_holder self in
  let qstations := QClassHolder.get_all_qstations q in
  let qpath_nodes := QClassHolder.get_all_qpath_nodes q in
  let qagvs := QClassHolder.get_all_qagvs q in
  let with_q (q : QClassHolder.t) :=
    MapEditor.mk new_size (MapEditor.map_size_spin self)
      (MapEditor.station_manager self)
      (MapEditor.class_holder self) q in
  let q0 := QClassHolder.mk ∅ ∅ ∅ in
  match add_each add_qpath_node_of_proxy qpath_nodes q0 with
  | (q1, inl e) => (with_q q1, inl e)
  | (q1, inr _) =>
      match add_each add_qstation_of_proxy qstations q1 with
      | (q2, inl e) => (with_q q2, inl e)
      | (q2, inr _) =>
          match add_each add_qagv_of_proxy qagvs q2 with
          | (q3, inl e) => (with_q q3, inl e)
          | (q3, inr _) => (with_q q3, ret tt)
          end
      end
  end.

(** [map_size_spin.setValue(value)].  The spin box has the range
    [5, 100]: it takes the nearest value of the range, and when that is
    not the value it had, it emits [valueChanged], which runs the slot
    [update_map_size] with the new value.  The outcome of the slot is
    returned next to the editor. *)
Definition map_size_spin_setValue (self : MapEditor.t) (value : Z)
  : MapEditor.t * result unit :=
  let v := Z.max 5 (Z.min 100 value) in
  if (v =? MapEditor.map_size_spin self)%Z then (self, ret tt)
  else
    update_map_size
      (MapEditor.mk (MapEditor.map_size self) v
         (MapEditor.station_manager self) (MapEditor.class_holder self)
         (MapEditor.qclass_holder self))
      v.

End MapEditorHandlers.

(** The handlers of the class [AGVEditor], on the editor it refers to. *)
Module AGVEditor.

(** What [get_agv_data] returns. *)
Record agv_data : Type := mkData {
  data_name : string;
  data_size : R * R * R;
  data_direction : R
}.

(** The call [agv.set_status(...)]: the class [AGV] defines no method. *)
Definition set_status (agv : AGV.t) (status : string) : result AGV.t :=
  raise (AttributeError "AGV" "set_status").

(** [add_agv_at_node].  [selected] is the first selected item when it is
    a [QPathNode], [dialog] the data of the accepted dialog.  Only
    [ValueError] is caught, around the two [add] calls. *)
Definition add_agv_at_node (self : MapEditor.t) (selected : option QPathNode.t)
    (dialog : option agv_data) : MapEditor.t * result unit :=
  match selected with
  | None => (self, ret tt)
  | Some qnode =>
      match dialog with
      | None => (self, ret tt)
      | Some data =>
          let pos := PathNode.position (QPathNode.node qnode) in
          let agv := AGV.new (data_name data) pos (data_size data) in
          let agv := AGV.with_direction agv (data_direction data) in
          match set_status agv AGVStatus.IDLE with
          | inl e => (self, inl e)
          | inr agv =>
              let (agv, h1) :=
                ClassHolder.add_agv (MapEditor.class_holder self) agv in
              let (q1, qagv) :=
                QClassHolder.add_qagv (MapEditor.qclass_holder self) agv in
              (MapEditorHandlers.with_holders self h1 q1, ret tt)
          end
      end
  end.

(** [delete_agv]: [selected] is the first selected item when it is a
    [QAGV], [reply] whether the question was answered with Yes. *)
Definition delete_agv (self : MapEditor.t) (selected : option QAGV.t)
    (reply : bool) : MapEditor.t :=
  match selected with
  | None => self
  | Some qagv =>
      if reply then
        let k := AGV.id (QAGV.agv qagv) in
        let q1 := MapEditorHandlers.pop_qagv (MapEditor.qclass_holder self) k in
        let h1 := MapEditorHandlers.pop_agv (MapEditor.class_holder self) k in
        MapEditorHandlers.with_holders self h1 q1
      else self
  end.

End AGVEditor.

(** ** [ui/file_management.py] *)

(** The persisted document, element by element.  A number is written
    with [str] and read back with [int] or [float]; the text in between is
    not modelled, except that an identifier [None] is written as the text
    "None", which [int] rejects with ValueError.  The order of the
    elements of a list is the order in which the program iterates the
    dictionary it writes, which the embedding does not record (see the
    conventions): the statements speak of the elements of a document, not
    of their order.  An element without text is the empty string here;
    ElementTree reads it as [None], also where [save_map] wrote an empty
    string. *)
Module Document.

Record station_type_elem : Type := mkType {
  type_name : string;
  type_color : string;
  type_description : string
}.

Record station_elem : Type := mkStation {
  station_id : option Z;
  station_name : string;
  station_x : R;
  station_y : R;
  station_type : string;
  station_direction : R;
  station_width : R;
  station_length : R;
  station_height : R;
  station_mesh_path : option string
}.

Record node_elem : Type := mkNode {
  node_id : option Z;
  node_x : R;
  node_y : R;
  node_direction : R
}.

Record agv_elem : Type := mkAGV {
  agv_id : option Z;
  agv_name : string;
  agv_x : R;
  agv_y : R;
  agv_direction : R;
  agv_status : string;
  agv_width : R;
  agv_length : R;
  agv_height : R;
  agv_latest_node_id : option Z
}.

Record t : Type := mk {
  map_size : Z;
  station_types : list station_type_elem;
  stations : list station_elem;
  path_nodes : list node_elem;
  agvs : list agv_elem
}.

End Document.

(** [int(text)] of an identifier written by [str(entity.id)]. *)
Definition int_of_text (i : option Z) : result Z :=
  match i with
  | Some z => ret z
  | None => raise ValueError
  end.

(** [mapM] over a list in the exception monad: the loop stops at the first
    element that raises. *)
Fixpoint for_each {A B} (f : A -> result B) (l : list A) : result (list B) :=
  match l with
  | [] => ret []
  | a :: l' =>
      let* b := f a in
      let* bs := for_each f l' in
      ret (b :: bs)
  end.

(** The texts that survive [minidom.parseString(ET.tostring(root))].  The
    serialiser escapes the ampersand and the angle brackets and writes
    every other character as it is; the parser rejects the characters
    that XML 1.0 forbids: the control characters below U+0020 other than
    tab, line feed and carriage return, and U+FFFE and U+FFFF.  A [str] is
    the string of the bytes of its UTF-8 encoding, so the last two are the
    byte sequences EF BF BE and EF BF BF. *)
Definition xml_byte_ok (c : Ascii.ascii) : bool :=
  let n := Ascii.nat_of_ascii c in
  ((32 <=? n) || (n =? 9) || (n =? 10) || (n =? 13))%nat.

Definition xml_noncharacter (s : string) : bool :=
  match s with
  | String a (String b (String c _)) =>
      ((Ascii.nat_of_ascii a =? 239) && (Ascii.nat_of_ascii b =? 191)
       && (190 <=? Ascii.nat_of_ascii c))%nat
  | _ => false
  end.

Fixpoint xml_text_ok (s : string) : bool :=
  match s with
  | EmptyString => true
  | String c rest =>
      xml_byte_ok c && negb (xml_noncharacter s) && xml_text_ok rest
  end.

Module MapExporter.

Definition export_station_type (ty : StationType.t) : Document.station_type_elem :=
  Document.mkType (StationType.name ty) (StationType.color ty)
    (StationType.description ty).

(** The body of the station loop reads [station.size.width]. *)
Definition export_station (station : Station.t) : result Document.station_elem :=
  let* width := list_getattr (Station.size station) "width" in
  let* length := list_getattr (Station.size station) "length" in
  let* height := list_getattr (Station.size station) "height" in
  let* mesh_path := list_getattr (Station.size station) "mesh_path" in
  ret (Document.mkStation (Station.id station) (Station.name station)
         (fst (Station.position station)) (snd (Station.position station))
         (StationType.name (Station.station_type station))
         (Station.direction station) width length height mesh_path).

Definition export_node (node : PathNode.t) : Document.node_elem :=
  Document.mkNode (PathNode.id node)
    (fst (PathNode.position node)) (snd (PathNode.position node))
    (PathNode.direction node).

(** The attribute access [agv.latest_node]: the class [AGV] assigns no
    such attribute. *)
Definition get_latest_node (agv : AGV.t) : result (option PathNode.t) :=
  raise (AttributeError "AGV" "latest_node").

Definition export_agv (agv : AGV.t) : result Document.agv_elem :=
  let* latest_node := get_latest_node agv in
  ret (Document.mkAGV (AGV.id agv) (AGV.name agv)
         (fst (AGV.position agv)) (snd (AGV.position agv))
         (AGV.direction agv) (AGV.status agv)
         (fst (fst (AGV.size agv))) (snd (fst (AGV.size agv)))
         (snd (AGV.size agv))
         (match latest_node with
          | Some n => PathNode.id n
          | None => None
          end)).

(** The texts of a document that are strings of the program; the other
    texts are numbers written by [str]. *)
Definition written_texts (doc : Document.t) : list string :=
  concat (map (fun e => [ Document.type_name e; Document.type_color e;
                          Document.type_description e ])
            (Document.station_types doc))
  ++ concat (map (fun e => [ Document.station_name e; Document.station_type e ]
                           ++ match Document.station_mesh_path e with
                              | Some p => [p]
                              | None => []
                              end)
               (Document.stations doc))
  ++ concat (map (fun e => [ Document.agv_name e; Document.agv_status e ])
               (Document.agvs doc)).

(** [save_map]: the tree is built element by element, serialised by
    [ET.tostring], parsed again by [minidom.parseString] for the pretty
    printer, and only then written to the file, so an exception leaves no
    document.  The file system is not modelled: the result is the
    document that is handed to [open] and [write]. *)
Definition save_map (map_editor : MapEditor.t) : result Document.t :=
  let class_holder := MapEditor.class_holder map_editor in
  let station_types :=
    map export_station_type
      (map_to_list (StationTypeManager.get_all_types
                      (MapEditor.station_manager map_editor))).*2 in
  let* stations :=
    for_each export_station (ClassHolder.get_all_stations class_holder) in
  let nodes := map export_node (ClassHolder.get_all_path_nodes class_holder) in
  let* agvs := for_each export_agv (ClassHolder.get_all_agvs class_holder) in
  let doc :=
    Document.mk (MapEditor.map_size map_editor) station_types stations
      nodes agvs in
  if forallb xml_text_ok (written_texts doc) then ret doc
  else raise ExpatError.

End MapExporter.

Module MapLoader.

(** [clear_existing_data] *)
Definition clear_existing_data (ed : MapEditor.t) : MapEditor.t :=
  let h := MapEditor.class_holder ed in
  MapEditor.mk (MapEditor.map_size ed) (MapEditor.map_size_spin ed)
    (MapEditor.station_manager ed)
    (ClassHolder.mk
       (IDManager.reset (ClassHolder.station_id_manager h))
       (IDManager.reset (ClassHolder.agv_id_manager h))
       (ClassHolder.path_id_manager h)
       (IDManager.reset (ClassHolder.path_node_id_manager h))
       ∅ ∅ ∅ ∅ ∅ (ClassHolder.station_types h))
    (QClassHolder.mk ∅ ∅ ∅).

Definition with_map_size (ed : MapEditor.t) (n : Z) : MapEditor.t :=
  MapEditor.mk n (MapEditor.map_size_spin ed) (MapEditor.station_manager ed)
    (MapEditor.class_holder ed)
    (MapEditor.qclass_holder ed).

Definition with_station_manager (ed : MapEditor.t) (m : StationTypeManager.t)
  : MapEditor.t :=
  MapEditor.mk (MapEditor.map_size ed) (MapEditor.map_size_spin ed) m
    (MapEditor.class_holder ed)
    (MapEditor.qclass_holder ed).

Definition with_holders (ed : MapEditor.t) (h : ClassHolder.t)
    (q : QClassHolder.t) : MapEditor.t :=
  MapEditor.mk (MapEditor.map_size ed) (MapEditor.map_size_spin ed)
    (MapEditor.station_manager ed) h q.

(** The loop over the [station_type] elements.  For an element without
    text the program passes [None] to [StationType]; the record holds the
    empty string in its place, and the statements about a loaded type
    speak of texts that are not empty. *)
Definition load_station_types (elems : list Document.station_type_elem)
    (m : StationTypeManager.t) : StationTypeManager.t :=
  fold_left
    (fun m e =>
       snd (StationTypeManager.add_type m
              (StationType.new (Document.type_name e) (Document.type_color e)
                 (Document.type_description e))))
    elems m.

(** The loop over the [node] elements.  The backend node is built by
    [PathNode(x, y, node_id)]: the identifier read from the document lands
    in the third positional parameter, [direction], and [id] stays [None],
    so [add_path_node] allocates a new identifier.  The proxy is then
    requested through [qclass_holder.add_path_node]. *)
Fixpoint load_nodes (elems : list Document.node_elem) (ed : MapEditor.t)
    (node_dict : gmap Z PathNode.t)
  : MapEditor.t * result (gmap Z PathNode.t) :=
  match elems with
  | [] => (ed, ret node_dict)
  | e :: rest =>
      match int_of_text (Document.node_id e) with
      | inl ex => (ed, inl ex)
      | inr node_id =>
          let x := Document.node_x e in
          let y := Document.node_y e in
          let direction := Document.node_direction e in
          let node := PathNode.new x y (IZR node_id) None None in
          let (node, h1) := ClassHolder.add_path_node (MapEditor.class_holder ed) node in
          let ed1 := with_holders ed h1 (MapEditor.qclass_holder ed) in
          match QClassHolder.get_add_path_node (MapEditor.qclass_holder ed1) with
          | inl ex => (ed1, inl ex)
          | inr add_path_node =>
              let (q1, qnode) := add_path_node node in
              (* [qnode.set_direction(direction)] writes through to the
                 backend node, which the proxy and the holder share. *)
              let qnode := QPathNode.set_direction qnode direction in
              let node := QPathNode.node qnode in
              let q2 :=
                QClassHolder.mk (QClassHolder.qstations q1) (QClassHolder.qagvs q1)
                  (<[PathNode.id node := qnode]> (QClassHolder.qpath_nodes q1)) in
              let h2 :=
                match PathNode.id node with
                | Some i =>
                    ClassHolder.mk
                      (ClassHolder.station_id_manager h1)
                      (ClassHolder.agv_id_manager h1)
                      (ClassHolder.path_id_manager h1)
                      (ClassHolder.path_node_id_manager h1)
                      (ClassHolder.stations h1) (ClassHolder.agvs h1)
                      (<[i := node]> (ClassHolder.path_nodes h1))
                      (ClassHolder.stations_by_name h1)
                      (ClassHolder.agvs_by_name h1)
                      (ClassHolder.station_types h1)
                | None => h1
                end in
              load_nodes rest (with_holders ed1 h2 q2)
                (<[node_id := node]> node_dict)
          end
      end
  end.

(** The assignment [station.size.mesh_path = ...]: [size] is a list, and
    a list accepts no new attribute. *)
Definition set_size_mesh_path (station : Station.t) (p : option string)
  : result Station.t :=
  raise (AttributeError "list" "mesh_path").

(** The loop over the [station] elements.  A station whose type is
    unknown is skipped; otherwise the loader assigns
    [station.size.mesh_path] and asks for [qclass_holder.add_station]. *)
Fixpoint load_stations (elems : list Document.station_elem) (ed : MapEditor.t)
  : MapEditor.t * result unit :=
  match elems with
  | [] => (ed, ret tt)
  | e :: rest =>
      match int_of_text (Document.station_id e) with
      | inl ex => (ed, inl ex)
      | inr station_id =>
          match StationTypeManager.get_type (MapEditor.station_manager ed)
                  (Document.station_type e) with
          | None => load_stations rest ed
          | Some station_type =>
              let station :=
                Station.new (Document.station_x e) (Document.station_y e)
                  station_type (Document.station_name e) (Some station_id) in
              let station :=
                Station.with_direction station (Document.station_direction e) in
              let station :=
                Station.set_3d_size station (Document.station_width e)
                  (Document.station_length e) (Document.station_height e) in
              match set_size_mesh_path station (Document.station_mesh_path e) with
              | inl ex => (ed, inl ex)
              | inr station =>
                  match QClassHolder.get_add_station (MapEditor.qclass_holder ed) with
                  | inl ex => (ed, inl ex)
                  | inr add_station =>
                      match add_station station with
                      | (q1, inl ex) =>
                          (with_holders ed (MapEditor.class_holder ed) q1, inl ex)
                      | (q1, inr _) =>
                          load_stations rest
                            (with_holders ed (MapEditor.class_holder ed) q1)
                      end
                  end
              end
          end
      end
  end.

(** The method call [agv.set_latest_node(...)]: [AGV] has no method. *)
Definition set_latest_node (agv : AGV.t) (n : PathNode.t) : result AGV.t :=
  raise (AttributeError "AGV" "set_latest_node").

(** The loop over the [agv] elements. *)
Fixpoint load_agvs (elems : list Document.agv_elem) (ed : MapEditor.t)
    (node_dict : gmap Z PathNode.t) : MapEditor.t * result unit :=
  match elems with
  | [] => (ed, ret tt)
  | e :: rest =>
      match int_of_text (Document.agv_id e) with
      | inl ex => (ed, inl ex)
      | inr agv_id =>
          let size := (Document.agv_width e, Document.agv_length e,
                       Document.agv_height e) in
          let agv := AGV.new (Document.agv_name e)
                       (Document.agv_x e, Document.agv_y e) size in
          let agv := AGV.with_id agv (Some agv_id) in
          let agv := AGV.with_direction agv (Document.agv_direction e) in
          let agv := AGV.with_status agv (Document.agv_status e) in
          let agv_r :=
            match Document.agv_latest_node_id e with
            | Some node_id =>
                match node_dict !! node_id with
                | Some n => set_latest_node agv n
                | None => ret agv
                end
            | None => ret agv
            end in
          match agv_r with
          | inl ex => (ed, inl ex)
          | inr agv =>
              match QClassHolder.get_add_agv (MapEditor.qclass_holder ed) with
              | inl ex => (ed, inl ex)
              | inr add_agv =>
                  let (q1, _) := add_agv agv in
                  load_agvs rest
                    (with_holders ed (MapEditor.class_holder ed) q1) node_dict
              end
          end
      end
  end.

(** [load_map].  The editor is returned with the outcome: what was loaded
    before an exception stays in the holders. *)
Definition load_map (doc : Document.t) (ed : MapEditor.t)
  : MapEditor.t * result unit :=
  let ed := clear_existing_data ed in
  let ed := with_map_size ed (Document.map_size doc) in
  (* the slot of the spin box runs on the cleared editor, where it
     completes *)
  let ed :=
    fst (MapEditorHandlers.map_size_spin_setValue ed (Document.map_size doc)) in
  let ed :=
    with_station_manager ed
      (load_station_types (Document.station_types doc)
         (MapEditor.station_manager ed)) in
  match load_nodes (Document.path_nodes doc) ed ∅ with
  | (ed, inl ex) => (ed, inl ex)
  | (ed, inr node_dict) =>
      match load_stations (Document.stations doc) ed with
      | (ed, inl ex) => (ed, inl ex)
      | (ed, inr _) => load_agvs (Document.agvs doc) ed node_dict
      end
  end.

End MapLoader.

(** An editor whose store holds one free-standing path node, filed under
    identifier 5, at (1, 2) with direction 90. *)
Definition node_5 : PathNode.t := PathNode.new 1 2 90 (Some 5%Z) None.

Definition editor_one_node : MapEditor.t :=
  MapEditor.mk 10 10 StationTypeManager.init
    (snd (ClassHolder.add_path_node ClassHolder.init node_5))
    (fst (QClassHolder.add_qpath_node QClassHolder.init node_5)).

(** ** [ui/realtime_view.py]: matrices *)

(** A numpy vector of four numbers and a 4x4 numpy matrix, row by row. *)
Record Vec4 : Type := mkV { v0 : R; v1 : R; v2 : R; v3 : R }.

Record Mat4 : Type := mkM {
  m00 : R; m01 : R; m02 : R; m03 : R;
  m10 : R; m11 : R; m12 : R; m13 : R;
  m20 : R; m21 : R; m22 : R; m23 : R;
  m30 : R; m31 : R; m32 : R; m33 : R
}.

(** [np.identity(4)] *)
Definition identity : Mat4 := mkM 1 0 0 0  0 1 0 0  0 0 1 0  0 0 0 1.

(** [np.dot] of two matrices. *)
Definition dot (a b : Mat4) : Mat4 :=
  (mkM (m00 a * m00 b + m01 a * m10 b + m02 a * m20 b + m03 a * m30 b)
       (m00 a * m01 b + m01 a * m11 b + m02 a * m21 b + m03 a * m31 b)
       (m00 a * m02 b + m01 a * m12 b + m02 a * m22 b + m03 a * m32 b)
       (m00 a * m03 b + m01 a * m13 b + m02 a * m23 b + m03 a * m33 b)
       (m10 a * m00 b + m11 a * m10 b + m12 a * m20 b + m13 a * m30 b)
       (m10 a * m01 b + m11 a * m11 b + m12 a * m21 b + m13 a * m31 b)
       (m10 a * m02 b + m11 a * m12 b + m12 a * m22 b + m13 a * m32 b)
       (m10 a * m03 b + m11 a * m13 b + m12 a * m23 b + m13 a * m33 b)
       (m20 a * m00 b + m21 a * m10 b + m22 a * m20 b + m23 a * m30 b)
       (m20 a * m01 b + m21 a * m11 b + m22 a * m21 b + m23 a * m31 b)
       (m20 a * m02 b + m21 a * m12 b + m22 a * m22 b + m23 a * m32 b)
       (m20 a * m03 b + m21 a * m13 b + m22 a * m23 b + m23 a * m33 b)
       (m30 a * m00 b + m31 a * m10 b + m32 a * m20 b + m33 a * m30 b)
       (m30 a * m01 b + m31 a * m11 b + m32 a * m21 b + m33 a * m31 b)
       (m30 a * m02 b + m31 a * m12 b + m32 a * m22 b + m33 a * m32 b)
       (m30 a * m03 b + m31 a * m13 b + m32 a * m23 b + m33 a * m33 b))%R.

(** [np.dot] of a matrix and a vector. *)
Definition dot_vec (a : Mat4) (v : Vec4) : Vec4 :=
  (mkV (m00 a * v0 v + m01 a * v1 v + m02 a * v2 v + m03 a * v3 v)
       (m10 a * v0 v + m11 a * v1 v + m12 a * v2 v + m13 a * v3 v)
       (m20 a * v0 v + m21 a * v1 v + m22 a * v2 v + m23 a * v3 v)
       (m30 a * v0 v + m31 a * v1 v + m32 a * v2 v + m33 a * v3 v))%R.

(** Determinant and adjugate by 2x2 minors of the upper and lower row
    pairs. *)
Definition det (a : Mat4) : R :=
  (let s0 := m00 a * m11 a - m10 a * m01 a in
   let s1 := m00 a * m12 a - m10 a * m02 a in
   let s2 := m00 a * m13 a - m10 a * m03 a in
   let s3 := m01 a * m12 a - m11 a * m02 a in
   let s4 := m01 a * m13 a - m11 a * m03 a in
   let s5 := m02 a * m13 a - m12 a * m03 a in
   let c5 := m22 a * m33 a - m32 a * m23 a in
   let c4 := m21 a * m33 a - m31 a * m23 a in
   let c3 := m21 a * m32 a - m31 a * m22 a in
   let c2 := m20 a * m33 a - m30 a * m23 a in
   let c1 := m20 a * m32 a - m30 a * m22 a in
   let c0 := m20 a * m31 a - m30 a * m21 a in
   s0 * c5 - s1 * c4 + s2 * c3 + s3 * c2 - s4 * c1 + s5 * c0)%R.

Definition adj (a : Mat4) : Mat4 :=
  (let s0 := m00 a * m11 a - m10 a * m01 a in
   let s1 := m00 a * m12 a - m10 a * m02 a in
   let s2 := m00 a * m13 a - m10 a * m03 a in
   let s3 := m01 a * m12 a - m11 a * m02 a in
   let s4 := m01 a * m13 a - m11 a * m03 a in
   let s5 := m02 a * m13 a - m12 a * m03 a in
   let c5 := m22 a * m33 a - m32 a * m23 a in
   let c4 := m21 a * m33 a - m31 a * m23 a in
   let c3 := m21 a * m32 a - m31 a * m22 a in
   let c2 := m20 a * m33 a - m30 a * m23 a in
   let c1 := m20 a * m32 a - m30 a * m22 a in
   let c0 := m20 a * m31 a - m30 a * m21 a in
   mkM (m11 a * c5 - m12 a * c4 + m13 a * c3)
       (- m01 a * c5 + m02 a * c4 - m03 a * c3)
       (m31 a * s5 - m32 a * s4 + m33 a * s3)
       (- m21 a * s5 + m22 a * s4 - m23 a * s3)
       (- m10 a * c5 + m12 a * c2 - m13 a * c1)
       (m00 a * c5 - m02 a * c2 + m03 a * c1)
       (- m30 a * s5 + m32 a * s2 - m33 a * s1)
       (m20 a * s5 - m22 a * s2 + m23 a * s1)
       (m10 a * c4 - m11 a * c2 + m13 a * c0)
       (- m00 a * c4 + m01 a * c2 - m03 a * c0)
       (m30 a * s4 - m31 a * s2 + m33 a * s0)
       (- m20 a * s4 + m21 a * s2 - m23 a * s0)
       (- m10 a * c3 + m11 a * c1 - m12 a * c0)
       (m00 a * c3 - m01 a * c1 + m02 a * c0)
       (- m30 a * s3 + m31 a * s1 - m32 a * s0)
       (m20 a * s3 - m21 a * s1 + m22 a * s0))%R.

Definition scale (k : R) (a : Mat4) : Mat4 :=
  (mkM (k * m00 a) (k * m01 a) (k * m02 a) (k * m03 a)
       (k * m10 a) (k * m11 a) (k * m12 a) (k * m13 a)
       (k * m20 a) (k * m21 a) (k * m22 a) (k * m23 a)
       (k * m30 a) (k * m31 a) (k * m32 a) (k * m33 a))%R.

(** [np.linalg.inv]: the inverse matrix; a singular matrix raises
    LinAlgError. *)
Definition linalg_inv (a : Mat4) : result Mat4 :=
  if Req_dec_T (det a) 0 then raise LinAlgError
  else ret (scale (/ det a) (adj a)).

(** Division of two Python floats: a zero divisor raises. *)
Definition float_div (x y : R) : result R :=
  if Req_dec_T y 0 then raise ZeroDivisionError else ret (x / y)%R.

(** The matrices that [_create_view_matrix] and the draw methods build
    from [np.identity(4)] by slice assignment. *)
Definition translation (x y z : R) : Mat4 :=
  mkM 1 0 0 x  0 1 0 y  0 0 1 z  0 0 0 1.

(** [rot_x[1:3, 1:3] = [[cos, -sin], [sin, cos]]] *)
Definition rotation_x (angle : R) : Mat4 :=
  (mkM 1 0 0 0
       0 (cos angle) (- sin angle) 0
       0 (sin angle) (cos angle) 0
       0 0 0 1)%R.

(** [rot_y[0::2, 0::2] = [[cos, sin], [-sin, cos]]] *)
Definition rotation_y (angle : R) : Mat4 :=
  (mkM (cos angle) 0 (sin angle) 0
       0 1 0 0
       (- sin angle) 0 (cos angle) 0
       0 0 0 1)%R.

(** [rot[0:2, 0:2] = [[cos, -sin], [sin, cos]]] *)
Definition rotation_z (angle : R) : Mat4 :=
  (mkM (cos angle) (- sin angle) 0 0
       (sin angle) (cos angle) 0 0
       0 0 1 0
       0 0 0 1)%R.

(** [zoom_matrix[2, 3] = -camera_distance] *)
Definition zoom_matrix (distance : R) : Mat4 :=
  (mkM 1 0 0 0  0 1 0 0  0 0 1 (- distance)  0 0 0 1)%R.

(** ** [ui/realtime_view.py]: camera of [GLWidget] *)

Module GLWidget.

(** [width] and [height] are the values of the Qt getters [self.width()]
    and [self.height()]. *)
Record t : Type := mk {
  camera_rotation : R * R * R;
  camera_distance : R;
  camera_position : R * R * R;
  model_matrix : Mat4;
  view_matrix : Mat4;
  projection_matrix : Mat4;
  min_zoom : R;
  max_zoom : R;
  zoom_speed : R;
  pan_speed : R;
  rotation_speed : R;
  map_size : Z;
  width : Z;
  height : Z
}.

(** [__init__], for a widget of the given size. *)
Definition init (width height : Z) : t :=
  mk (45, 45, 0)%R 15%R (-5, -5, 5)%R
     identity identity identity
     2%R 50%R 1.1%R 0.02%R 0.5%R 10 width height.

Definition with_view_matrix (self : t) (m : Mat4) : t :=
  mk (camera_rotation self) (camera_distance self) (camera_position self)
     (model_matrix self) m (projection_matrix self)
     (min_zoom self) (max_zoom self) (zoom_speed self) (pan_speed self)
     (rotation_speed self) (map_size self) (width self) (height self).

Definition with_camera_distance (self : t) (d : R) : t :=
  mk (camera_rotation self) d (camera_position self)
     (model_matrix self) (view_matrix self) (projection_matrix self)
     (min_zoom self) (max_zoom self) (zoom_speed self) (pan_speed self)
     (rotation_speed self) (map_size self) (width self) (height self).

Definition with_camera_position (self : t) (p : R * R * R) : t :=
  mk (camera_rotation self) (camera_distance self) p
     (model_matrix self) (view_matrix self) (projection_matrix self)
     (min_zoom self) (max_zoom self) (zoom_speed self) (pan_speed self)
     (rotation_speed self) (map_size self) (width self) (height self).

(** [_perspective_matrix] *)
Definition _perspective_matrix (fovy aspect near far : R) : Mat4 :=
  (let f := 1 / tan (radians fovy / 2) in
   mkM (f / aspect) 0 0 0
       0 f 0 0
       0 0 ((far + near) / (near - far)) (2 * far * near / (near - far))
       0 0 (-1) 0)%R.

(** [resizeGL]: Qt calls it with the new size of the widget. *)
Definition resizeGL (self : t) (w h : Z) : t * result unit :=
  let self1 :=
    mk (camera_rotation self) (camera_distance self) (camera_position self)
       (model_matrix self) (view_matrix self) (projection_matrix self)
       (min_zoom self) (max_zoom self) (zoom_speed self) (pan_speed self)
       (rotation_speed self) (map_size self) w h in
  match float_div (IZR w) (IZR h) with
  | inl e => (self1, inl e)
  | inr aspect =>
      (mk (camera_rotation self) (camera_distance self) (camera_position self)
          (model_matrix self) (view_matrix self)
          (_perspective_matrix 45 aspect 0.1 100)
          (min_zoom self) (max_zoom self) (zoom_speed self) (pan_speed self)
          (rotation_speed self) (map_size self) w h,
       ret tt)
  end.

(** [_create_view_matrix] *)
Definition _create_view_matrix (self : t) : Mat4 :=
  let '(px, py, pz) := camera_position self in
  let '(rx, ry, _) := camera_rotation self in
  let view := identity in
  let trans_matrix := translation (- px) (- py) (- pz) in
  let view := dot view trans_matrix in
  let rot_x := rotation_x (radians rx) in
  let view := dot view rot_x in
  let rot_y := rotation_y (radians ry) in
  let view := dot view rot_y in
  let view := dot view (zoom_matrix (camera_distance self)) in
  view.

(** The first statement of [paintGL]:
    [self.view_matrix = self._create_view_matrix()]. *)
Definition refresh_view_matrix (self : t) : t :=
  with_view_matrix self (_create_view_matrix self).

(** The two conditional statements of [_screen_to_world]:
    [if ray_world[3] != 0: ray_world = ray_world / ray_world[3]] and
    [if ray_world[2] != 0: t = -ray_world[2];
     ray_world = ray_world + t * ray_world]. *)
Definition homogeneous_divide (ray_world : Vec4) : Vec4 :=
  if Req_dec_T (v3 ray_world) 0 then ray_world
  else (mkV (v0 ray_world / v3 ray_world) (v1 ray_world / v3 ray_world)
            (v2 ray_world / v3 ray_world) (v3 ray_world / v3 ray_world))%R.

Definition project_onto_plane (ray_world : Vec4) : Vec4 :=
  if Req_dec_T (v2 ray_world) 0 then ray_world
  else
    (let t := - v2 ray_world in
     mkV (v0 ray_world + t * v0 ray_world) (v1 ray_world + t * v1 ray_world)
         (v2 ray_world + t * v2 ray_world) (v3 ray_world + t * v3 ray_world))%R.

(** [_screen_to_world] *)
Definition _screen_to_world (self : t) (screen_x screen_y : R)
  : result (R * R * R) :=
  let* qx := float_div (2 * screen_x) (IZR (width self)) in
  let x := (qx - 1)%R in
  let* qy := float_div (2 * screen_y) (IZR (height self)) in
  let y := (1 - qy)%R in
  let vp_matrix := dot (projection_matrix self) (view_matrix self) in
  let* vp_inverse := linalg_inv vp_matrix in
  let ray_clip := mkV x y (-1) 1 in
  let ray_world := dot_vec vp_inverse ray_clip in
  let ray_world := homogeneous_divide ray_world in
  let ray_world := project_onto_plane ray_world in
  ret (v0 ray_world, v1 ray_world, v2 ray_world).

(** The screen centre [(self.width() / 2, self.height() / 2)]. *)
Definition center_x (self : t) : R := (IZR (width self) / 2)%R.
Definition center_y (self : t) : R := (IZR (height self) / 2)%R.

(** [wheelEvent], for the wheel movement [event.angleDelta().y()]. *)
Definition wheelEvent (self : t) (angle_delta_y : Z) : t * result unit :=
  let zoom_in := (0 <? angle_delta_y)%Z in
  match (if zoom_in then ret (zoom_speed self)
         else float_div 1 (zoom_speed self)) with
  | inl e => (self, inl e)
  | inr zoom_factor =>
      match float_div (camera_distance self) zoom_factor with
      | inl e => (self, inl e)
      | inr new_distance =>
          if Rle_dec (min_zoom self) new_distance then
            if Rle_dec new_distance (max_zoom self) then
              match _screen_to_world self (center_x self) (center_y self) with
              | inl e => (self, inl e)
              | inr world_pos_before =>
                  let self1 := with_camera_distance self new_distance in
                  match _screen_to_world self1 (center_x self1) (center_y self1) with
                  | inl e => (self1, inl e)
                  | inr world_pos_after =>
                      let '(bx, by_, bz) := world_pos_before in
                      let '(ax, ay, az) := world_pos_after in
                      let '(px, py, pz) := camera_position self1 in
                      (with_camera_position self1
                         (px + (bx - ax), py + (by_ - ay), pz + (bz - az))%R,
                       ret tt)
                  end
              end
            else (self, ret tt)
          else (self, ret tt)
      end
  end.

(** A sequence of wheel events.  An exception that escapes an event
    handler is reported by Qt and the event loop goes on, so the next
    event meets the widget as the failed handler left it. *)
Definition wheelEvents (self : t) (deltas : list Z) : t :=
  fold_left (fun self d => fst (wheelEvent self d)) deltas self.

End GLWidget.

(** The distance that [wheelEvent] proposes with the zoom speed 1.1 set
    by [GLWidget.__init__]: divided by the factor when zooming in,
    multiplied by it when zooming out. *)
Definition proposed_distance (distance : R) (angle_delta_y : Z) : R :=
  if (0 <? angle_delta_y)%Z then (distance / 1.1)%R else (distance * 1.1)%R.

(** The widget as the user first sees it: constructed, sized to 800x600
    by [resizeGL], and painted once (which refreshes the view matrix). *)
Definition shown_widget : GLWidget.t :=
  GLWidget.refresh_view_matrix
    (fst (GLWidget.resizeGL (GLWidget.init 800 600) 800 600)).

(** The inverses of the matrices built by [_create_view_matrix] and
    [_perspective_matrix], written out. *)
Definition view_inverse (self : GLWidget.t) : Mat4 :=
  let '(px, py, pz) := GLWidget.camera_position self in
  let '(rx, ry, _) := GLWidget.camera_rotation self in
  dot (zoom_matrix (- GLWidget.camera_distance self))
    (dot (rotation_y (- radians ry))
       (dot (rotation_x (- radians rx)) (translation px py pz))).

Definition perspective_inverse (fovy aspect near far : R) : Mat4 :=
  (let f := 1 / tan (radians fovy / 2) in
   mkM (aspect / f) 0 0 0
       0 (1 / f) 0 0
       0 0 0 (-1)
       0 0 ((near - far) / (2 * far * near)) ((far + near) / (2 * far * near)))%R.

(** For the camera angles (45, 45) and the camera offset (-5, -5, 5) of
    [__init__]: the world point at the centre of the near plane when the
    camera distance is [distance]. *)
Definition near_center (distance : R) : R * R * R :=
  (- 5 * / sqrt 2 - 4.95, - 0.1 * / sqrt 2, 4.95 - 5 * / sqrt 2 + distance)%R.

(** What [ray_world + t * ray_world] with [t = -ray_world[2]] makes of a
    point. *)
Definition scaled_by_height (q : R * R * R) : R * R * R :=
  let '(x, y, z) := q in
  (x + - z * x, y + - z * y, z + - z * z)%R.

(** ** [ui/realtime_view.py]: rendering *)

(** The OpenGL calls issued by the draw methods, in the order of issue.
    [glColorNamed s] stands for [glColor3f] with the components of
    [QColor(s)]. *)
Inductive GLcall : Type :=
| glClear
| glMatrixMode (mode : string)
| glLoadMatrixf (m : Mat4)
| glColor3f (r g b : R)
| glColorNamed (color : string)
| glBegin (mode : string)
| glEnd
| glVertex3f (x y z : R)
| glNormal3f (x y z : R)
| glPushMatrix
| glPopMatrix
| glTranslatef (x y z : R)
| glDisable (cap : string)
| glEnable (cap : string).

(** [m.T] *)
Definition transpose (m : Mat4) : Mat4 :=
  mkM (m00 m) (m10 m) (m20 m) (m30 m)
      (m01 m) (m11 m) (m21 m) (m31 m)
      (m02 m) (m12 m) (m22 m) (m32 m)
      (m03 m) (m13 m) (m23 m) (m33 m).

(** [range(lo, hi)] *)
Definition range (lo hi : Z) : list Z :=
  map (fun k => (lo + Z.of_nat k)%Z) (seq 0 (Z.to_nat (hi - lo))).

(** A mesh stored by [RealtimeView.update_station]: the triangles that
    the face indices select from the vertex array. *)
Definition Mesh : Type := list ((R * R * R) * (R * R * R) * (R * R * R)).

(** Everything the render pass can reach: the backend holder, the proxy
    holder, the widget, the meshes kept by the parent view, and the
    stream of OpenGL calls issued so far. *)
Module Scene.

Record t : Type := mk {
  class_holder : ClassHolder.t;
  qclass_holder : QClassHolder.t;
  gl_widget : GLWidget.t;
  station_meshes : gmap string Mesh;
  gl : list GLcall
}.

Definition emit (calls : list GLcall) (w : t) : t :=
  mk (class_holder w) (qclass_holder w) (gl_widget w) (station_meshes w)
     (gl w ++ calls).

Definition with_gl_widget (w : t) (g : GLWidget.t) : t :=
  mk (class_holder w) (qclass_holder w) g (station_meshes w) (gl w).

(** A [for] loop over a list whose body can raise. *)
Fixpoint for_each {A} (body : A -> t -> t * result unit) (l : list A) (w : t)
  : t * result unit :=
  match l with
  | [] => (w, ret tt)
  | a :: rest =>
      match body a w with
      | (w1, inl e) => (w1, inl e)
      | (w1, inr _) => for_each body rest w1
      end
  end.

(** [_draw_box] *)
Definition _draw_box (width height length : R) (w : t) : t :=
  let w_ := (width / 2)%R in
  let h := (height / 2)%R in
  let l := (length / 2)%R in
  let vertices :=
    [ (- w_, l, - h); (w_, l, - h); (w_, l, h); (- w_, l, h);
      (- w_, - l, - h); (w_, - l, - h); (w_, - l, h); (- w_, - l, h) ]%R in
  let faces :=
    [ [0; 1; 2; 3]; [5; 4; 7; 6]; [4; 0; 3; 7];
      [1; 5; 6; 2]; [3; 2; 6; 7]; [0; 4; 5; 1] ]%nat in
  let normals :=
    [ (0, 1, 0); (0, -1, 0); (-1, 0, 0); (1, 0, 0); (0, 0, 1); (0, 0, -1) ]%R in
  let face_calls (face_idx : nat) (face : list nat) : list GLcall :=
    let '(nx, ny, nz) := nth face_idx normals (0, 0, 0)%R in
    glNormal3f nx ny nz
    :: map (fun vertex_idx =>
              let '(x, y, z) := nth vertex_idx vertices (0, 0, 0)%R in
              glVertex3f x y z) face in
  emit ([glBegin "GL_QUADS"]
        ++ concat (imap face_calls faces)
        ++ [glEnd]) w.

(** [_draw_mesh]: one normal per triangle, from the cross product of two
    edges divided by its length. *)
Definition _draw_mesh (mesh : Mesh) (w : t) : t :=
  let triangle_calls (tr : (R * R * R) * (R * R * R) * (R * R * R)) : list GLcall :=
    let '((x1, y1, z1), (x2, y2, z2), (x3, y3, z3)) := tr in
    let '(ax, ay, az) := (x2 - x1, y2 - y1, z2 - z1)%R in
    let '(bx, by_, bz) := (x3 - x1, y3 - y1, z3 - z1)%R in
    let '(nx, ny, nz) := (ay * bz - az * by_, az * bx - ax * bz,
                          ax * by_ - ay * bx)%R in
    let norm := sqrt (nx * nx + ny * ny + nz * nz) in
    [ glNormal3f (nx / norm) (ny / norm) (nz / norm);
      glVertex3f x1 y1 z1; glVertex3f x2 y2 z2; glVertex3f x3 y3 z3 ]%R in
  emit ([glBegin "GL_TRIANGLES"] ++ concat (map triangle_calls mesh) ++ [glEnd]) w.

(** [_draw_grid] *)
Definition _draw_grid (w : t) : t :=
  let map_size := GLWidget.map_size (gl_widget w) in
  let n := IZR map_size in
  let line_calls (i : Z) : list GLcall :=
    [ glVertex3f (IZR i) (- n) 0; glVertex3f (IZR i) n 0;
      glVertex3f (- n) (IZR i) 0; glVertex3f n (IZR i) 0 ]%R in
  emit ([ glDisable "GL_LIGHTING"; glColor3f 0.8 0.8 0.8; glBegin "GL_LINES" ]
        ++ concat (map line_calls (range (- map_size) (map_size + 1)))
        ++ [ glEnd; glBegin "GL_LINES";
             glColor3f 1 0 0; glVertex3f 0 0 0; glVertex3f n 0 0;
             glColor3f 0 1 0; glVertex3f 0 0 0; glVertex3f 0 n 0;
             glColor3f 0 0 1; glVertex3f 0 0 1; glVertex3f 0 0 0;
             glEnd; glEnable "GL_LIGHTING" ])%R w.

(** The body of the side loop of [_draw_cylinder]; the normal divides by
    the radius. *)
Definition cylinder_side (radius height step : R) (i : nat) (w : t)
  : t * result unit :=
  let angle := (INR i * step)%R in
  let x := (radius * cos angle)%R in
  let y := (radius * sin angle)%R in
  match float_div x radius with
  | inl e => (w, inl e)
  | inr nx =>
      match float_div y radius with
      | inl e => (w, inl e)
      | inr ny =>
          (emit [ glNormal3f nx ny 0; glVertex3f x y 0; glVertex3f x y height ] w,
           ret tt)
      end
  end.

(** [_draw_cylinder] *)
Definition _draw_cylinder (radius height : R) (w : t) : t * result unit :=
  let sides := 32%nat in
  let step := (2 * PI / INR sides)%R in
  let cap_calls (z : R) : list GLcall :=
    [ glBegin "GL_TRIANGLE_FAN";
      glNormal3f 0 0 (if Req_dec_T z height then 1 else -1);
      glVertex3f 0 0 z ]
    ++ map (fun i =>
              let angle := (INR i * step)%R in
              glVertex3f (radius * cos angle) (radius * sin angle) z)
         (seq 0 (sides + 1))
    ++ [ glEnd ] in
  match for_each (cylinder_side radius height step) (seq 0 (sides + 1))
          (emit [glBegin "GL_QUAD_STRIP"] w) with
  | (w1, inl e) => (w1, inl e)
  | (w1, inr _) =>
      (emit ([glEnd] ++ cap_calls 0%R ++ cap_calls height) w1, ret tt)
  end.

(** The model matrices of the draw methods: translation, then the
    rotations about the z axis. *)
Definition model_matrix (x y z : R) (angles : list R) : Mat4 :=
  fold_left (fun model angle => dot model (rotation_z angle)) angles
    (dot identity (translation x y z)).

(** The red or green arrow on top of a node or port cylinder. *)
Definition node_arrow (arrow_length arrow_width : R) : list GLcall :=
  [ glVertex3f 0 0 0; glVertex3f arrow_length 0 0;
    glVertex3f 0 (arrow_width / 2) 0;
    glVertex3f 0 0 0; glVertex3f arrow_length 0 0;
    glVertex3f 0 (- arrow_width / 2) 0 ]%R.

(** The arrow on top of a station or AGV box. *)
Definition box_arrow (arrow_length arrow_width : R) : list GLcall :=
  [ glBegin "GL_TRIANGLES"; glNormal3f 0 0 1;
    glVertex3f 0 0 0; glVertex3f 0 arrow_length 0;
    glVertex3f (arrow_width / 2) 0 0;
    glVertex3f 0 0 0; glVertex3f 0 arrow_length 0;
    glVertex3f (- arrow_width / 2) 0 0;
    glEnd ]%R.

(** [_draw_station].  Without a stored mesh the box dimensions are read
    as [qstation.station.size.width]. *)
Definition _draw_station (qstation : QStation.t) (w : t) : t * result unit :=
  let view_matrix := GLWidget.view_matrix (gl_widget w) in
  let station := QStation.station qstation in
  let '(x, y) := Station.position station in
  let model :=
    model_matrix x y 0 [radians (-90); radians (Station.direction station)] in
  let modelview := dot view_matrix model in
  let w :=
    emit [ glLoadMatrixf (transpose modelview);
           glColorNamed (StationType.color (Station.station_type station)) ] w in
  let body : t * result unit :=
    match station_meshes w !! Station.name station with
    | Some mesh_data => (_draw_mesh mesh_data w, ret tt)
    | None =>
        match list_getattr (B := R) (Station.size station) "width" with
        | inl e => (w, inl e)
        | inr w_ =>
            match list_getattr (B := R) (Station.size station) "length" with
            | inl e => (w, inl e)
            | inr l =>
                match list_getattr (B := R) (Station.size station) "height" with
                | inl e => (w, inl e)
                | inr h =>
                    let w1 := _draw_box w_ h l w in
                    (emit ([ glColor3f 1 0 0; glPushMatrix;
                             glTranslatef 0 0 (h / 2 + 0.001) ]
                           ++ box_arrow (l * 0.5) (w_ * 0.2)
                           ++ [ glPopMatrix ])%R w1,
                     ret tt)
                end
            end
        end
    end in
  match body with
  | (w1, inl e) => (w1, inl e)
  | (w1, inr _) =>
      match QStation.qport qstation with
      | None => (w1, ret tt)
      | Some qport =>
          let '(port_x, port_y) := PathNode.position (QPathNode.node qport) in
          let port_direction := PathNode.direction (QPathNode.node qport) in
          let port_model :=
            model_matrix port_x port_y 0.1 [radians port_direction] in
          let port_modelview := dot view_matrix port_model in
          let w2 :=
            emit [ glPushMatrix; glLoadMatrixf (transpose view_matrix);
                   glLoadMatrixf (transpose port_modelview);
                   glColor3f 0.7 0.7 0.7 ]%R w1 in
          match _draw_cylinder 0.1 0.1 w2 with
          | (w3, inl e) => (w3, inl e)
          | (w3, inr _) =>
              (emit ([ glColor3f 0 0.7 0; glTranslatef 0 0 (0.1 + 0.01);
                       glBegin "GL_TRIANGLES"; glNormal3f 0 0 1 ]
                     ++ node_arrow 0.15 0.05
                     ++ [ glEnd; glPopMatrix ])%R w3,
               ret tt)
          end
      end
  end.

(** [_draw_path_node] *)
Definition _draw_path_node (qnode : QPathNode.t) (w : t) : t * result unit :=
  let view_matrix := GLWidget.view_matrix (gl_widget w) in
  let node := QPathNode.node qnode in
  let '(x, y) := PathNode.position node in
  let model := model_matrix x y 0.1 [radians (PathNode.direction node)] in
  let modelview := dot view_matrix model in
  let w1 :=
    emit [ glLoadMatrixf (transpose modelview); glColor3f 0.4 0.4 0.4 ]%R w in
  match _draw_cylinder 0.1 0.1 w1 with
  | (w2, inl e) => (w2, inl e)
  | (w2, inr _) =>
      (emit ([ glColor3f 1 0 0; glTranslatef 0 0 (0.1 + 0.01);
               glBegin "GL_TRIANGLES" ]
             ++ node_arrow 0.15 0.05 ++ [ glEnd ])%R w2,
       ret tt)
  end.

(** The attribute access [agv.size] in [_draw_agv]: [paintGL] passes the
    proxy, and a [QAGV] has no attribute [size] (its backend [AGV] has). *)
Definition get_qagv_size (agv : QAGV.t) : result (R * R * R) :=
  raise (AttributeError "QAGV" "size").

(** [_draw_agv] *)
Definition _draw_agv (agv : QAGV.t) (w : t) : t * result unit :=
  match get_qagv_size agv with
  | inl e => (w, inl e)
  | inr (width, length, height) =>
      let view_matrix := GLWidget.view_matrix (gl_widget w) in
      let '(x, y) := QAGV.position agv in
      let model :=
        model_matrix x y 0.1 [radians (-90); radians (QAGV.direction agv)] in
      let modelview := dot view_matrix model in
      let w1 :=
        emit [ glColorNamed "#4287f5"; glLoadMatrixf (transpose modelview) ] w in
      let w2 := _draw_box width height length w1 in
      (emit ([ glColor3f 1 0 0; glPushMatrix;
               glTranslatef 0 0 (height / 2 + 0.001) ]
             ++ box_arrow (length * 0.5) (width * 0.2)
             ++ [ glPopMatrix ])%R w2,
       ret tt)
  end.

(** The body of the AGV loop of [paintGL]. *)
Definition paint_agv (agv : QAGV.t) (w : t) : t * result unit :=
  let view_matrix := GLWidget.view_matrix (gl_widget w) in
  let '(x, y) := QAGV.position agv in
  let model := model_matrix x y 0.1 [radians (QAGV.direction agv)] in
  let modelview := dot view_matrix model in
  _draw_agv agv (emit [ glLoadMatrixf (transpose modelview) ] w).

(** [paintGL] *)
Definition paintGL (w : t) : t * result unit :=
  let w := emit [ glClear ] w in
  let w := with_gl_widget w (GLWidget.refresh_view_matrix (gl_widget w)) in
  let w :=
    emit [ glMatrixMode "GL_PROJECTION";
           glLoadMatrixf (transpose (GLWidget.projection_matrix (gl_widget w)));
           glMatrixMode "GL_MODELVIEW";
           glLoadMatrixf (transpose (GLWidget.view_matrix (gl_widget w))) ] w in
  let w := _draw_grid w in
  match for_each _draw_station
          (QClassHolder.get_all_qstations (qclass_holder w)) w with
  | (w, inl e) => (w, inl e)
  | (w, inr _) =>
      match for_each _draw_path_node
              (QClassHolder.get_all_qpath_nodes (qclass_holder w)) w with
      | (w, inl e) => (w, inl e)
      | (w, inr _) =>
          for_each paint_agv (QClassHolder.get_all_qagvs (qclass_holder w)) w
      end
  end.

End Scene.

(** Two scenes hold the same entities: the backend holder (identifier
    maps, name maps, allocators, every entity record) and the proxy holder
    (every proxy with the backend record it refers to) are equal. *)
Definition same_entities (w w' : Scene.t) : Prop :=
  Scene.class_holder w' = Scene.class_holder w
  /\ Scene.qclass_holder w' = Scene.qclass_holder w.

(** ** Vocabulary of the further statements *)

(** No stored identifier is ahead of the allocator of its class. *)
Definition station_ids_bounded (h : ClassHolder.t) : Prop :=
  forall i e, ClassHolder.stations h !! i = Some e ->
    (i <= IDManager._id_counter (ClassHolder.station_id_manager h))%Z.

Definition agv_ids_bounded (h : ClassHolder.t) : Prop :=
  forall i e, ClassHolder.agvs h !! i = Some e ->
    (i <= IDManager._id_counter (ClassHolder.agv_id_manager h))%Z.

Definition path_node_ids_bounded (h : ClassHolder.t) : Prop :=
  forall i e, ClassHolder.path_nodes h !! i = Some e ->
    (i <= IDManager._id_counter (ClassHolder.path_node_id_manager h))%Z.



(** ** [ui/realtime_view.py]: pointer handlers of [GLWidget] *)

(** The widget together with the two attributes the pointer handlers
    keep: [last_pos] and [pan_start_pos] ([None] also stands for "not yet
    assigned"; the attribute is written and never read). *)
Module GLView.

Record t : Type := mk {
  widget : GLWidget.t;
  last_pos : option (Z * Z);
  pan_start_pos : option (R * R * R)
}.

(** [GLWidget.__init__] *)
Definition init (width height : Z) : t :=
  mk (GLWidget.init width height) None None.

Inductive MouseButton : Type := LeftButton | MiddleButton | RightButton.

(** A pointer event: the position [event.pos()], the button that
    caused it ([event.button()]) and whether the left and the middle
    button are down ([event.buttons() & Qt.LeftButton], [... &
    Qt.MiddleButton]). *)
Record QMouseEvent : Type := mkEvent {
  x : Z;
  y : Z;
  button : MouseButton;
  left_down : bool;
  middle_down : bool
}.

Definition with_camera_rotation (g : GLWidget.t) (r : R * R * R) : GLWidget.t :=
  GLWidget.mk r (GLWidget.camera_distance g) (GLWidget.camera_position g)
    (GLWidget.model_matrix g) (GLWidget.view_matrix g)
    (GLWidget.projection_matrix g)
    (GLWidget.min_zoom g) (GLWidget.max_zoom g) (GLWidget.zoom_speed g)
    (GLWidget.pan_speed g) (GLWidget.rotation_speed g) (GLWidget.map_size g)
    (GLWidget.width g) (GLWidget.height g).

(** [mousePressEvent] (the later of the two definitions, which is the
    same as the earlier one). *)
Definition mousePressEvent (self : t) (event : QMouseEvent) : t * result unit :=
  let self1 := mk (widget self) (Some (x event, y event)) (pan_start_pos self) in
  match button event with
  | MiddleButton =>
      match GLWidget._screen_to_world (widget self1)
              (IZR (x event)) (IZR (y event)) with
      | inl e => (self1, inl e)
      | inr p => (mk (widget self1) (last_pos self1) (Some p), ret tt)
      end
  | _ => (self1, ret tt)
  end.

(** [mouseMoveEvent] *)
Definition mouseMoveEvent (self : t) (event : QMouseEvent) : t * result unit :=
  match last_pos self with
  | None => (self, ret tt)
  | Some (last_x, last_y) =>
      let dx := (x event - last_x)%Z in
      let dy := (y event - last_y)%Z in
      let g := widget self in
      if left_down event then
        match GLWidget._screen_to_world g (GLWidget.center_x g)
                (GLWidget.center_y g) with
        | inl e => (self, inl e)
        | inr center_before =>
            let '(r0, r1, r2) := GLWidget.camera_rotation g in
            let r0 := (r0 + IZR dy * GLWidget.rotation_speed g)%R in
            let r1 := (r1 + IZR dx * GLWidget.rotation_speed g)%R in
            let r0 := Rmax (-89) (Rmin 89 r0) in
            let g1 := with_camera_rotation g (r0, r1, r2) in
            match GLWidget._screen_to_world g1 (GLWidget.center_x g1)
                    (GLWidget.center_y g1) with
            | inl e => (mk g1 (last_pos self) (pan_start_pos self), inl e)
            | inr center_after =>
                let '(bx, by_, bz) := center_before in
                let '(ax, ay, az) := center_after in
                let '(px, py, pz) := GLWidget.camera_position g1 in
                let g2 :=
                  GLWidget.with_camera_position g1
                    (px + (bx - ax), py + (by_ - ay), pz + (bz - az))%R in
                (mk g2 (Some (x event, y event)) (pan_start_pos self), ret tt)
            end
        end
      else if middle_down event then
        match GLWidget._screen_to_world g (IZR last_x) (IZR last_y) with
        | inl e => (self, inl e)
        | inr pos_before =>
            match GLWidget._screen_to_world g (IZR (x event)) (IZR (y event)) with
            | inl e => (self, inl e)
            | inr pos_after =>
                let delta_x := (fst (fst pos_after) - fst (fst pos_before))%R in
                let delta_y := (snd (fst pos_after) - snd (fst pos_before))%R in
                let '(px, py, pz) := GLWidget.camera_position g in
                let g1 :=
                  GLWidget.with_camera_position g
                    (px - delta_x, py - delta_y, pz)%R in
                (mk g1 (Some (x event, y event)) (pan_start_pos self), ret tt)
            end
        end
      else (mk g (Some (x event, y event)) (pan_start_pos self), ret tt)
  end.

(** [mouseReleaseEvent].  The function [update_map_size] that follows
    in the source is indented into the body of this method; it is a local
    function that is never called, and [GLWidget] has no method of that
    name. *)
Definition mouseReleaseEvent (self : t) (event : QMouseEvent) : t :=
  match button event with
  | MiddleButton => mk (widget self) None None
  | _ => mk (widget self) None (pan_start_pos self)
  end.

(** [RealtimeView.update_map_size], the slot of the editor's signal
    [map_size_changed].  It calls [self.gl_widget.update_map_size], which
    the class [GLWidget] does not define: the function of that name is
    local to [mouseReleaseEvent]. *)
Definition update_map_size (self : t) (new_size : Z) : t * result unit :=
  (self, raise (AttributeError "GLWidget" "update_map_size")).

(** What reaches the widget: wheel and pointer events, resizes, paints
    and changes of the editor's map size.  [paintGL] assigns the view matrix before it draws; what it
    draws, and whether drawing raises, depends on the entities and not on
    the camera (see [Scene.paintGL]), so a paint carries the outcome of
    its drawing. *)
Inductive Event : Type :=
| Wheel (angle_delta_y : Z)
| Press (event : QMouseEvent)
| Move (event : QMouseEvent)
| Release (event : QMouseEvent)
| Resize (width height : Z)
| Paint (drawn : result unit)
| MapSizeChanged (new_size : Z).

(** One event, with the outcome of its handler. *)
Definition step (self : t) (ev : Event) : t * result unit :=
  match ev with
  | Wheel d =>
      let (g, out) := GLWidget.wheelEvent (widget self) d in
      (mk g (last_pos self) (pan_start_pos self), out)
  | Press e => mousePressEvent self e
  | Move e => mouseMoveEvent self e
  | Release e => (mouseReleaseEvent self e, ret tt)
  | Resize w h =>
      let (g, out) := GLWidget.resizeGL (widget self) w h in
      (mk g (last_pos self) (pan_start_pos self), out)
  | Paint drawn =>
      (mk (GLWidget.refresh_view_matrix (widget self))
          (last_pos self) (pan_start_pos self),
       drawn)
  | MapSizeChanged new_size => update_map_size self new_size
  end.

(** A sequence of events.  An exception that escapes a handler is
    reported by Qt; the widget keeps what the handler had assigned by
    then and receives the next event. *)
Definition run (self : t) (evs : list Event) : t :=
  fold_left (fun self ev => fst (step self ev)) evs self.

End GLView.

(** The camera bounds that every handler keeps. *)
Definition camera_in_bounds (g : GLWidget.t) : Prop :=
  GLWidget.min_zoom g = 2%R /\ GLWidget.max_zoom g = 50%R
  /\ GLWidget.zoom_speed g = 1.1%R /\ GLWidget.rotation_speed g = 0.5%R
  /\ GLWidget.map_size g = 10%Z
  /\ (2 <= GLWidget.camera_distance g <= 50)%R
  /\ (-89 <= fst (fst (GLWidget.camera_rotation g)) <= 89)%R
  /\ snd (GLWidget.camera_rotation g) = 0%R.

(** Two widget states agree on everything but the camera pose: limits,
    speeds, grid size, widget size and both cached matrices. *)
Definition same_setup (g g' : GLWidget.t) : Prop :=
  GLWidget.min_zoom g' = GLWidget.min_zoom g
  /\ GLWidget.max_zoom g' = GLWidget.max_zoom g
  /\ GLWidget.zoom_speed g' = GLWidget.zoom_speed g
  /\ GLWidget.pan_speed g' = GLWidget.pan_speed g
  /\ GLWidget.rotation_speed g' = GLWidget.rotation_speed g
  /\ GLWidget.map_size g' = GLWidget.map_size g
  /\ GLWidget.width g' = GLWidget.width g
  /\ GLWidget.height g' = GLWidget.height g
  /\ GLWidget.view_matrix g' = GLWidget.view_matrix g
  /\ GLWidget.projection_matrix g' = GLWidget.projection_matrix g.

(** A widget that has a non-empty size, the projection matrix that
    [resizeGL] computes for that size, and a view matrix that [paintGL]
    built from some camera state. *)
Definition visible (g : GLWidget.t) : Prop :=
  GLWidget.width g <> 0%Z /\ GLWidget.height g <> 0%Z
  /\ GLWidget.projection_matrix g
     = GLWidget._perspective_matrix 45
         (IZR (GLWidget.width g) / IZR (GLWidget.height g)) 0.1 100
  /\ exists c, GLWidget.view_matrix g = GLWidget._create_view_matrix c.

(** An event that is not a resize to an empty size. *)
Definition keeps_size (ev : GLView.Event) : Prop :=
  match ev with
  | GLView.Resize w h => w <> 0%Z /\ h <> 0%Z
  | _ => True
  end.

(** The outcomes of the handlers along a sequence of events. *)
Fixpoint outcomes (self : GLView.t) (evs : list GLView.Event)
  : list (result unit) :=
  match evs with
  | [] => []
  | ev :: rest =>
      snd (GLView.step self ev) :: outcomes (fst (GLView.step self ev)) rest
  end.

(** What a handler returns on a widget that is visible: it completes,
    except that a paint ends as its drawing does and that the slot for
    the map size raises. *)
Definition expected (ev : GLView.Event) : result unit :=
  match ev with
  | GLView.Paint drawn => drawn
  | GLView.MapSizeChanged _ =>
      raise (AttributeError "GLWidget" "update_map_size")
  | _ => ret tt
  end.

(** A session on the shown widget: press the middle button, drag, let
    go, turn the wheel, drag with the left button, resize, change the map
    size in the editor, repaint (with an AGV proxy in the scene, whose
    drawing raises). *)
Definition session : list GLView.Event :=
  [ GLView.Press (GLView.mkEvent 400 300 GLView.MiddleButton false true);
    GLView.Move (GLView.mkEvent 420 310 GLView.MiddleButton false true);
    GLView.Release (GLView.mkEvent 420 310 GLView.MiddleButton false false);
    GLView.Wheel 120;
    GLView.Press (GLView.mkEvent 100 100 GLView.LeftButton true false);
    GLView.Move (GLView.mkEvent 130 400 GLView.LeftButton true false);
    GLView.Resize 640 480;
    GLView.MapSizeChanged 20;
    GLView.Paint (raise (AttributeError "QAGV" "size")) ].

(** The second scene is the first one with OpenGL calls appended: the
    entities, the widget state and the stored meshes are equal. *)
Definition only_draws (w w' : Scene.t) : Prop :=
  same_entities w w'
  /\ Scene.gl_widget w' = Scene.gl_widget w
  /\ Scene.station_meshes w' = Scene.station_meshes w
  /\ exists calls, Scene.gl w' = Scene.gl w ++ calls.

(** A scene with a path node proxy and an AGV proxy, and no station. *)
Definition scene_node_agv : Scene.t :=
  let node := PathNode.new 1 2 90 (Some 5%Z) None in
  let agv := AGV.with_id (AGV.new "agv-1" (1, 2)%R (0.8, 1.2, 0.3)%R) (Some 1%Z) in
  Scene.mk ClassHolder.init
    (fst (QClassHolder.add_qagv
            (fst (QClassHolder.add_qpath_node QClassHolder.init node)) agv))
    shown_widget ∅ [].

(** What the user does to the path nodes of the map. *)
Inductive NodeAction : Type :=
| ClickAdd (pos : R * R) (direction : R)
| ClickDelete (item : QPathNode.t)
| EnterNode (name : string) (x y direction : R).

Definition node_action (self : MapEditor.t) (a : NodeAction) : MapEditor.t :=
  match a with
  | ClickAdd pos direction =>
      MapEditorHandlers.handle_mouse_press self MapEditorHandlers.PathMode
        MapEditorHandlers.AddTool MapEditorHandlers.LeftButton pos
        (Some direction) None
  | ClickDelete item =>
      MapEditorHandlers.handle_mouse_press self MapEditorHandlers.PathMode
        MapEditorHandlers.DeleteTool MapEditorHandlers.LeftButton (0, 0)%R
        None (Some item)
  | EnterNode name x y direction =>
      MapEditorHandlers.add_path_node_by_position self
        (Some (name, x, y, direction))
  end.

(** The path node proxies and the backend path nodes correspond: a proxy
    is filed under an identifier exactly when a backend node is, the proxy
    is the one its constructor makes of that node, and the node carries
    the identifier. *)
Definition nodes_in_sync (ed : MapEditor.t) : Prop :=
  QClassHolder.qpath_nodes (MapEditor.qclass_holder ed) !! None = None
  /\ forall i,
       QClassHolder.get_qpath_node_by_id (MapEditor.qclass_holder ed) i
       = QPathNode.init
           <$> ClassHolder.get_path_node_by_id (MapEditor.class_holder ed) i
       /\ (forall n,
              ClassHolder.get_path_node_by_id (MapEditor.class_holder ed) i
              = Some n -> PathNode.id n = Some i).

(** The form of the station scenario, and an editor that holds one path
    node with its proxy. *)
Definition form_A : MapEditorHandlers.StationForm :=
  MapEditorHandlers.mkForm 2 3 1 2 0.5 90.

Definition editor_with_proxy : MapEditor.t :=
  node_action MapEditor.init (ClickAdd (250, -120)%R 90%R).

(** A left-button drag on the shown widget, from (400, 300) to
    (410, 320). *)
Definition drag_start : GLView.t :=
  GLView.mk shown_widget (Some (400, 300)%Z) None.

Definition drag_event : GLView.QMouseEvent :=
  GLView.mkEvent 410 320 GLView.LeftButton true false.






(** * Properties *)

(** ** Theorems: identifier allocator *)

Lemma get_new_ids_from (n : nat) (m : IDManager.t) :
  IDManager.get_new_ids n m
  = (map (fun k => (IDManager._id_counter m + Z.of_nat k)%Z) (seq 1 n),
     IDManager.mk (IDManager._id_counter m + Z.of_nat n)%Z).
Proof.
  revert m. induction n as [|n IH]; intros [c]; simpl.
  - f_equal. f_equal. lia.
  - rewrite IH. simpl. f_equal.
    + f_equal. rewrite <- (seq_shift n 1), map_map.
      apply map_ext. intros k. lia.
    + f_equal. lia.
Qed.

(** C8. Calling [get_new_id] N times on a fresh allocator yields
    1, 2, ..., N (consecutive, hence pairwise distinct); each call returns
    the previous counter value plus one and stores it; [reset] puts the
    counter back to 0, so the next call yields 1 again. *)
Theorem C8_id_allocator :
  (forall N : nat,
      fst (IDManager.get_new_ids N IDManager.init) = map Z.of_nat (seq 1 N)
      /\ NoDup (fst (IDManager.get_new_ids N IDManager.init)))
  /\ (forall m : IDManager.t,
         fst (IDManager.get_new_id m) = (IDManager._id_counter m + 1)%Z
         /\ IDManager._id_counter (snd (IDManager.get_new_id m))
            = (IDManager._id_counter m + 1)%Z)
  /\ fst (IDManager.get_new_id IDManager.init) = 1%Z
  /\ (forall m : IDManager.t,
         IDManager._id_counter (IDManager.reset m) = 0%Z
         /\ fst (IDManager.get_new_id (IDManager.reset m)) = 1%Z).
Proof.
  repeat split; try reflexivity.
  - rewrite get_new_ids_from. simpl. apply map_ext. intros k. lia.
  - rewrite get_new_ids_from. simpl.
    apply NoDup_fmap_2.
    + intros a b Hab. lia.
    + apply NoDup_ListNoDup, seq_NoDup.
Qed.

(** ** Theorems: entity store *)

Section NameIndex.

Context {E : Type} (eid : E -> option Z) (ename : E -> string).

Lemma index_consistent_empty : index_consistent eid ename ∅ ∅.
Proof.
  split.
  - intros i e H. rewrite lookup_empty in H. discriminate.
  - intros n e _. split.
    + intros H. rewrite lookup_empty in H. discriminate.
    + intros (i & H & _). rewrite lookup_empty in H. discriminate.
Qed.

Lemma truthy_nonempty (s : string) : truthy s = true <-> s <> EmptyString.
Proof. destruct s; simpl; split; congruence. Qed.

Lemma truthy_empty (s : string) : truthy s = false <-> s = EmptyString.
Proof. destruct s; simpl; split; congruence. Qed.

(** The two assignments of an [add]. *)
Lemma index_consistent_insert by_id by_name (k : Z) (e : E) :
  index_consistent eid ename by_id by_name ->
  eid e = Some k ->
  by_id !! k = None ->
  (ename e = EmptyString \/ by_name !! ename e = None) ->
  index_consistent eid ename (<[k := e]> by_id)
    (if truthy (ename e) then <[ename e := e]> by_name else by_name).
Proof.
  intros [Hkey Hidx] Eid Hfresh Hname. split.
  - intros i x. rewrite lookup_insert. case_decide.
    + intros [= <-]. subst. exact Eid.
    + apply Hkey.
  - intros n x Hn.
    assert (Hother : ename e <> n ->
              (by_name !! n = Some x
               <-> exists i, <[k := e]> by_id !! i = Some x /\ ename x = n)).
    { intros Hne. rewrite (Hidx n x Hn). split.
      - intros (j & Hj & Hjn). exists j. split; [| exact Hjn].
        rewrite lookup_insert_ne; [exact Hj |].
        intros ->. rewrite Hfresh in Hj. discriminate.
      - intros (j & Hj & Hjn). rewrite lookup_insert in Hj.
        case_decide.
        + injection Hj as <-. contradiction.
        + exists j. split; assumption. }
    destruct (truthy (ename e)) eqn:Ht.
    + destruct (decide (ename e = n)) as [Heq | Hne].
      * rewrite Heq, lookup_insert_eq. split.
        -- intros [= <-]. exists k. split; [apply lookup_insert_eq | exact Heq].
        -- intros (j & Hj & Hjn). rewrite lookup_insert in Hj.
           case_decide; [exact Hj |].
           assert (Hold : by_name !! n = Some x).
           { apply (Hidx n x Hn). exists j. split; assumption. }
           destruct Hname as [Hname | Hname].
           ++ rewrite Heq in Hname. contradiction.
           ++ rewrite Heq, Hold in Hname. discriminate.
      * rewrite lookup_insert_ne by exact Hne. apply Hother, Hne.
    + apply truthy_empty in Ht. apply Hother. rewrite Ht. congruence.
Qed.

(** The two [pop]s of a [delete]. *)
Lemma index_consistent_delete by_id by_name (k : Z) (e : E) :
  index_consistent eid ename by_id by_name ->
  by_id !! k = Some e ->
  index_consistent eid ename (delete k by_id)
    (if decide (is_Some (by_name !! ename e))
     then delete (ename e) by_name else by_name).
Proof.
  intros [Hkey Hidx] Hk. split.
  - intros i x. rewrite lookup_delete. case_decide; [discriminate |].
    apply Hkey.
  - intros n x Hn.
    assert (Hrest : (exists i, delete k by_id !! i = Some x /\ ename x = n)
                    <-> by_name !! n = Some x /\ x <> e).
    { rewrite (Hidx n x Hn). split.
      - intros (j & Hj & Hjn). rewrite lookup_delete in Hj.
        case_decide; [discriminate |]. split.
        + exists j. split; assumption.
        + intros ->. apply Hkey in Hj. apply Hkey in Hk. congruence.
      - intros [(j & Hj & Hjn) Hxe]. exists j. split; [| exact Hjn].
        rewrite lookup_delete_ne; [exact Hj |].
        intros ->. congruence. }
    rewrite Hrest.
    assert (He : ename e = n -> by_name !! n = Some x -> x = e).
    { intros Hen Hx.
      assert (Hin : by_name !! n = Some e).
      { apply (Hidx n e Hn). exists k. split; assumption. }
      congruence. }
    case_decide as Hd.
    + rewrite lookup_delete. case_decide as Hc.
      * split; [discriminate |]. intros [Hx Hxe]. exfalso. auto.
      * split.
        -- intros Hx. split; [exact Hx |]. intros ->.
           apply Hc.
           assert (Hin : exists i, by_id !! i = Some e /\ ename e = n)
             by (apply (Hidx n e Hn); exact Hx).
           destruct Hin as (_ & _ & Hin). exact Hin.
        -- intros [Hx _]. exact Hx.
    + split.
      * intros Hx. split; [exact Hx |]. intros ->.
        apply Hd.
        assert (Hin : exists i, by_id !! i = Some e /\ ename e = n)
          by (apply (Hidx n e Hn); exact Hx).
        destruct Hin as (_ & _ & Hin). rewrite Hin. eauto.
      * intros [Hx _]. exact Hx.
Qed.

End NameIndex.

Lemma add_station_unfold (h : ClassHolder.t) (e : Station.t) :
  let k := station_key h e in
  let e' := fst (ClassHolder.add_station h e) in
  let h' := snd (ClassHolder.add_station h e) in
  e' = Station.with_id e (Some k)
  /\ ClassHolder.stations h' = <[k := e']> (ClassHolder.stations h)
  /\ ClassHolder.stations_by_name h'
     = (if truthy (Station.name e')
        then <[Station.name e' := e']> (ClassHolder.stations_by_name h)
        else ClassHolder.stations_by_name h).
Proof.
  unfold ClassHolder.add_station, station_key.
  destruct e as [p ty n [i|] sz d po me]; simpl; auto.
Qed.

Lemma add_agv_unfold (h : ClassHolder.t) (e : AGV.t) :
  let k := agv_key h e in
  let e' := fst (ClassHolder.add_agv h e) in
  let h' := snd (ClassHolder.add_agv h e) in
  e' = AGV.with_id e (Some k)
  /\ ClassHolder.agvs h' = <[k := e']> (ClassHolder.agvs h)
  /\ ClassHolder.agvs_by_name h'
     = (if truthy (AGV.name e')
        then <[AGV.name e' := e']> (ClassHolder.agvs_by_name h)
        else ClassHolder.agvs_by_name h).
Proof.
  unfold ClassHolder.add_agv, agv_key.
  destruct e as [n p sz [i|] ms ma md d st ai po]; simpl; auto.
Qed.

Lemma add_path_node_unfold (h : ClassHolder.t) (e : PathNode.t) :
  let k := path_node_key h e in
  let e' := fst (ClassHolder.add_path_node h e) in
  let h' := snd (ClassHolder.add_path_node h e) in
  e' = PathNode.with_id e (Some k)
  /\ ClassHolder.path_nodes h' = <[k := e']> (ClassHolder.path_nodes h).
Proof.
  unfold ClassHolder.add_path_node, path_node_key.
  destruct e as [p cp [i|] d n]; simpl; auto.
Qed.

Lemma add_station_consistent (h : ClassHolder.t) (e : Station.t) :
  stations_consistent h ->
  (Station.name e = EmptyString
   \/ ClassHolder.get_station_by_name h (Station.name e) = None) ->
  ClassHolder.get_station_by_id h (station_key h e) = None ->
  stations_consistent (snd (ClassHolder.add_station h e)).
Proof.
  intros Hinv Hname Hid.
  destruct (add_station_unfold h e) as (Ee & Emap & Eidx).
  unfold stations_consistent. rewrite Emap, Eidx.
  apply index_consistent_insert; try assumption.
  - rewrite Ee. reflexivity.
  - rewrite Ee. exact Hname.
Qed.

Lemma add_agv_consistent (h : ClassHolder.t) (e : AGV.t) :
  agvs_consistent h ->
  (AGV.name e = EmptyString
   \/ ClassHolder.get_agv_by_name h (AGV.name e) = None) ->
  ClassHolder.get_agv_by_id h (agv_key h e) = None ->
  agvs_consistent (snd (ClassHolder.add_agv h e)).
Proof.
  intros Hinv Hname Hid.
  destruct (add_agv_unfold h e) as (Ee & Emap & Eidx).
  unfold agvs_consistent. rewrite Emap, Eidx.
  apply index_consistent_insert; try assumption.
  - rewrite Ee. reflexivity.
  - rewrite Ee. exact Hname.
Qed.

Lemma delete_station_consistent (h : ClassHolder.t) (i : Z) :
  stations_consistent h ->
  stations_consistent (snd (ClassHolder.delete_station h i)).
Proof.
  intros Hinv. unfold ClassHolder.delete_station.
  destruct (ClassHolder.stations h !! i) as [e|] eqn:Hi; [| exact Hinv].
  apply index_consistent_delete; assumption.
Qed.

Lemma delete_agv_consistent (h : ClassHolder.t) (i : Z) :
  agvs_consistent h ->
  agvs_consistent (snd (ClassHolder.delete_agv h i)).
Proof.
  intros Hinv. unfold ClassHolder.delete_agv.
  destruct (ClassHolder.agvs h !! i) as [e|] eqn:Hi; [| exact Hinv].
  apply index_consistent_delete; assumption.
Qed.

(** C2, as stated, fails: two stations that share a name are added, the
    first is deleted by its identifier, and the name no longer resolves
    although the second station is still in the identifier map. *)
Lemma C2_duplicate_name_counterexample :
  let h1 := snd (ClassHolder.add_station ClassHolder.init station_A) in
  let a := fst (ClassHolder.add_station ClassHolder.init station_A) in
  let h2 := snd (ClassHolder.add_station h1 station_B) in
  let b := fst (ClassHolder.add_station h1 station_B) in
  let h3 := snd (ClassHolder.delete_station h2 1) in
  Station.id a = Some 1%Z
  /\ Station.name a = "Dock"%string
  /\ Station.name b = "Dock"%string
  /\ ClassHolder.get_station_by_id h3 2 = Some b
  /\ ClassHolder.get_station_by_name h3 "Dock" = None.
Proof.
  repeat split; reflexivity.
Qed.

(** C2 (amended). For stations and for AGVs the name index stays
    consistent with the identifier map: the fresh holder is consistent;
    every delete keeps it so; an add keeps it so when the entity's name is
    empty (then it is not indexed) or not yet in the name index, and the
    identifier it is filed under is not yet in the identifier map.
    Consistency means: each entity is filed under its own identifier and,
    for every non-empty name n, [get_by_name n] returns an entity exactly
    when that entity is in the identifier map and carries the name n. *)
Theorem C2_name_index_consistent :
  (stations_consistent ClassHolder.init /\ agvs_consistent ClassHolder.init)
  /\ (forall h e,
         stations_consistent h ->
         (Station.name e = EmptyString
          \/ ClassHolder.get_station_by_name h (Station.name e) = None) ->
         ClassHolder.get_station_by_id h (station_key h e) = None ->
         stations_consistent (snd (ClassHolder.add_station h e)))
  /\ (forall h i,
         stations_consistent h ->
         stations_consistent (snd (ClassHolder.delete_station h i)))
  /\ (forall h e,
         agvs_consistent h ->
         (AGV.name e = EmptyString
          \/ ClassHolder.get_agv_by_name h (AGV.name e) = None) ->
         ClassHolder.get_agv_by_id h (agv_key h e) = None ->
         agvs_consistent (snd (ClassHolder.add_agv h e)))
  /\ (forall h i,
         agvs_consistent h ->
         agvs_consistent (snd (ClassHolder.delete_agv h i))).
Proof.
  split; [split; apply index_consistent_empty |].
  split; [exact add_station_consistent |].
  split; [exact delete_station_consistent |].
  split; [exact add_agv_consistent | exact delete_agv_consistent].
Qed.

Lemma C2_name_index_consistent_witness :
  stations_consistent
    (snd (ClassHolder.delete_station
            (snd (ClassHolder.add_station ClassHolder.init station_A)) 1)).
Proof.
  destruct C2_name_index_consistent as ([H0 _] & Hadd & Hdel & _).
  apply Hdel. apply Hadd.
  - exact H0.
  - right. reflexivity.
  - reflexivity.
Defined.

(** C4, as stated, fails: deleting a stored station removes it, yet the
    call returns [None], whose truth value is false, so the returned value
    does not tell whether anything was removed. *)
Lemma C4_return_value_counterexample :
  let h1 := snd (ClassHolder.add_station ClassHolder.init station_A) in
  is_Some (ClassHolder.get_station_by_id h1 1)
  /\ ClassHolder.get_station_by_id
       (snd (ClassHolder.delete_station h1 1)) 1 = None
  /\ bool_of_None (fst (ClassHolder.delete_station h1 1)) = false.
Proof.
  repeat split. eexists. reflexivity.
Qed.

Lemma delete_station_absent (h : ClassHolder.t) (i : Z) :
  ClassHolder.get_station_by_id h i = None ->
  ClassHolder.delete_station h i = (PyNone, h).
Proof.
  unfold ClassHolder.get_station_by_id, ClassHolder.delete_station.
  intros ->. reflexivity.
Qed.

Lemma delete_agv_absent (h : ClassHolder.t) (i : Z) :
  ClassHolder.get_agv_by_id h i = None ->
  ClassHolder.delete_agv h i = (PyNone, h).
Proof.
  unfold ClassHolder.get_agv_by_id, ClassHolder.delete_agv.
  intros ->. reflexivity.
Qed.

Lemma delete_path_node_absent (h : ClassHolder.t) (i : Z) :
  ClassHolder.get_path_node_by_id h i = None ->
  ClassHolder.delete_path_node h i = (PyNone, h).
Proof.
  unfold ClassHolder.get_path_node_by_id, ClassHolder.delete_path_node.
  intros Hi. rewrite delete_id by exact Hi. destruct h. reflexivity.
Qed.

Lemma delete_station_lookup (h : ClassHolder.t) (i : Z) :
  fst (ClassHolder.delete_station h i) = PyNone
  /\ ClassHolder.get_station_by_id (snd (ClassHolder.delete_station h i)) i
     = None
  /\ (forall e, ClassHolder.get_station_by_id h i = Some e ->
        ClassHolder.get_station_by_name
          (snd (ClassHolder.delete_station h i)) (Station.name e) = None)
  /\ (forall j, j <> i ->
        ClassHolder.get_station_by_id (snd (ClassHolder.delete_station h i)) j
        = ClassHolder.get_station_by_id h j).
Proof.
  unfold ClassHolder.get_station_by_id, ClassHolder.get_station_by_name,
    ClassHolder.delete_station.
  destruct (ClassHolder.stations h !! i) as [e|] eqn:Hi; simpl.
  - repeat split.
    + apply lookup_delete_eq.
    + intros e' [= <-]. case_decide as Hd.
      * apply lookup_delete_eq.
      * destruct (ClassHolder.stations_by_name h !! Station.name e) eqn:Hn;
          [exfalso; apply Hd; eauto | reflexivity].
    + intros j Hj. apply lookup_delete_ne. congruence.
  - repeat split; [exact Hi | discriminate].
Qed.

Lemma delete_agv_lookup (h : ClassHolder.t) (i : Z) :
  fst (ClassHolder.delete_agv h i) = PyNone
  /\ ClassHolder.get_agv_by_id (snd (ClassHolder.delete_agv h i)) i = None
  /\ (forall e, ClassHolder.get_agv_by_id h i = Some e ->
        ClassHolder.get_agv_by_name
          (snd (ClassHolder.delete_agv h i)) (AGV.name e) = None)
  /\ (forall j, j <> i ->
        ClassHolder.get_agv_by_id (snd (ClassHolder.delete_agv h i)) j
        = ClassHolder.get_agv_by_id h j).
Proof.
  unfold ClassHolder.get_agv_by_id, ClassHolder.get_agv_by_name,
    ClassHolder.delete_agv.
  destruct (ClassHolder.agvs h !! i) as [e|] eqn:Hi; simpl.
  - repeat split.
    + apply lookup_delete_eq.
    + intros e' [= <-]. case_decide as Hd.
      * apply lookup_delete_eq.
      * destruct (ClassHolder.agvs_by_name h !! AGV.name e) eqn:Hn;
          [exfalso; apply Hd; eauto | reflexivity].
    + intros j Hj. apply lookup_delete_ne. congruence.
  - repeat split; [exact Hi | discriminate].
Qed.

Lemma delete_path_node_lookup (h : ClassHolder.t) (i : Z) :
  fst (ClassHolder.delete_path_node h i) = PyNone
  /\ ClassHolder.get_path_node_by_id
       (snd (ClassHolder.delete_path_node h i)) i = None
  /\ (forall j, j <> i ->
        ClassHolder.get_path_node_by_id
          (snd (ClassHolder.delete_path_node h i)) j
        = ClassHolder.get_path_node_by_id h j).
Proof.
  unfold ClassHolder.get_path_node_by_id, ClassHolder.delete_path_node.
  simpl. repeat split.
  - apply lookup_delete_eq.
  - intros j Hj. apply lookup_delete_ne. congruence.
Qed.

(** C4 (amended). For stations, AGVs and path nodes, [delete_by_id]
    returns [None] in every case; afterwards [get_by_id] of that
    identifier finds nothing, the other identifiers are untouched and,
    for stations and AGVs, the deleted entity's name is no longer in the
    name index; deleting an identifier that is not stored leaves the holder
    unchanged; and after an add followed by the delete of the identifier
    the entity was filed under, [get_by_id] finds nothing. *)
Theorem C4_delete_by_id :
  (forall h i,
      fst (ClassHolder.delete_station h i) = PyNone
      /\ ClassHolder.get_station_by_id (snd (ClassHolder.delete_station h i)) i
         = None
      /\ (forall e, ClassHolder.get_station_by_id h i = Some e ->
            ClassHolder.get_station_by_name
              (snd (ClassHolder.delete_station h i)) (Station.name e) = None)
      /\ (forall j, j <> i ->
            ClassHolder.get_station_by_id
              (snd (ClassHolder.delete_station h i)) j
            = ClassHolder.get_station_by_id h j))
  /\ (forall h i,
         fst (ClassHolder.delete_agv h i) = PyNone
         /\ ClassHolder.get_agv_by_id (snd (ClassHolder.delete_agv h i)) i
            = None
         /\ (forall e, ClassHolder.get_agv_by_id h i = Some e ->
               ClassHolder.get_agv_by_name
                 (snd (ClassHolder.delete_agv h i)) (AGV.name e) = None)
         /\ (forall j, j <> i ->
               ClassHolder.get_agv_by_id (snd (ClassHolder.delete_agv h i)) j
               = ClassHolder.get_agv_by_id h j))
  /\ (forall h i,
         fst (ClassHolder.delete_path_node h i) = PyNone
         /\ ClassHolder.get_path_node_by_id
              (snd (ClassHolder.delete_path_node h i)) i = None
         /\ (forall j, j <> i ->
               ClassHolder.get_path_node_by_id
                 (snd (ClassHolder.delete_path_node h i)) j
               = ClassHolder.get_path_node_by_id h j))
  /\ (forall h i,
         (ClassHolder.get_station_by_id h i = None ->
          ClassHolder.delete_station h i = (PyNone, h))
         /\ (ClassHolder.get_agv_by_id h i = None ->
             ClassHolder.delete_agv h i = (PyNone, h))
         /\ (ClassHolder.get_path_node_by_id h i = None ->
             ClassHolder.delete_path_node h i = (PyNone, h)))
  /\ (forall h (s : Station.t) (a : AGV.t) (n : PathNode.t),
         (Station.id (fst (ClassHolder.add_station h s))
          = Some (station_key h s)
          /\ ClassHolder.get_station_by_id
               (snd (ClassHolder.add_station h s)) (station_key h s)
             = Some (fst (ClassHolder.add_station h s))
          /\ ClassHolder.get_station_by_id
               (snd (ClassHolder.delete_station
                       (snd (ClassHolder.add_station h s)) (station_key h s)))
               (station_key h s) = None)
         /\ (AGV.id (fst (ClassHolder.add_agv h a)) = Some (agv_key h a)
             /\ ClassHolder.get_agv_by_id
                  (snd (ClassHolder.add_agv h a)) (agv_key h a)
                = Some (fst (ClassHolder.add_agv h a))
             /\ ClassHolder.get_agv_by_id
                  (snd (ClassHolder.delete_agv
                          (snd (ClassHolder.add_agv h a)) (agv_key h a)))
                  (agv_key h a) = None)
         /\ (PathNode.id (fst (ClassHolder.add_path_node h n))
             = Some (path_node_key h n)
             /\ ClassHolder.get_path_node_by_id
                  (snd (ClassHolder.add_path_node h n)) (path_node_key h n)
                = Some (fst (ClassHolder.add_path_node h n))
             /\ ClassHolder.get_path_node_by_id
                  (snd (ClassHolder.delete_path_node
                          (snd (ClassHolder.add_path_node h n))
                          (path_node_key h n)))
                  (path_node_key h n) = None)).
Proof.
  split; [exact delete_station_lookup |].
  split; [exact delete_agv_lookup |].
  split; [exact delete_path_node_lookup |].
  split.
  - intros h i. split; [apply delete_station_absent |].
    split; [apply delete_agv_absent | apply delete_path_node_absent].
  - intros h s a n. repeat split.
    + destruct (add_station_unfold h s) as (-> & _). reflexivity.
    + destruct (add_station_unfold h s) as (_ & Hm & _).
      unfold ClassHolder.get_station_by_id. rewrite Hm.
      apply lookup_insert_eq.
    + apply delete_station_lookup.
    + destruct (add_agv_unfold h a) as (-> & _). reflexivity.
    + destruct (add_agv_unfold h a) as (_ & Hm & _).
      unfold ClassHolder.get_agv_by_id. rewrite Hm.
      apply lookup_insert_eq.
    + apply delete_agv_lookup.
    + destruct (add_path_node_unfold h n) as (-> & _). reflexivity.
    + destruct (add_path_node_unfold h n) as (_ & Hm).
      unfold ClassHolder.get_path_node_by_id. rewrite Hm.
      apply lookup_insert_eq.
    + apply delete_path_node_lookup.
Qed.

Lemma C4_delete_by_id_witness :
  ClassHolder.delete_station ClassHolder.init 7 = (PyNone, ClassHolder.init)
  /\ ClassHolder.delete_agv ClassHolder.init 7 = (PyNone, ClassHolder.init)
  /\ ClassHolder.delete_path_node ClassHolder.init 7
     = (PyNone, ClassHolder.init).
Proof.
  destruct C4_delete_by_id as (_ & _ & _ & Habs & _).
  destruct (Habs ClassHolder.init 7%Z) as (Hs & Ha & Hn).
  split; [apply Hs; reflexivity |].
  split; [apply Ha; reflexivity | apply Hn; reflexivity].
Defined.

(** ** Theorems: visual proxies *)

Lemma Int_part_small (x : R) : (0 <= x < 1)%R -> Int_part x = 0%Z.
Proof.
  intros [H0 H1]. unfold Int_part.
  assert (Hup : up x = 1%Z).
  { symmetry. apply tech_up; simpl; lra. }
  rewrite Hup. reflexivity.
Qed.

(** What [_update_port] computes once the station type is at hand: the
    port offset rotated by the station direction and translated by the
    station position, and the sum of the two directions modulo 360. *)
Lemma port_pose_rotate (s : Station.t) :
  let ty := Station.station_type s in
  let rot := rotate2d (StationType.port_x ty, StationType.port_y ty)
               (Station.direction s) in
  QStation.port_pose s
  = ((fst rot + fst (Station.position s))%R,
     (snd rot + snd (Station.position s))%R,
     float_mod (Station.direction s + StationType.port_direction ty) 360).
Proof.
  unfold QStation.port_pose, rotate2d, radians. simpl.
  apply (f_equal2 pair); [apply (f_equal2 pair); ring | reflexivity].
Qed.

Lemma port_pose_scenario :
  QStation.port_pose scenario_station = (2, 4.5, 90)%R.
Proof.
  unfold QStation.port_pose, scenario_station, scenario_type, float_mod.
  simpl.
  replace (90 * PI / 180)%R with (PI / 2)%R by field.
  rewrite cos_PI2, sin_PI2.
  rewrite (Int_part_small ((90 + 0) / 360)) by lra.
  apply (f_equal2 pair); [apply (f_equal2 pair) |]; simpl; lra.
Qed.

(** C1. The derived port is never produced: the constructor of the
    station proxy raises AttributeError at [self.station_type] before
    [_update_port] is reached, [_update_port] itself raises at the same
    access and leaves the proxy as it was, and [set_direction] stores the
    new direction in the station and then raises, so the port is neither
    created nor moved.  In the scenario (station at (2,3), direction 90,
    port offset (1.5, 0)) no proxy and no port come into being. *)
Theorem C1_station_proxy_raises :
  (forall s : Station.t,
      QStation.init s = raise (AttributeError "QStation" "station_type"))
  /\ (forall q : QStation.t,
         QStation._update_port q
         = (q, raise (AttributeError "QStation" "station_type")))
  /\ (forall (q : QStation.t) (angle : R),
         QStation.set_direction q angle
         = (QStation.mk (Station.with_direction (QStation.station q) angle)
              (QStation.rect q) (QStation.qport q),
            raise (AttributeError "QStation" "station_type")))
  /\ QStation.init scenario_station
     = raise (AttributeError "QStation" "station_type")
  /\ (forall h : QClassHolder.t,
         QClassHolder.add_qstation h scenario_station
         = (h, raise (AttributeError "QStation" "station_type"))).
Proof.
  repeat split.
Qed.

(** C10. Placement at scene coordinates (100 x, -100 y) of the model
    position (x, y) is what the code does for AGV proxies only.
    [QAGV.__init__] sets that item position (the bounding rectangle is
    centred on the item origin).  [QPathNode.__init__] hands the base
    constructor a circle centred there and leaves the item at the origin,
    so the direction arrow, a child item whose polygon starts at the
    child's origin and stays within [arrow_size] = 8 of it, is drawn at
    the scene origin whatever the node's position: for the node at (1, 2)
    the circle is centred on (100, -200) and the arrow starts at (0, 0).
    [QStation.__init__] hands the base constructor a rectangle centred at
    (100 x, -100 y) and then raises for every station, so that
    [add_qstation] stores nothing: no station proxy is ever placed. *)
Theorem C10_placement_diverges :
  (forall a : AGV.t,
      let q := QAGV.init a in
      scene_center (QAGV.item_pos q) (QAGV.boundingRect q)
      = (100 * fst (AGV.position a), - (100 * snd (AGV.position a)))%R
      /\ QAGV.item_pos q
         = (100 * fst (AGV.position a), - (100 * snd (AGV.position a)))%R)
  /\ (forall n : PathNode.t,
         let q := QPathNode.init n in
         scene_center (QPathNode.item_pos q) (QPathNode.rect q)
         = (100 * fst (PathNode.position n),
            - (100 * snd (PathNode.position n)))%R
         /\ QPathNode.item_pos q = QPointF_origin
         /\ hd_error (arrow_in_scene q) = Some QPointF_origin
         /\ Forall (fun p => (fst p * fst p + snd p * snd p <= 8 * 8)%R)
              (arrow_in_scene q))
  /\ (forall s : Station.t,
         QStation.init s = raise (AttributeError "QStation" "station_type")
         /\ (forall h : QClassHolder.t,
                QClassHolder.add_qstation h s
                = (h, raise (AttributeError "QStation" "station_type")))
         /\ scene_center QPointF_origin (QStation.init_rect s)
            = (100 * fst (Station.position s),
               - (100 * snd (Station.position s)))%R)
  /\ (scene_center (QPathNode.item_pos (QPathNode.init node_5))
         (QPathNode.rect (QPathNode.init node_5)) = (100, -200)%R
      /\ hd_error (arrow_in_scene (QPathNode.init node_5)) = Some (0, 0)%R
      /\ (0, 0)%R <> (100, -200)%R)
  /\ QStation.init scenario_station
     = raise (AttributeError "QStation" "station_type").
Proof.
  split; [| split; [| split; [| split]]].
  - intros a q. split.
    + unfold scene_center, rect_center, QAGV.boundingRect; simpl.
      apply (f_equal2 pair); field.
    + simpl. apply (f_equal2 pair); ring.
  - intros n q. split; [| split; [| split]].
    + unfold scene_center, rect_center; simpl.
      apply (f_equal2 pair); field.
    + reflexivity.
    + unfold arrow_in_scene, QPointF_origin. simpl.
      f_equal. apply (f_equal2 pair); ring.
    + unfold arrow_in_scene, QPointF_origin. simpl.
      assert (Hle : forall a : R,
                 ((0 + 8 * cos a) * (0 + 8 * cos a)
                  + (0 + - (8) * sin a) * (0 + - (8) * sin a) <= 8 * 8)%R).
      { intros a. pose proof (sin2_cos2 a) as H. unfold Rsqr in H. nra. }
      assert (Hle' : forall a : R,
                 ((0 + - (8) / 2 * cos a) * (0 + - (8) / 2 * cos a)
                  + (0 + 8 / 2 * sin a) * (0 + 8 / 2 * sin a) <= 8 * 8)%R).
      { intros a. pose proof (sin2_cos2 a) as H. unfold Rsqr in H. nra. }
      constructor; [cbn [fst snd]; lra |].
      constructor; [cbn [fst snd]; apply Hle |].
      constructor; [cbn [fst snd]; apply Hle' |].
      constructor; [cbn [fst snd]; apply Hle |].
      constructor; [cbn [fst snd]; apply Hle' |].
      constructor.
  - intros s. split; [reflexivity |]. split; [reflexivity |].
    unfold scene_center, rect_center; simpl.
    apply (f_equal2 pair); field.
  - split; [| split].
    + unfold scene_center, rect_center; simpl.
      apply (f_equal2 pair); field.
    + unfold arrow_in_scene, QPointF_origin. simpl.
      f_equal. apply (f_equal2 pair); ring.
    + intros H. injection H as H _. lra.
  - reflexivity.
Qed.

(** ** Theorems: persistence *)



(** The spin box statement of [load_map]: on the cleared editor the slot
    [update_map_size] completes and leaves the holders as they are; the
    map size ends as the value the spin box took, unless the spin box had
    that value already. *)
Lemma setValue_cleared (ed : MapEditor.t) (m : Z) :
  MapEditorHandlers.map_size_spin_setValue
    (MapLoader.with_map_size (MapLoader.clear_existing_data ed) m) m
  = (MapEditor.mk
       (if (Z.max 5 (Z.min 100 m) =? MapEditor.map_size_spin ed)%Z
        then m else Z.max 5 (Z.min 100 m))
       (Z.max 5 (Z.min 100 m))
       (MapEditor.station_manager ed)
       (MapEditor.class_holder (MapLoader.clear_existing_data ed))
       (QClassHolder.mk ∅ ∅ ∅),
     ret tt).
Proof.
  unfold MapEditorHandlers.map_size_spin_setValue. simpl.
  destruct (Z.eqb_spec (Z.max 5 (Z.min 100 m)) (MapEditor.map_size_spin ed))
    as [E | E].
  - rewrite E. reflexivity.
  - reflexivity.
Qed.

(** Loading a document with a path node stops at the first node: the
    backend node has been stored under a newly allocated identifier, with
    the document's identifier as its direction, and the proxy call
    raises. *)
Lemma load_map_node_raises (doc : Document.t) (ed : MapEditor.t)
    (e : Document.node_elem) (rest : list Document.node_elem) (i : Z) :
  Document.path_nodes doc = e :: rest ->
  Document.node_id e = Some i ->
  snd (MapLoader.load_map doc ed)
  = raise (AttributeError "QClassHolder" "add_path_node")
  /\ ClassHolder.path_nodes
       (MapEditor.class_holder (fst (MapLoader.load_map doc ed)))
     = {[ 1%Z := PathNode.mk (Document.node_x e, Document.node_y e) []
                   (Some 1%Z) (IZR i) None ]}.
Proof.
  intros Hn Hi. unfold MapLoader.load_map. rewrite setValue_cleared, Hn.
  simpl. rewrite Hi. simpl. split; reflexivity.
Qed.

(** C3. The round trip is broken.  The store with the single path node
    5 (direction 90) is exported to a document that lists the node with
    its identifier and direction; loading that document raises
    AttributeError at [qclass_holder.add_path_node] and leaves a store in
    which identifier 5 is gone and the node sits under identifier 1 with
    direction 5. *)
Theorem C3_round_trip_broken :
  ClassHolder.get_path_node_by_id (MapEditor.class_holder editor_one_node) 5
  = Some node_5
  /\ exists doc,
       MapExporter.save_map editor_one_node = ret doc
       /\ Document.path_nodes doc = [Document.mkNode (Some 5%Z) 1 2 90]
       /\ Document.stations doc = []
       /\ Document.agvs doc = []
       /\ snd (MapLoader.load_map doc editor_one_node)
          = raise (AttributeError "QClassHolder" "add_path_node")
       /\ ClassHolder.get_path_node_by_id
            (MapEditor.class_holder (fst (MapLoader.load_map doc editor_one_node)))
            5 = None
       /\ ClassHolder.get_path_node_by_id
            (MapEditor.class_holder (fst (MapLoader.load_map doc editor_one_node)))
            1 = Some (PathNode.mk (1, 2)%R [] (Some 1%Z) 5%R None).
Proof.
  split; [reflexivity |].
  eexists. split; [reflexivity |].
  repeat split; reflexivity.
Qed.

(** ** Theorems: matrices *)

Lemma mat_eq (a b : Mat4) :
  m00 a = m00 b -> m01 a = m01 b -> m02 a = m02 b -> m03 a = m03 b ->
  m10 a = m10 b -> m11 a = m11 b -> m12 a = m12 b -> m13 a = m13 b ->
  m20 a = m20 b -> m21 a = m21 b -> m22 a = m22 b -> m23 a = m23 b ->
  m30 a = m30 b -> m31 a = m31 b -> m32 a = m32 b -> m33 a = m33 b -> a = b.
Proof. destruct a, b; simpl; intros; subst; reflexivity. Qed.

Ltac mat_unfold :=
  cbv [dot dot_vec adj det scale identity translation rotation_x rotation_y
       rotation_z zoom_matrix
       m00 m01 m02 m03 m10 m11 m12 m13 m20 m21 m22 m23 m30 m31 m32 m33
       v0 v1 v2 v3].

Lemma adj_dot (a : Mat4) : dot (adj a) a = scale (det a) identity.
Proof. destruct a; apply mat_eq; mat_unfold; ring. Qed.

Lemma dot_assoc (a b c : Mat4) : dot (dot a b) c = dot a (dot b c).
Proof. destruct a, b, c; apply mat_eq; mat_unfold; ring. Qed.

Lemma dot_identity_l (a : Mat4) : dot identity a = a.
Proof. destruct a; apply mat_eq; mat_unfold; ring. Qed.

Lemma dot_identity_r (a : Mat4) : dot a identity = a.
Proof. destruct a; apply mat_eq; mat_unfold; ring. Qed.

Lemma det_dot (a b : Mat4) : det (dot a b) = (det a * det b)%R.
Proof. destruct a, b; mat_unfold; ring. Qed.

Lemma det_identity : det identity = 1%R.
Proof. mat_unfold; ring. Qed.

Lemma dot_scale_identity (k : R) (a : Mat4) :
  dot (scale k identity) a = scale k a.
Proof. destruct a; apply mat_eq; mat_unfold; ring. Qed.

Lemma scale_scale (k l : R) (a : Mat4) :
  scale k (scale l a) = scale (k * l) a.
Proof. destruct a; apply mat_eq; mat_unfold; ring. Qed.

Lemma scale_1 (a : Mat4) : scale 1 a = a.
Proof. destruct a; apply mat_eq; mat_unfold; ring. Qed.

(** [linalg_inv] returns the inverse: a right inverse of the argument is
    what it computes. *)
Lemma linalg_inv_unique (a b : Mat4) :
  dot a b = identity -> linalg_inv a = ret b.
Proof.
  intros Hab.
  assert (Hdet : det a <> 0%R).
  { intros H0. pose proof (det_dot a b) as Hd.
    rewrite Hab, det_identity, H0 in Hd. lra. }
  unfold linalg_inv. destruct (Req_dec_T (det a) 0) as [E | _];
    [contradiction |].
  f_equal.
  assert (Hadj : adj a = scale (det a) b).
  { rewrite <- (dot_identity_r (adj a)), <- Hab, <- dot_assoc, adj_dot.
    apply dot_scale_identity. }
  rewrite Hadj, scale_scale.
  replace (/ det a * det a)%R with 1%R by (field; exact Hdet).
  apply scale_1.
Qed.

Lemma linalg_inv_singular (a : Mat4) :
  det a = 0%R -> linalg_inv a = raise LinAlgError.
Proof.
  intros H. unfold linalg_inv.
  destruct (Req_dec_T (det a) 0); [reflexivity | contradiction].
Qed.

Lemma linalg_inv_identity : linalg_inv identity = ret identity.
Proof. apply linalg_inv_unique, dot_identity_l. Qed.

Lemma float_div_nonzero (x y : R) :
  y <> 0%R -> float_div x y = ret (x / y)%R.
Proof.
  intros H. unfold float_div.
  destruct (Req_dec_T y 0); [contradiction | reflexivity].
Qed.

Lemma float_div_zero (x : R) : float_div x 0 = raise ZeroDivisionError.
Proof.
  unfold float_div. destruct (Req_dec_T 0 0); [reflexivity | congruence].
Qed.

(** ** Theorems: zoom *)

(** Both unprojections of [wheelEvent] read the same view and projection
    matrices: assigning [camera_distance] changes neither. *)
Lemma screen_to_world_camera_distance (s : GLWidget.t) (d x y : R) :
  GLWidget._screen_to_world (GLWidget.with_camera_distance s d) x y
  = GLWidget._screen_to_world s x y.
Proof. reflexivity. Qed.

(** [wheelEvent] with the zoom speed 1.1, case by case. *)
Lemma wheelEvent_cases (s : GLWidget.t) (delta : Z) :
  GLWidget.zoom_speed s = 1.1%R ->
  let new_distance := proposed_distance (GLWidget.camera_distance s) delta in
  ((GLWidget.min_zoom s <= new_distance <= GLWidget.max_zoom s)%R ->
   match GLWidget._screen_to_world s (GLWidget.center_x s) (GLWidget.center_y s) with
   | inl e => GLWidget.wheelEvent s delta = (s, inl e)
   | inr (bx, by_, bz) =>
       GLWidget.wheelEvent s delta
       = (GLWidget.with_camera_position
            (GLWidget.with_camera_distance s new_distance)
            (fst (fst (GLWidget.camera_position s)) + (bx - bx),
             snd (fst (GLWidget.camera_position s)) + (by_ - by_),
             snd (GLWidget.camera_position s) + (bz - bz))%R,
          ret tt)
   end)
  /\ (~ (GLWidget.min_zoom s <= new_distance <= GLWidget.max_zoom s)%R ->
      GLWidget.wheelEvent s delta = (s, ret tt)).
Proof.
  intros Hz new_distance.
  assert (Hnew :
    match (if (0 <? delta)%Z then ret (GLWidget.zoom_speed s)
           else float_div 1 (GLWidget.zoom_speed s)) with
    | inl e => False
    | inr zoom_factor =>
        float_div (GLWidget.camera_distance s) zoom_factor = ret new_distance
    end).
  { unfold new_distance, proposed_distance. rewrite Hz.
    destruct (0 <? delta)%Z.
    - simpl. rewrite float_div_nonzero by lra. reflexivity.
    - rewrite float_div_nonzero by lra. simpl.
      rewrite float_div_nonzero by lra. unfold ret. f_equal. lra. }
  unfold GLWidget.wheelEvent.
  destruct (if (0 <? delta)%Z then ret (GLWidget.zoom_speed s)
            else float_div 1 (GLWidget.zoom_speed s)) as [e | zf];
    [contradiction |].
  rewrite Hnew. cbv beta iota delta [ret]. split.
  - intros [Hlo Hhi].
    destruct (Rle_dec (GLWidget.min_zoom s) new_distance); [| contradiction].
    destruct (Rle_dec new_distance (GLWidget.max_zoom s)); [| contradiction].
    rewrite screen_to_world_camera_distance.
    change (GLWidget.center_x (GLWidget.with_camera_distance s new_distance))
      with (GLWidget.center_x s).
    change (GLWidget.center_y (GLWidget.with_camera_distance s new_distance))
      with (GLWidget.center_y s).
    destruct (GLWidget._screen_to_world s (GLWidget.center_x s)
                (GLWidget.center_y s)) as [e | [[bx by_] bz]]; [reflexivity |].
    simpl. destruct (GLWidget.camera_position s) as [[px py] pz]. reflexivity.
  - intros Hout.
    destruct (Rle_dec (GLWidget.min_zoom s) new_distance) as [Hlo |];
      [| reflexivity].
    destruct (Rle_dec new_distance (GLWidget.max_zoom s)) as [Hhi |];
      [| reflexivity].
    exfalso. apply Hout. split; assumption.
Qed.

(** The unprojection of the screen centre on a freshly constructed widget
    (identity view and projection matrices). *)
Lemma screen_to_world_init (w h : Z) :
  w <> 0%Z -> h <> 0%Z ->
  GLWidget._screen_to_world (GLWidget.init w h)
    (GLWidget.center_x (GLWidget.init w h))
    (GLWidget.center_y (GLWidget.init w h))
  = ret (0, 0, -2)%R.
Proof.
  intros Hw Hh.
  assert (Hw' : IZR w <> 0%R) by (apply not_0_IZR; exact Hw).
  assert (Hh' : IZR h <> 0%R) by (apply not_0_IZR; exact Hh).
  unfold GLWidget._screen_to_world, GLWidget.center_x, GLWidget.center_y.
  simpl GLWidget.width. simpl GLWidget.height.
  simpl GLWidget.projection_matrix. simpl GLWidget.view_matrix.
  rewrite !float_div_nonzero by assumption.
  rewrite dot_identity_l, linalg_inv_identity.
  cbv beta iota delta [bind ret].
  replace (2 * (IZR w / 2) / IZR w - 1)%R with 0%R by (field; exact Hw').
  replace (1 - 2 * (IZR h / 2) / IZR h)%R with 0%R by (field; exact Hh').
  unfold GLWidget.homogeneous_divide, GLWidget.project_onto_plane.
  mat_unfold.
  destruct (Req_dec_T (0 * 0 + 0 * 0 + 0 * -1 + 1 * 1) 0) as [E | _]; [lra |].
  mat_unfold.
  match goal with
  | |- context [Req_dec_T ?a 0] => destruct (Req_dec_T a 0) as [E | _]; [lra |]
  end.
  mat_unfold.
  f_equal. apply (f_equal2 pair); [apply (f_equal2 pair) |]; field.
Qed.

(** What one wheel event does to the distance, for a widget with the
    limits of [__init__]. *)
Lemma wheelEvent_distance (s : GLWidget.t) (delta : Z) :
  GLWidget.min_zoom s = 2%R -> GLWidget.max_zoom s = 50%R ->
  GLWidget.zoom_speed s = 1.1%R ->
  let new_distance := proposed_distance (GLWidget.camera_distance s) delta in
  let s' := fst (GLWidget.wheelEvent s delta) in
  (GLWidget.min_zoom s' = 2%R /\ GLWidget.max_zoom s' = 50%R
   /\ GLWidget.zoom_speed s' = 1.1%R)
  /\ (GLWidget.camera_distance s' = GLWidget.camera_distance s
      \/ (GLWidget.camera_distance s' = new_distance
          /\ (2 <= new_distance <= 50)%R))
  /\ (~ (2 <= new_distance <= 50)%R -> GLWidget.wheelEvent s delta = (s, ret tt))
  /\ ((2 <= new_distance <= 50)%R ->
      (exists p, GLWidget._screen_to_world s (GLWidget.center_x s)
                   (GLWidget.center_y s) = ret p) ->
      GLWidget.camera_distance s' = new_distance
      /\ snd (GLWidget.wheelEvent s delta) = ret tt).
Proof.
  intros Hmin Hmax Hz new_distance s'.
  destruct (wheelEvent_cases s delta Hz) as [Hin Hout].
  fold new_distance in Hin, Hout. rewrite Hmin, Hmax in Hin, Hout.
  destruct (Rle_dec 2 new_distance) as [Hlo | Hlo];
    [destruct (Rle_dec new_distance 50) as [Hhi | Hhi] |].
  - specialize (Hin (conj Hlo Hhi)).
    destruct (GLWidget._screen_to_world s (GLWidget.center_x s)
                (GLWidget.center_y s)) as [e | [[bx by_] bz]] eqn:Hstw.
    + subst s'. rewrite Hin. simpl.
      split; [split; [| split]; assumption |].
      split; [left; reflexivity |].
      split; [intros H; exfalso; apply H; split; assumption |].
      intros _ [p Hp]. discriminate.
    + subst s'. rewrite Hin. simpl.
      split; [split; [| split]; assumption |].
      split; [right; split; [reflexivity | split; assumption] |].
      split; [intros H; exfalso; apply H; split; assumption |].
      intros _ _. split; reflexivity.
  - assert (Hn : ~ (2 <= new_distance <= 50)%R) by (intros [_ H]; contradiction).
    subst s'. rewrite (Hout Hn). simpl.
    split; [split; [| split]; assumption |].
    split; [left; reflexivity |].
    split; [intros _; reflexivity |].
    intros H. contradiction.
  - assert (Hn : ~ (2 <= new_distance <= 50)%R) by (intros [H _]; contradiction).
    subst s'. rewrite (Hout Hn). simpl.
    split; [split; [| split]; assumption |].
    split; [left; reflexivity |].
    split; [intros _; reflexivity |].
    intros H. contradiction.
Qed.

Lemma wheelEvents_bounds (deltas : list Z) (s : GLWidget.t) :
  GLWidget.min_zoom s = 2%R -> GLWidget.max_zoom s = 50%R ->
  GLWidget.zoom_speed s = 1.1%R ->
  (2 <= GLWidget.camera_distance s <= 50)%R ->
  (2 <= GLWidget.camera_distance (GLWidget.wheelEvents s deltas) <= 50)%R.
Proof.
  revert s. induction deltas as [| d rest IH]; intros s Hmin Hmax Hz Hd.
  - exact Hd.
  - unfold GLWidget.wheelEvents. simpl. apply IH;
      destruct (wheelEvent_distance s d Hmin Hmax Hz)
        as ((H1 & H2 & H3) & Hcase & _); try assumption.
    destruct Hcase as [-> | [-> Hb]]; assumption.
Qed.


(** ** Theorems: unprojection *)

Lemma dot_inverse_compose (a a' b b' : Mat4) :
  dot a a' = identity -> dot b b' = identity ->
  dot (dot a b) (dot b' a') = identity.
Proof.
  intros Ha Hb.
  rewrite dot_assoc, <- (dot_assoc b b' a'), Hb, dot_identity_l. exact Ha.
Qed.

Lemma translation_inverse (x y z : R) :
  dot (translation (- x) (- y) (- z)) (translation x y z) = identity.
Proof. apply mat_eq; mat_unfold; ring. Qed.

Lemma zoom_matrix_inverse (d : R) :
  dot (zoom_matrix d) (zoom_matrix (- d)) = identity.
Proof. apply mat_eq; mat_unfold; ring. Qed.

Lemma cos_sin_square (a : R) : (cos a * cos a + sin a * sin a = 1)%R.
Proof. pose proof (sin2_cos2 a) as H. unfold Rsqr in H. lra. Qed.

Lemma rotation_x_inverse (a : R) :
  dot (rotation_x a) (rotation_x (- a)) = identity.
Proof.
  pose proof (cos_sin_square a) as H.
  apply mat_eq; mat_unfold; rewrite ?cos_neg, ?sin_neg; nra.
Qed.

Lemma rotation_y_inverse (a : R) :
  dot (rotation_y a) (rotation_y (- a)) = identity.
Proof.
  pose proof (cos_sin_square a) as H.
  apply mat_eq; mat_unfold; rewrite ?cos_neg, ?sin_neg; nra.
Qed.

Lemma view_matrix_inverse (s : GLWidget.t) :
  dot (GLWidget._create_view_matrix s) (view_inverse s) = identity.
Proof.
  unfold GLWidget._create_view_matrix, view_inverse.
  destruct (GLWidget.camera_position s) as [[px py] pz].
  destruct (GLWidget.camera_rotation s) as [[rx ry] rz].
  rewrite dot_identity_l.
  apply dot_inverse_compose; [| apply zoom_matrix_inverse].
  apply dot_inverse_compose; [| apply rotation_y_inverse].
  apply dot_inverse_compose; [| apply rotation_x_inverse].
  apply translation_inverse.
Qed.

Lemma perspective_matrix_inverse (fovy aspect near far : R) :
  (1 / tan (radians fovy / 2) <> 0)%R -> aspect <> 0%R ->
  near <> far -> (far * near <> 0)%R ->
  dot (GLWidget._perspective_matrix fovy aspect near far)
      (perspective_inverse fovy aspect near far) = identity.
Proof.
  intros Hf Ha Hnf Hfn.
  unfold GLWidget._perspective_matrix, perspective_inverse.
  set (f := (1 / tan (radians fovy / 2))%R) in *. clearbody f.
  assert (Hd : (near - far <> 0)%R) by lra.
  assert (Hn : near <> 0%R) by (intros ->; apply Hfn; ring).
  assert (Hfar : far <> 0%R) by (intros ->; apply Hfn; ring).
  apply mat_eq; mat_unfold; field; repeat split; assumption.
Qed.

(** The field of view of [resizeGL] gives a non-zero focal factor. *)
Lemma focal_factor_nonzero : (1 / tan (radians 45 / 2) <> 0)%R.
Proof.
  assert (Hpi := PI_RGT_0).
  assert (Ht : (0 < tan (radians 45 / 2))%R).
  { apply tan_gt_0; unfold radians; lra. }
  apply Rgt_not_eq. apply Rdiv_lt_0_compat; lra.
Qed.

Lemma vec_eq (a b : Vec4) :
  v0 a = v0 b -> v1 a = v1 b -> v2 a = v2 b -> v3 a = v3 b -> a = b.
Proof. destruct a, b; simpl; intros; subst; reflexivity. Qed.

Lemma dot_vec_dot (a b : Mat4) (v : Vec4) :
  dot_vec (dot a b) v = dot_vec a (dot_vec b v).
Proof. destruct a, b, v; apply vec_eq; mat_unfold; ring. Qed.

(** A successful wheel event changes the camera distance and nothing
    else: the two unprojections coincide, so the compensation that is
    added to [camera_position] is zero. *)
Lemma wheelEvent_accepted (s : GLWidget.t) (delta : Z) (p : R * R * R) :
  GLWidget.zoom_speed s = 1.1%R ->
  let new_distance := proposed_distance (GLWidget.camera_distance s) delta in
  (GLWidget.min_zoom s <= new_distance <= GLWidget.max_zoom s)%R ->
  GLWidget._screen_to_world s (GLWidget.center_x s) (GLWidget.center_y s)
  = ret p ->
  GLWidget.wheelEvent s delta
  = (GLWidget.with_camera_distance s new_distance, ret tt).
Proof.
  intros Hz new_distance Hin Hp.
  destruct (wheelEvent_cases s delta Hz) as [Hcase _].
  specialize (Hcase Hin). rewrite Hp in Hcase.
  destruct p as [[bx by_] bz]. simpl in Hcase. rewrite Hcase.
  f_equal. destruct s as [rot d [[px py] pz] mm vm pm mn mx zs ps rs ms w h].
  unfold GLWidget.with_camera_position, GLWidget.with_camera_distance.
  simpl. f_equal.
  apply (f_equal2 pair); [apply (f_equal2 pair) |]; ring.
Qed.

(** The unprojection of a screen point once the widget has been sized
    and painted: the inverse of the view-projection matrix is the product
    of the two inverses written out above. *)
Lemma screen_to_world_painted (s c : GLWidget.t) (aspect sx sy : R) :
  GLWidget.width s <> 0%Z -> GLWidget.height s <> 0%Z -> aspect <> 0%R ->
  GLWidget.projection_matrix s = GLWidget._perspective_matrix 45 aspect 0.1 100 ->
  GLWidget.view_matrix s = GLWidget._create_view_matrix c ->
  GLWidget._screen_to_world s sx sy
  = let x := (2 * sx / IZR (GLWidget.width s) - 1)%R in
    let y := (1 - 2 * sy / IZR (GLWidget.height s))%R in
    let ray_world :=
      GLWidget.project_onto_plane
        (GLWidget.homogeneous_divide
           (dot_vec (view_inverse c)
              (dot_vec (perspective_inverse 45 aspect 0.1 100)
                 (mkV x y (-1) 1)))) in
    ret (v0 ray_world, v1 ray_world, v2 ray_world).
Proof.
  intros Hw Hh Ha Hp Hv.
  unfold GLWidget._screen_to_world.
  rewrite !float_div_nonzero by (apply not_0_IZR; assumption).
  cbv beta iota delta [bind ret].
  rewrite Hp, Hv.
  rewrite (linalg_inv_unique _
             (dot (view_inverse c) (perspective_inverse 45 aspect 0.1 100))).
  - cbv beta iota delta [ret]. rewrite dot_vec_dot. reflexivity.
  - apply dot_inverse_compose.
    + apply perspective_matrix_inverse;
        [apply focal_factor_nonzero | exact Ha | lra | lra].
    + apply view_matrix_inverse.
Qed.

(** The clip-space centre of the near plane, brought back to eye space. *)
Lemma perspective_inverse_center (aspect : R) :
  dot_vec (perspective_inverse 45 aspect 0.1 100) (mkV 0 0 (-1) 1)
  = mkV 0 0 (-1) 10.
Proof.
  unfold perspective_inverse.
  set (f := (1 / tan (radians 45 / 2))%R). clearbody f.
  apply vec_eq; mat_unfold; lra.
Qed.

Lemma cos_45 : cos (radians 45) = (/ sqrt 2)%R.
Proof.
  unfold radians. replace (45 * PI / 180)%R with (PI / 4)%R by field.
  rewrite cos_PI4. field. apply Rgt_not_eq, Rlt_sqrt2_0.
Qed.

Lemma sin_45 : sin (radians 45) = (/ sqrt 2)%R.
Proof.
  unfold radians. replace (45 * PI / 180)%R with (PI / 4)%R by field.
  rewrite sin_PI4. field. apply Rgt_not_eq, Rlt_sqrt2_0.
Qed.

Lemma inv_sqrt2_facts :
  (/ sqrt 2 * / sqrt 2 = 1 / 2)%R /\ (0.7 < / sqrt 2 < 0.71)%R.
Proof.
  assert (H0 : (0 < sqrt 2)%R) by apply Rlt_sqrt2_0.
  assert (H2 : (sqrt 2 * sqrt 2 = 2)%R) by (apply sqrt_sqrt; lra).
  assert (Hk : (0 < / sqrt 2)%R) by (apply Rinv_0_lt_compat; exact H0).
  assert (Hkk : (/ sqrt 2 * / sqrt 2 = 1 / 2)%R).
  { rewrite <- Rinv_mult, H2. lra. }
  split; [exact Hkk |].
  split; nra.
Qed.

(** The world-space point that the screen centre unprojects to, before
    the division by w, for the camera angles and offset of [__init__] and
    any distance. *)
Lemma view_inverse_center (c : GLWidget.t) :
  GLWidget.camera_rotation c = (45, 45, 0)%R ->
  GLWidget.camera_position c = (-5, -5, 5)%R ->
  dot_vec (view_inverse c) (mkV 0 0 (-1) 10)
  = (mkV (10 * (- 5 * / sqrt 2 - 4.95))
         (10 * (- 0.1 * / sqrt 2))
         (10 * (4.95 - 5 * / sqrt 2 + GLWidget.camera_distance c))
         10)%R.
Proof.
  intros Hr Hp. unfold view_inverse. rewrite Hr, Hp.
  destruct inv_sqrt2_facts as [Hkk _].
  apply vec_eq; mat_unfold; rewrite ?cos_neg, ?sin_neg, ?cos_45, ?sin_45;
    set (k := (/ sqrt 2)%R) in *; clearbody k; nra.
Qed.

(** The unprojection of the screen centre for a sized and painted widget
    whose view matrix was built from the camera angles and offset of
    [__init__] at distance [d >= 0]. *)
Lemma screen_to_world_center (s c : GLWidget.t) (aspect : R) :
  GLWidget.width s <> 0%Z -> GLWidget.height s <> 0%Z -> aspect <> 0%R ->
  GLWidget.projection_matrix s = GLWidget._perspective_matrix 45 aspect 0.1 100 ->
  GLWidget.view_matrix s = GLWidget._create_view_matrix c ->
  GLWidget.camera_rotation c = (45, 45, 0)%R ->
  GLWidget.camera_position c = (-5, -5, 5)%R ->
  (0 <= GLWidget.camera_distance c)%R ->
  GLWidget._screen_to_world s (GLWidget.center_x s) (GLWidget.center_y s)
  = ret (scaled_by_height (near_center (GLWidget.camera_distance c))).
Proof.
  intros Hw Hh Ha Hp Hv Hr Hpos Hd.
  rewrite (screen_to_world_painted s c aspect) by assumption.
  cbv zeta. unfold GLWidget.center_x, GLWidget.center_y.
  assert (Hw' : IZR (GLWidget.width s) <> 0%R) by (apply not_0_IZR; exact Hw).
  assert (Hh' : IZR (GLWidget.height s) <> 0%R) by (apply not_0_IZR; exact Hh).
  replace (2 * (IZR (GLWidget.width s) / 2) / IZR (GLWidget.width s) - 1)%R
    with 0%R by (field; exact Hw').
  replace (1 - 2 * (IZR (GLWidget.height s) / 2) / IZR (GLWidget.height s))%R
    with 0%R by (field; exact Hh').
  rewrite perspective_inverse_center, (view_inverse_center c Hr Hpos).
  destruct inv_sqrt2_facts as [_ [Hk1 Hk2]].
  set (k := (/ sqrt 2)%R) in *.
  set (d := GLWidget.camera_distance c) in *.
  unfold GLWidget.homogeneous_divide. simpl v3.
  destruct (Req_dec_T 10 0) as [E | _]; [lra |].
  unfold GLWidget.project_onto_plane. simpl v2.
  destruct (Req_dec_T (10 * (4.95 - 5 * k + d) / 10) 0) as [E | _]; [lra |].
  unfold scaled_by_height, near_center. fold k. simpl.
  f_equal. apply (f_equal2 pair); [apply (f_equal2 pair) |]; field.
Qed.

Lemma shown_widget_fields :
  GLWidget.width shown_widget = 800%Z
  /\ GLWidget.height shown_widget = 600%Z
  /\ GLWidget.projection_matrix shown_widget
     = GLWidget._perspective_matrix 45 (800 / 600) 0.1 100
  /\ GLWidget.view_matrix shown_widget
     = GLWidget._create_view_matrix (GLWidget.init 800 600)
  /\ GLWidget.camera_distance shown_widget = 15%R
  /\ GLWidget.camera_position shown_widget = (-5, -5, 5)%R
  /\ GLWidget.camera_rotation shown_widget = (45, 45, 0)%R
  /\ GLWidget.min_zoom shown_widget = 2%R
  /\ GLWidget.max_zoom shown_widget = 50%R
  /\ GLWidget.zoom_speed shown_widget = 1.1%R.
Proof.
  unfold shown_widget, GLWidget.resizeGL.
  rewrite float_div_nonzero by lra.
  repeat split.
Qed.

Lemma screen_to_world_shown :
  GLWidget._screen_to_world shown_widget
    (GLWidget.center_x shown_widget) (GLWidget.center_y shown_widget)
  = ret (scaled_by_height (near_center 15)).
Proof.
  destruct shown_widget_fields
    as (Hw & Hh & Hp & Hv & Hd & Hpos & Hrot & _).
  rewrite (screen_to_world_center shown_widget (GLWidget.init 800 600)
             (800 / 600)); try assumption; try reflexivity.
  - rewrite Hw. lia.
  - rewrite Hh. lia.
  - lra.
  - simpl. lra.
Qed.

(** Every call of [_screen_to_world] ends in one of three ways: division
    by a zero width or height, a singular view-projection matrix, or a
    point.  The function has no other outcome. *)
Lemma screen_to_world_outcomes (s : GLWidget.t) (x y : R) :
  GLWidget._screen_to_world s x y = raise ZeroDivisionError
  \/ GLWidget._screen_to_world s x y = raise LinAlgError
  \/ exists p, GLWidget._screen_to_world s x y = ret p.
Proof.
  unfold GLWidget._screen_to_world, float_div, linalg_inv.
  destruct (Req_dec_T (IZR (GLWidget.width s)) 0); [left; reflexivity |].
  destruct (Req_dec_T (IZR (GLWidget.height s)) 0); [left; reflexivity |].
  cbv beta iota delta [bind ret].
  destruct (Req_dec_T _ 0); [right; left; reflexivity |].
  right; right. eexists. reflexivity.
Qed.

Lemma near_center_height (d : R) :
  (2 <= d <= 50)%R ->
  (snd (scaled_by_height (near_center d)) < -8)%R.
Proof.
  intros [Hlo Hhi]. destruct inv_sqrt2_facts as [_ [Hk1 Hk2]].
  unfold scaled_by_height, near_center. set (k := (/ sqrt 2)%R) in *.
  simpl. nra.
Qed.

(** C7. The point returned by screen-to-world is not on the ground
    plane: on the widget as first shown, the screen centre unprojects to
    a point whose z-coordinate is below -250.  The point is the
    near-plane point q scaled by (1 - q.z), not the intersection of a ray
    with z = 0.  A call has no "no intersection" outcome: it raises
    ZeroDivisionError or LinAlgError, or it returns a point. *)
Theorem C7_unprojection_off_ground_plane :
  GLWidget._screen_to_world shown_widget
    (GLWidget.center_x shown_widget) (GLWidget.center_y shown_widget)
  = ret (scaled_by_height (near_center 15))
  /\ (snd (scaled_by_height (near_center 15)) < -250)%R
  /\ (forall (s : GLWidget.t) (x y : R),
         GLWidget._screen_to_world s x y = raise ZeroDivisionError
         \/ GLWidget._screen_to_world s x y = raise LinAlgError
         \/ exists p, GLWidget._screen_to_world s x y = ret p).
Proof.
  split; [exact screen_to_world_shown |].
  split; [| exact screen_to_world_outcomes].
  destruct inv_sqrt2_facts as [_ [Hk1 Hk2]].
  unfold scaled_by_height, near_center. set (k := (/ sqrt 2)%R) in *.
  simpl. nra.
Qed.

(** C5. A wheel zoom does not keep the point under the screen centre.
    On the widget as first shown, one zoom-in tick is accepted and
    changes [camera_distance] only: both unprojections inside the handler
    read the view matrix of the last paint, so they coincide and the
    compensation added to [camera_position] is zero.  Unprojecting the
    centre again right after the handler gives the same point for the
    same reason; after the next paint has rebuilt the view matrix from
    the new distance, the centre unprojects to a point whose x-coordinate
    is more than 11 units away. *)
Theorem C5_zoom_moves_pivot :
  let s0 := shown_widget in
  let s1 := fst (GLWidget.wheelEvent s0 120) in
  let s2 := GLWidget.refresh_view_matrix s1 in
  GLWidget.wheelEvent s0 120
  = (GLWidget.with_camera_distance s0 (15 / 1.1), ret tt)
  /\ GLWidget.camera_position s1 = GLWidget.camera_position s0
  /\ GLWidget.view_matrix s1 = GLWidget.view_matrix s0
  /\ GLWidget._screen_to_world s0 (GLWidget.center_x s0) (GLWidget.center_y s0)
     = ret (scaled_by_height (near_center 15))
  /\ GLWidget._screen_to_world s1 (GLWidget.center_x s1) (GLWidget.center_y s1)
     = ret (scaled_by_height (near_center 15))
  /\ GLWidget._screen_to_world s2 (GLWidget.center_x s2) (GLWidget.center_y s2)
     = ret (scaled_by_height (near_center (15 / 1.1)))
  /\ (fst (fst (scaled_by_height (near_center 15)))
      - fst (fst (scaled_by_height (near_center (15 / 1.1)))) > 11)%R.
Proof.
  intros s0 s1 s2.
  destruct shown_widget_fields
    as (Hw & Hh & Hp & Hv & Hd & Hpos & Hrot & Hmin & Hmax & Hz).
  assert (Hwheel : GLWidget.wheelEvent s0 120
                   = (GLWidget.with_camera_distance s0 (15 / 1.1), ret tt)).
  { pose proof (wheelEvent_accepted shown_widget 120
                  (scaled_by_height (near_center 15)) Hz) as Ha.
    cbv zeta in Ha. rewrite Hd, Hmin, Hmax in Ha.
    change (proposed_distance 15 120) with (15 / 1.1)%R in Ha.
    apply Ha; [lra | exact screen_to_world_shown]. }
  assert (Hs1 : s1 = GLWidget.with_camera_distance s0 (15 / 1.1)).
  { unfold s1. rewrite Hwheel. reflexivity. }
  split; [exact Hwheel |].
  split; [rewrite Hs1; reflexivity |].
  split; [rewrite Hs1; reflexivity |].
  split; [exact screen_to_world_shown |].
  split; [rewrite Hs1; exact screen_to_world_shown |].
  split.
  - assert (Hd1 : GLWidget.camera_distance s1 = (15 / 1.1)%R)
      by (rewrite Hs1; reflexivity).
    rewrite <- Hd1.
    apply (screen_to_world_center s2 s1 (800 / 600)).
    + assert (Hw2 : GLWidget.width s2 = 800%Z)
        by (unfold s2; rewrite Hs1; exact Hw).
      rewrite Hw2. lia.
    + assert (Hh2 : GLWidget.height s2 = 600%Z)
        by (unfold s2; rewrite Hs1; exact Hh).
      rewrite Hh2. lia.
    + lra.
    + unfold s2. rewrite Hs1. exact Hp.
    + reflexivity.
    + rewrite Hs1. exact Hrot.
    + rewrite Hs1. exact Hpos.
    + rewrite Hd1. lra.
  - destruct inv_sqrt2_facts as [_ [Hk1 Hk2]].
    unfold scaled_by_height, near_center. set (k := (/ sqrt 2)%R) in *.
    simpl. nra.
Qed.

(** ** Theorems: rendering *)

Lemma same_entities_refl (w : Scene.t) : same_entities w w.
Proof. split; reflexivity. Qed.

Lemma same_entities_trans (w1 w2 w3 : Scene.t) :
  same_entities w1 w2 -> same_entities w2 w3 -> same_entities w1 w3.
Proof. intros [H1 H2] [H3 H4]. split; congruence. Qed.

Lemma same_entities_emit (calls : list GLcall) (w : Scene.t) :
  same_entities w (Scene.emit calls w).
Proof. split; reflexivity. Qed.

Lemma same_entities_for_each {A} (body : A -> Scene.t -> Scene.t * result unit)
    (l : list A) :
  (forall a w, same_entities w (fst (body a w))) ->
  forall w, same_entities w (fst (Scene.for_each body l w)).
Proof.
  intros Hbody. induction l as [| a rest IH]; intros w; simpl.
  - apply same_entities_refl.
  - specialize (Hbody a w).
    destruct (body a w) as [w1 [e | u]]; simpl in *.
    + exact Hbody.
    + eapply same_entities_trans; [exact Hbody | apply IH].
Qed.

Lemma same_entities_cylinder_side (radius height step : R) (i : nat)
    (w : Scene.t) :
  same_entities w (fst (Scene.cylinder_side radius height step i w)).
Proof.
  unfold Scene.cylinder_side.
  destruct (float_div _ radius) as [e | nx]; [apply same_entities_refl |].
  destruct (float_div _ radius) as [e | ny]; [apply same_entities_refl |].
  apply same_entities_emit.
Qed.

Lemma same_entities_draw_cylinder (radius height : R) (w : Scene.t) :
  same_entities w (fst (Scene._draw_cylinder radius height w)).
Proof.
  unfold Scene._draw_cylinder.
  match goal with
  | |- context [Scene.for_each ?body ?l ?w0] =>
      pose proof (same_entities_for_each body l
                    (same_entities_cylinder_side _ _ _) w0) as Hloop;
      destruct (Scene.for_each body l w0) as [w1 [e | u]]; simpl in *
  end.
  - eapply same_entities_trans; [apply same_entities_emit | exact Hloop].
  - eapply same_entities_trans; [apply same_entities_emit |].
    eapply same_entities_trans; [exact Hloop | apply same_entities_emit].
Qed.

Lemma same_entities_draw_station (q : QStation.t) (w : Scene.t) :
  same_entities w (fst (Scene._draw_station q w)).
Proof.
  unfold Scene._draw_station.
  destruct (Station.position (QStation.station q)) as [x y].
  set (w0 := Scene.emit _ w).
  assert (H0 : same_entities w w0) by apply same_entities_emit.
  destruct (Scene.station_meshes w0 !! Station.name (QStation.station q))
    as [mesh |]; [| exact H0].
  destruct (QStation.qport q) as [qport |]; simpl.
  - destruct (PathNode.position (QPathNode.node qport)) as [px py].
    match goal with
    | |- context [Scene._draw_cylinder ?r ?h ?w2] =>
        pose proof (same_entities_draw_cylinder r h w2) as Hc;
        destruct (Scene._draw_cylinder r h w2) as [w3 [e | u]]; simpl in *
    end.
    + eapply same_entities_trans; [exact H0 |].
      eapply same_entities_trans; [| exact Hc].
      eapply same_entities_trans; apply same_entities_emit.
    + eapply same_entities_trans; [exact H0 |].
      eapply same_entities_trans; [| apply same_entities_emit].
      eapply same_entities_trans; [| exact Hc].
      eapply same_entities_trans; apply same_entities_emit.
  - eapply same_entities_trans; [exact H0 | apply same_entities_emit].
Qed.

Lemma same_entities_draw_path_node (q : QPathNode.t) (w : Scene.t) :
  same_entities w (fst (Scene._draw_path_node q w)).
Proof.
  unfold Scene._draw_path_node.
  destruct (PathNode.position (QPathNode.node q)) as [x y].
  match goal with
  | |- context [Scene._draw_cylinder ?r ?h ?w1] =>
      pose proof (same_entities_draw_cylinder r h w1) as Hc;
      destruct (Scene._draw_cylinder r h w1) as [w2 [e | u]]; simpl in *
  end.
  - eapply same_entities_trans; [apply same_entities_emit | exact Hc].
  - eapply same_entities_trans; [apply same_entities_emit |].
    eapply same_entities_trans; [exact Hc | apply same_entities_emit].
Qed.

Lemma same_entities_paint_agv (q : QAGV.t) (w : Scene.t) :
  same_entities w (fst (Scene.paint_agv q w)).
Proof.
  unfold Scene.paint_agv. destruct (QAGV.position q) as [x y].
  simpl. apply same_entities_emit.
Qed.

Lemma same_entities_paintGL (w : Scene.t) :
  same_entities w (fst (Scene.paintGL w)).
Proof.
  unfold Scene.paintGL.
  set (w0 := Scene._draw_grid _).
  assert (H0 : same_entities w w0) by (split; reflexivity).
  pose proof (same_entities_for_each Scene._draw_station
                (QClassHolder.get_all_qstations (Scene.qclass_holder w0))
                same_entities_draw_station w0) as H1.
  destruct (Scene.for_each Scene._draw_station _ w0) as [w1 [e | u]];
    simpl in *.
  { exact (same_entities_trans _ _ _ H0 H1). }
  pose proof (same_entities_for_each Scene._draw_path_node
                (QClassHolder.get_all_qpath_nodes (Scene.qclass_holder w1))
                same_entities_draw_path_node w1) as H2.
  destruct (Scene.for_each Scene._draw_path_node _ w1) as [w2 [e | u']];
    simpl in *.
  { exact (same_entities_trans _ _ _ H0 (same_entities_trans _ _ _ H1 H2)). }
  pose proof (same_entities_for_each Scene.paint_agv
                (QClassHolder.get_all_qagvs (Scene.qclass_holder w2))
                same_entities_paint_agv w2) as H3.
  exact (same_entities_trans _ _ _ H0
           (same_entities_trans _ _ _ H1 (same_entities_trans _ _ _ H2 H3))).
Qed.

(** C9. One render pass leaves the entities alone: after [paintGL],
    whether it completes or raises, the backend holder and the proxy
    holder are what they were, so every station, AGV and path node found
    by identifier or by name, and the backend record behind every proxy,
    has the fields it had.  The pass changes the widget's view matrix and
    the stream of OpenGL calls only. *)
Theorem C9_render_read_only (w : Scene.t) :
  let w' := fst (Scene.paintGL w) in
  Scene.class_holder w' = Scene.class_holder w
  /\ Scene.qclass_holder w' = Scene.qclass_holder w
  /\ (forall i,
         ClassHolder.get_station_by_id (Scene.class_holder w') i
         = ClassHolder.get_station_by_id (Scene.class_holder w) i
         /\ ClassHolder.get_agv_by_id (Scene.class_holder w') i
            = ClassHolder.get_agv_by_id (Scene.class_holder w) i
         /\ ClassHolder.get_path_node_by_id (Scene.class_holder w') i
            = ClassHolder.get_path_node_by_id (Scene.class_holder w) i)
  /\ (forall n,
         ClassHolder.get_station_by_name (Scene.class_holder w') n
         = ClassHolder.get_station_by_name (Scene.class_holder w) n
         /\ ClassHolder.get_agv_by_name (Scene.class_holder w') n
            = ClassHolder.get_agv_by_name (Scene.class_holder w) n)
  /\ QClassHolder.get_all_qstations (Scene.qclass_holder w')
     = QClassHolder.get_all_qstations (Scene.qclass_holder w)
  /\ QClassHolder.get_all_qpath_nodes (Scene.qclass_holder w')
     = QClassHolder.get_all_qpath_nodes (Scene.qclass_holder w)
  /\ QClassHolder.get_all_qagvs (Scene.qclass_holder w')
     = QClassHolder.get_all_qagvs (Scene.qclass_holder w).
Proof.
  intros w'. destruct (same_entities_paintGL w) as [Hc Hq].
  fold w' in Hc, Hq. rewrite Hc, Hq.
  repeat split; reflexivity.
Qed.

(** C6. With the limits and the zoom speed of [__init__] (2, 50, 1.1) a
    wheel event proposes distance / 1.1 when zooming in and
    distance * 1.1 when zooming out; the distance afterwards is either
    unchanged or the proposed one, and the latter only if it lies in
    [2, 50]; a proposal outside [2, 50] leaves the whole widget unchanged.
    Hence the distance stays in [2, 50] along every sequence of wheel
    events, from any distance in [2, 50] and so from the initial distance
    15.  One zoom-in tick succeeds with distance 15 / 1.1, on the new
    widget as on the widget first shown, and a zoom-in tick that would go
    below 2 changes nothing. *)
Theorem C6_zoom_distance_bounds :
  (forall (s : GLWidget.t) (delta : Z),
      GLWidget.min_zoom s = 2%R -> GLWidget.max_zoom s = 50%R ->
      GLWidget.zoom_speed s = 1.1%R ->
      let new_distance := proposed_distance (GLWidget.camera_distance s) delta in
      let s' := fst (GLWidget.wheelEvent s delta) in
      (GLWidget.camera_distance s' = GLWidget.camera_distance s
       \/ (GLWidget.camera_distance s' = new_distance
           /\ (2 <= new_distance <= 50)%R))
      /\ (~ (2 <= new_distance <= 50)%R ->
          GLWidget.wheelEvent s delta = (s, ret tt))
      /\ ((2 <= new_distance <= 50)%R ->
          (exists p, GLWidget._screen_to_world s (GLWidget.center_x s)
                       (GLWidget.center_y s) = ret p) ->
          GLWidget.camera_distance s' = new_distance
          /\ snd (GLWidget.wheelEvent s delta) = ret tt))
  /\ (forall (s : GLWidget.t) (deltas : list Z),
         GLWidget.min_zoom s = 2%R -> GLWidget.max_zoom s = 50%R ->
         GLWidget.zoom_speed s = 1.1%R ->
         (2 <= GLWidget.camera_distance s <= 50)%R ->
         (2 <= GLWidget.camera_distance (GLWidget.wheelEvents s deltas) <= 50)%R)
  /\ (forall (w h : Z) (deltas : list Z),
         GLWidget.camera_distance (GLWidget.init w h) = 15%R
         /\ (2 <= GLWidget.camera_distance
                    (GLWidget.wheelEvents (GLWidget.init w h) deltas) <= 50)%R)
  /\ (forall (w h delta : Z),
         w <> 0%Z -> h <> 0%Z -> (0 < delta)%Z ->
         GLWidget.camera_distance
           (fst (GLWidget.wheelEvent (GLWidget.init w h) delta)) = (15 / 1.1)%R
         /\ snd (GLWidget.wheelEvent (GLWidget.init w h) delta) = ret tt)
  /\ (GLWidget.camera_distance (fst (GLWidget.wheelEvent shown_widget 120))
      = (15 / 1.1)%R
      /\ snd (GLWidget.wheelEvent shown_widget 120) = ret tt)
  /\ (forall (s : GLWidget.t) (delta : Z),
         GLWidget.min_zoom s = 2%R -> GLWidget.max_zoom s = 50%R ->
         GLWidget.zoom_speed s = 1.1%R ->
         (0 < delta)%Z ->
         (GLWidget.camera_distance s / 1.1 < 2)%R ->
         GLWidget.wheelEvent s delta = (s, ret tt)).
Proof.
  split; [| split; [| split; [| split; [| split]]]].
  - intros s delta Hmin Hmax Hz.
    destruct (wheelEvent_distance s delta Hmin Hmax Hz) as (_ & H1 & H2 & H3).
    split; [exact H1 | split; [exact H2 | exact H3]].
  - intros s deltas. apply wheelEvents_bounds.
  - intros w h deltas. split; [reflexivity |].
    apply wheelEvents_bounds; try reflexivity. simpl. lra.
  - intros w h delta Hw Hh Hd.
    destruct (wheelEvent_distance (GLWidget.init w h) delta
                eq_refl eq_refl eq_refl) as (_ & _ & _ & H3).
    assert (Hp : proposed_distance
                   (GLWidget.camera_distance (GLWidget.init w h)) delta
                 = (15 / 1.1)%R).
    { unfold proposed_distance. apply Z.ltb_lt in Hd. rewrite Hd. reflexivity. }
    rewrite Hp in H3. apply H3.
    + lra.
    + eexists. apply screen_to_world_init; assumption.
  - destruct shown_widget_fields
      as (_ & _ & _ & _ & Hd & _ & _ & Hmin & Hmax & Hz).
    destruct (wheelEvent_distance shown_widget 120 Hmin Hmax Hz)
      as (_ & _ & _ & H3).
    rewrite Hd in H3.
    change (proposed_distance 15 120) with (15 / 1.1)%R in H3.
    apply H3; [lra |].
    eexists. exact screen_to_world_shown.
  - intros s delta Hmin Hmax Hz Hd Hlow.
    destruct (wheelEvent_distance s delta Hmin Hmax Hz) as (_ & _ & H2 & _).
    apply H2. unfold proposed_distance. apply Z.ltb_lt in Hd. rewrite Hd.
    lra.
Qed.

Lemma C6_zoom_distance_bounds_witness :
  GLWidget.camera_distance
    (fst (GLWidget.wheelEvent (GLWidget.init 800 600) 120)) = (15 / 1.1)%R
  /\ GLWidget.wheelEvent
       (GLWidget.with_camera_distance (GLWidget.init 800 600) 2.1) 120
     = (GLWidget.with_camera_distance (GLWidget.init 800 600) 2.1, ret tt).
Proof.
  destruct C6_zoom_distance_bounds as (_ & _ & _ & Htick & _ & Hlow).
  split.
  - apply (Htick 800%Z 600%Z 120%Z); lia.
  - apply Hlow; try reflexivity; simpl; lra.
Defined.

(** * Further properties *)

(** ** Identifier allocation in the holder *)

Lemma add_station_fresh (h : ClassHolder.t) (e : Station.t) :
  station_ids_bounded h -> Station.id e = None ->
  let k := (IDManager._id_counter (ClassHolder.station_id_manager h) + 1)%Z in
  let h' := snd (ClassHolder.add_station h e) in
  ClassHolder.get_station_by_id h k = None
  /\ fst (ClassHolder.add_station h e) = Station.with_id e (Some k)
  /\ ClassHolder.get_station_by_id h' k = Some (Station.with_id e (Some k))
  /\ (forall j x, ClassHolder.get_station_by_id h j = Some x ->
        ClassHolder.get_station_by_id h' j = Some x)
  /\ size (ClassHolder.stations h') = S (size (ClassHolder.stations h))
  /\ station_ids_bounded h'.
Proof.
  intros Hb Hid.
  assert (Hfresh : ClassHolder.stations h
                   !! (IDManager._id_counter (ClassHolder.station_id_manager h) + 1)%Z
                   = None).
  { destruct (ClassHolder.stations h
              !! (IDManager._id_counter (ClassHolder.station_id_manager h) + 1)%Z)
      as [x |] eqn:Hk; [| reflexivity].
    apply Hb in Hk. lia. }
  unfold ClassHolder.get_station_by_id, ClassHolder.add_station.
  rewrite Hid. simpl.
  split; [exact Hfresh |]. split; [reflexivity |].
  split; [apply lookup_insert_eq |].
  split.
  { intros j x Hj. rewrite lookup_insert_ne; [exact Hj |].
    intros <-. rewrite Hfresh in Hj. discriminate. }
  split; [apply map_size_insert_None; exact Hfresh |].
  intros j x. simpl. rewrite lookup_insert. case_decide.
  - intros _. lia.
  - intros Hj. apply Hb in Hj. lia.
Qed.

Lemma add_agv_fresh (h : ClassHolder.t) (e : AGV.t) :
  agv_ids_bounded h -> AGV.id e = None ->
  let k := (IDManager._id_counter (ClassHolder.agv_id_manager h) + 1)%Z in
  let h' := snd (ClassHolder.add_agv h e) in
  ClassHolder.get_agv_by_id h k = None
  /\ fst (ClassHolder.add_agv h e) = AGV.with_id e (Some k)
  /\ ClassHolder.get_agv_by_id h' k = Some (AGV.with_id e (Some k))
  /\ (forall j x, ClassHolder.get_agv_by_id h j = Some x ->
        ClassHolder.get_agv_by_id h' j = Some x)
  /\ size (ClassHolder.agvs h') = S (size (ClassHolder.agvs h))
  /\ agv_ids_bounded h'.
Proof.
  intros Hb Hid.
  assert (Hfresh : ClassHolder.agvs h
                   !! (IDManager._id_counter (ClassHolder.agv_id_manager h) + 1)%Z
                   = None).
  { destruct (ClassHolder.agvs h
              !! (IDManager._id_counter (ClassHolder.agv_id_manager h) + 1)%Z)
      as [x |] eqn:Hk; [| reflexivity].
    apply Hb in Hk. lia. }
  unfold ClassHolder.get_agv_by_id, ClassHolder.add_agv.
  rewrite Hid. simpl.
  split; [exact Hfresh |]. split; [reflexivity |].
  split; [apply lookup_insert_eq |].
  split.
  { intros j x Hj. rewrite lookup_insert_ne; [exact Hj |].
    intros <-. rewrite Hfresh in Hj. discriminate. }
  split; [apply map_size_insert_None; exact Hfresh |].
  intros j x. simpl. rewrite lookup_insert. case_decide.
  - intros _. lia.
  - intros Hj. apply Hb in Hj. lia.
Qed.

Lemma add_path_node_fresh (h : ClassHolder.t) (e : PathNode.t) :
  path_node_ids_bounded h -> PathNode.id e = None ->
  let k := (IDManager._id_counter (ClassHolder.path_node_id_manager h) + 1)%Z in
  let h' := snd (ClassHolder.add_path_node h e) in
  ClassHolder.get_path_node_by_id h k = None
  /\ fst (ClassHolder.add_path_node h e) = PathNode.with_id e (Some k)
  /\ ClassHolder.get_path_node_by_id h' k = Some (PathNode.with_id e (Some k))
  /\ (forall j x, ClassHolder.get_path_node_by_id h j = Some x ->
        ClassHolder.get_path_node_by_id h' j = Some x)
  /\ size (ClassHolder.path_nodes h') = S (size (ClassHolder.path_nodes h))
  /\ path_node_ids_bounded h'.
Proof.
  intros Hb Hid.
  assert (Hfresh : ClassHolder.path_nodes h
                   !! (IDManager._id_counter (ClassHolder.path_node_id_manager h) + 1)%Z
                   = None).
  { destruct (ClassHolder.path_nodes h
              !! (IDManager._id_counter (ClassHolder.path_node_id_manager h) + 1)%Z)
      as [x |] eqn:Hk; [| reflexivity].
    apply Hb in Hk. lia. }
  unfold ClassHolder.get_path_node_by_id, ClassHolder.add_path_node.
  rewrite Hid. simpl.
  split; [exact Hfresh |]. split; [reflexivity |].
  split; [apply lookup_insert_eq |].
  split.
  { intros j x Hj. rewrite lookup_insert_ne; [exact Hj |].
    intros <-. rewrite Hfresh in Hj. discriminate. }
  split; [apply map_size_insert_None; exact Hfresh |].
  intros j x. simpl. rewrite lookup_insert. case_decide.
  - intros _. lia.
  - intros Hj. apply Hb in Hj. lia.
Qed.

Lemma delete_station_bounded (h : ClassHolder.t) (i : Z) :
  station_ids_bounded h ->
  station_ids_bounded (snd (ClassHolder.delete_station h i)).
Proof.
  intros Hb j x. unfold ClassHolder.delete_station.
  destruct (ClassHolder.stations h !! i) as [e |]; simpl; [| apply Hb].
  rewrite lookup_delete. case_decide; [discriminate | apply Hb].
Qed.

Lemma delete_agv_bounded (h : ClassHolder.t) (i : Z) :
  agv_ids_bounded h -> agv_ids_bounded (snd (ClassHolder.delete_agv h i)).
Proof.
  intros Hb j x. unfold ClassHolder.delete_agv.
  destruct (ClassHolder.agvs h !! i) as [e |]; simpl; [| apply Hb].
  rewrite lookup_delete. case_decide; [discriminate | apply Hb].
Qed.

Lemma delete_path_node_bounded (h : ClassHolder.t) (i : Z) :
  path_node_ids_bounded h ->
  path_node_ids_bounded (snd (ClassHolder.delete_path_node h i)).
Proof.
  intros Hb j x. unfold ClassHolder.delete_path_node. simpl.
  rewrite lookup_delete. case_decide; [discriminate | apply Hb].
Qed.

(** X1. As long as no stored identifier is ahead of the allocator of its
    class (true of the fresh holder and kept by every delete), an entity
    added without identifier gets the next number, which is not in use:
    it is stored under that number, every entity stored before is still
    there, the map grows by one, and the bound holds again. *)
Theorem X1_add_without_id_is_fresh :
  (station_ids_bounded ClassHolder.init /\ agv_ids_bounded ClassHolder.init
   /\ path_node_ids_bounded ClassHolder.init)
  /\ (forall h i,
         (station_ids_bounded h ->
          station_ids_bounded (snd (ClassHolder.delete_station h i)))
         /\ (agv_ids_bounded h ->
             agv_ids_bounded (snd (ClassHolder.delete_agv h i)))
         /\ (path_node_ids_bounded h ->
             path_node_ids_bounded (snd (ClassHolder.delete_path_node h i))))
  /\ (forall h (e : Station.t),
         station_ids_bounded h -> Station.id e = None ->
         let k := (IDManager._id_counter (ClassHolder.station_id_manager h) + 1)%Z in
         let h' := snd (ClassHolder.add_station h e) in
         ClassHolder.get_station_by_id h k = None
         /\ fst (ClassHolder.add_station h e) = Station.with_id e (Some k)
         /\ ClassHolder.get_station_by_id h' k = Some (Station.with_id e (Some k))
         /\ (forall j x, ClassHolder.get_station_by_id h j = Some x ->
               ClassHolder.get_station_by_id h' j = Some x)
         /\ size (ClassHolder.stations h') = S (size (ClassHolder.stations h))
         /\ station_ids_bounded h')
  /\ (forall h (e : AGV.t),
         agv_ids_bounded h -> AGV.id e = None ->
         let k := (IDManager._id_counter (ClassHolder.agv_id_manager h) + 1)%Z in
         let h' := snd (ClassHolder.add_agv h e) in
         ClassHolder.get_agv_by_id h k = None
         /\ fst (ClassHolder.add_agv h e) = AGV.with_id e (Some k)
         /\ ClassHolder.get_agv_by_id h' k = Some (AGV.with_id e (Some k))
         /\ (forall j x, ClassHolder.get_agv_by_id h j = Some x ->
               ClassHolder.get_agv_by_id h' j = Some x)
         /\ size (ClassHolder.agvs h') = S (size (ClassHolder.agvs h))
         /\ agv_ids_bounded h')
  /\ (forall h (e : PathNode.t),
         path_node_ids_bounded h -> PathNode.id e = None ->
         let k := (IDManager._id_counter (ClassHolder.path_node_id_manager h) + 1)%Z in
         let h' := snd (ClassHolder.add_path_node h e) in
         ClassHolder.get_path_node_by_id h k = None
         /\ fst (ClassHolder.add_path_node h e) = PathNode.with_id e (Some k)
         /\ ClassHolder.get_path_node_by_id h' k
            = Some (PathNode.with_id e (Some k))
         /\ (forall j x, ClassHolder.get_path_node_by_id h j = Some x ->
               ClassHolder.get_path_node_by_id h' j = Some x)
         /\ size (ClassHolder.path_nodes h') = S (size (ClassHolder.path_nodes h))
         /\ path_node_ids_bounded h').
Proof.
  split.
  { split; [| split]; intros i e H; simpl in H;
      rewrite lookup_empty in H; discriminate. }
  split.
  { intros h i. split; [apply delete_station_bounded |].
    split; [apply delete_agv_bounded | apply delete_path_node_bounded]. }
  split; [exact add_station_fresh |].
  split; [exact add_agv_fresh | exact add_path_node_fresh].
Qed.

Lemma X1_add_without_id_is_fresh_witness :
  ClassHolder.get_station_by_id
    (snd (ClassHolder.add_station
            (snd (ClassHolder.add_station ClassHolder.init station_A))
            station_B)) 1
  = Some (Station.with_id station_A (Some 1%Z)).
Proof.
  destruct X1_add_without_id_is_fresh as ((H0 & _) & _ & Hadd & _).
  destruct (Hadd ClassHolder.init station_A H0 eq_refl)
    as (_ & _ & H1 & _ & _ & Hb1).
  destruct (Hadd _ station_B Hb1 eq_refl) as (_ & _ & _ & Hkeep & _).
  apply Hkeep. exact H1.
Defined.

(** X2. An explicit identifier does not advance the allocator.  An
    entity added under the number the allocator would give next is
    therefore replaced by the next entity that is added without
    identifier: the map still has the size it had after the first add. *)
Theorem X2_explicit_id_is_overwritten :
  (forall h (e1 e2 : Station.t),
      let k := (IDManager._id_counter (ClassHolder.station_id_manager h) + 1)%Z in
      Station.id e1 = Some k -> Station.id e2 = None ->
      let h1 := snd (ClassHolder.add_station h e1) in
      let h2 := snd (ClassHolder.add_station h1 e2) in
      ClassHolder.get_station_by_id h1 k = Some e1
      /\ ClassHolder.get_station_by_id h2 k = Some (Station.with_id e2 (Some k))
      /\ size (ClassHolder.stations h2) = size (ClassHolder.stations h1))
  /\ (forall h (e1 e2 : AGV.t),
         let k := (IDManager._id_counter (ClassHolder.agv_id_manager h) + 1)%Z in
         AGV.id e1 = Some k -> AGV.id e2 = None ->
         let h1 := snd (ClassHolder.add_agv h e1) in
         let h2 := snd (ClassHolder.add_agv h1 e2) in
         ClassHolder.get_agv_by_id h1 k = Some e1
         /\ ClassHolder.get_agv_by_id h2 k = Some (AGV.with_id e2 (Some k))
         /\ size (ClassHolder.agvs h2) = size (ClassHolder.agvs h1))
  /\ (forall h (e1 e2 : PathNode.t),
         let k := (IDManager._id_counter (ClassHolder.path_node_id_manager h) + 1)%Z in
         PathNode.id e1 = Some k -> PathNode.id e2 = None ->
         let h1 := snd (ClassHolder.add_path_node h e1) in
         let h2 := snd (ClassHolder.add_path_node h1 e2) in
         ClassHolder.get_path_node_by_id h1 k = Some e1
         /\ ClassHolder.get_path_node_by_id h2 k
            = Some (PathNode.with_id e2 (Some k))
         /\ size (ClassHolder.path_nodes h2) = size (ClassHolder.path_nodes h1)).
Proof.
  split; [| split].
  - intros h e1 e2 k H1 H2.
    unfold ClassHolder.get_station_by_id, ClassHolder.add_station.
    rewrite H1. simpl. rewrite H2. simpl. fold k.
    split; [apply lookup_insert_eq |].
    split; [apply lookup_insert_eq |].
    rewrite insert_insert_eq, !map_size_insert. reflexivity.
  - intros h e1 e2 k H1 H2.
    unfold ClassHolder.get_agv_by_id, ClassHolder.add_agv.
    rewrite H1. simpl. rewrite H2. simpl. fold k.
    split; [apply lookup_insert_eq |].
    split; [apply lookup_insert_eq |].
    rewrite insert_insert_eq, !map_size_insert. reflexivity.
  - intros h e1 e2 k H1 H2.
    unfold ClassHolder.get_path_node_by_id, ClassHolder.add_path_node.
    rewrite H1. simpl. rewrite H2. simpl. fold k.
    split; [apply lookup_insert_eq |].
    split; [apply lookup_insert_eq |].
    rewrite insert_insert_eq, !map_size_insert. reflexivity.
Qed.

Lemma X2_explicit_id_is_overwritten_witness :
  ClassHolder.get_path_node_by_id
    (snd (ClassHolder.add_path_node
            (snd (ClassHolder.add_path_node ClassHolder.init
                    (PathNode.new 1 2 90 (Some 1%Z) None)))
            (PathNode.new 3 4 0 None None))) 1
  = Some (PathNode.new 3 4 0 (Some 1%Z) None).
Proof.
  destruct X2_explicit_id_is_overwritten as (_ & _ & Hn).
  destruct (Hn ClassHolder.init (PathNode.new 1 2 90 (Some 1%Z) None)
              (PathNode.new 3 4 0 None None) eq_refl eq_refl) as (_ & H & _).
  exact H.
Defined.

(** ** Station type catalogues *)

(** X3. [StationTypeManager.add_type] never replaces a type: it returns
    True exactly when the name was unknown; afterwards the name resolves
    to the type registered first, and no other name is affected.
    [remove_type] returns True exactly when the name was known, and the
    name is unknown afterwards. *)
Theorem X3_station_type_manager_first_wins :
  (forall (m : StationTypeManager.t) (ty : StationType.t),
      let n := StationType.name ty in
      let m' := snd (StationTypeManager.add_type m ty) in
      (fst (StationTypeManager.add_type m ty) = true
       <-> StationTypeManager.get_type m n = None)
      /\ StationTypeManager.get_type m' n
         = Some (match StationTypeManager.get_type m n with
                 | Some old => old
                 | None => ty
                 end)
      /\ (forall n', n' <> n ->
            StationTypeManager.get_type m' n' = StationTypeManager.get_type m n'))
  /\ (forall (m : StationTypeManager.t) (n : string),
         let m' := snd (StationTypeManager.remove_type m n) in
         (fst (StationTypeManager.remove_type m n) = true
          <-> StationTypeManager.get_type m n <> None)
         /\ StationTypeManager.get_type m' n = None
         /\ (forall n', n' <> n ->
               StationTypeManager.get_type m' n'
               = StationTypeManager.get_type m n')).
Proof.
  split.
  - intros m ty n m'. subst m'.
    unfold StationTypeManager.add_type, StationTypeManager.get_type. fold n.
    destruct (StationTypeManager._types m !! n) as [old |] eqn:Hn; simpl.
    + split; [split; discriminate |]. split; [exact Hn | reflexivity].
    + split; [split; reflexivity |].
      split; [apply lookup_insert_eq |].
      intros n' Hne. apply lookup_insert_ne. congruence.
  - intros m n m'. subst m'.
    unfold StationTypeManager.remove_type, StationTypeManager.get_type.
    destruct (StationTypeManager._types m !! n) as [old |] eqn:Hn; simpl.
    + split; [split; [discriminate | reflexivity] |].
      split; [apply lookup_delete_eq |].
      intros n' Hne. apply lookup_delete_ne. congruence.
    + split; [split; [discriminate | congruence] |].
      split; [exact Hn | reflexivity].
Qed.


Lemma X3_station_type_manager_first_wins_witness :
  StationTypeManager.get_type
    (snd (StationTypeManager.add_type StationTypeManager.init scenario_type))
    "Storage"
  = StationTypeManager.get_type StationTypeManager.init "Storage".
Proof.
  destruct X3_station_type_manager_first_wins as [Hadd _].
  destruct (Hadd StationTypeManager.init scenario_type) as (_ & _ & Hother).
  apply Hother. discriminate.
Defined.


(** ** Persistence: clearing, exporting, loading *)

(** X5. [clear_existing_data] empties the three entity maps, both name
    indexes and the three proxy maps, and resets the station, AGV and
    path-node allocators, so that the next entity added without
    identifier gets number 1; the map size, the editor's station type
    manager and the holder's type catalogue are kept. *)
Theorem X5_clear_existing_data :
  forall ed : MapEditor.t,
    let ed' := MapLoader.clear_existing_data ed in
    let h' := MapEditor.class_holder ed' in
    (forall i, ClassHolder.get_station_by_id h' i = None
               /\ ClassHolder.get_agv_by_id h' i = None
               /\ ClassHolder.get_path_node_by_id h' i = None)
    /\ (forall n, ClassHolder.get_station_by_name h' n = None
                  /\ ClassHolder.get_agv_by_name h' n = None)
    /\ ClassHolder.get_all_stations h' = []
    /\ ClassHolder.get_all_agvs h' = []
    /\ ClassHolder.get_all_path_nodes h' = []
    /\ MapEditor.qclass_holder ed' = QClassHolder.init
    /\ (forall (s : Station.t) (a : AGV.t) (n : PathNode.t),
          Station.id s = None -> AGV.id a = None -> PathNode.id n = None ->
          Station.id (fst (ClassHolder.add_station h' s)) = Some 1%Z
          /\ AGV.id (fst (ClassHolder.add_agv h' a)) = Some 1%Z
          /\ PathNode.id (fst (ClassHolder.add_path_node h' n)) = Some 1%Z)
    /\ MapEditor.map_size ed' = MapEditor.map_size ed
    /\ MapEditor.station_manager ed' = MapEditor.station_manager ed
    /\ ClassHolder.station_types h'
       = ClassHolder.station_types (MapEditor.class_holder ed)
    /\ MapLoader.clear_existing_data ed' = ed'.
Proof.
  intros ed ed' h'.
  split; [intros i; repeat split; apply lookup_empty |].
  split; [intros n; split; apply lookup_empty |].
  split; [reflexivity |]. split; [reflexivity |]. split; [reflexivity |].
  split; [reflexivity |].
  split.
  { intros s a n Hs Ha Hn.
    unfold ClassHolder.add_station, ClassHolder.add_agv,
      ClassHolder.add_path_node.
    rewrite Hs, Ha, Hn. simpl. auto. }
  split; [reflexivity |]. split; [reflexivity |]. split; [reflexivity |].
  reflexivity.
Qed.

Lemma X5_clear_existing_data_witness :
  Station.id
    (fst (ClassHolder.add_station
            (MapEditor.class_holder (MapLoader.clear_existing_data editor_one_node))
            station_A)) = Some 1%Z.
Proof.
  destruct (X5_clear_existing_data editor_one_node)
    as (_ & _ & _ & _ & _ & _ & Hnext & _).
  destruct (Hnext station_A (AGV.new "a" (0, 0)%R (1, 1, 1)%R)
              (PathNode.new 0 0 0 None None) eq_refl eq_refl eq_refl)
    as [H _].
  exact H.
Defined.




















(** ** Camera: view matrix, resize, pointer handlers *)

Lemma det_translation (x y z : R) : det (translation x y z) = 1%R.
Proof. mat_unfold. ring. Qed.

Lemma det_zoom_matrix (d : R) : det (zoom_matrix d) = 1%R.
Proof. mat_unfold. ring. Qed.

Lemma det_rotation_x (a : R) : det (rotation_x a) = 1%R.
Proof. pose proof (cos_sin_square a). mat_unfold. nra. Qed.

Lemma det_rotation_y (a : R) : det (rotation_y a) = 1%R.
Proof. pose proof (cos_sin_square a). mat_unfold. nra. Qed.

(** X9. For every camera state the view matrix is a rigid motion: its
    determinant is 1 and its last row is (0, 0, 0, 1).  It is therefore
    never singular, and [np.linalg.inv] of it is the product of the
    inverse zoom, rotations and translation. *)
Theorem X9_view_matrix_rigid :
  forall s : GLWidget.t,
    let v := GLWidget._create_view_matrix s in
    det v = 1%R
    /\ (m30 v = 0 /\ m31 v = 0 /\ m32 v = 0 /\ m33 v = 1)%R
    /\ linalg_inv v = ret (view_inverse s)
    /\ dot (view_inverse s) v = identity.
Proof.
  intros s v. subst v.
  split; [| split; [| split]].
  - unfold GLWidget._create_view_matrix.
    destruct (GLWidget.camera_position s) as [[px py] pz].
    destruct (GLWidget.camera_rotation s) as [[rx ry] rz].
    rewrite !det_dot, det_identity, det_translation, det_rotation_x,
      det_rotation_y, det_zoom_matrix. ring.
  - unfold GLWidget._create_view_matrix.
    destruct (GLWidget.camera_position s) as [[px py] pz].
    destruct (GLWidget.camera_rotation s) as [[rx ry] rz].
    mat_unfold. repeat split; ring.
  - apply linalg_inv_unique, view_matrix_inverse.
  - pose proof (view_matrix_inverse s) as Hr.
    pose proof (linalg_inv_unique _ _ Hr) as Hinv.
    unfold linalg_inv in Hinv.
    destruct (Req_dec_T (det (GLWidget._create_view_matrix s)) 0)
      as [E | Hd]; [discriminate |].
    injection Hinv as <-.
    rewrite <- (scale_1 identity) at 1.
    destruct (GLWidget._create_view_matrix s) as
      [a00 a01 a02 a03 a10 a11 a12 a13 a20 a21 a22 a23 a30 a31 a32 a33] eqn:Ev.
    pose proof (adj_dot (mkM a00 a01 a02 a03 a10 a11 a12 a13
                             a20 a21 a22 a23 a30 a31 a32 a33)) as Had.
    set (a := mkM a00 a01 a02 a03 a10 a11 a12 a13
                  a20 a21 a22 a23 a30 a31 a32 a33) in *.
    assert (Hs : dot (scale (/ det a) (adj a)) a
                 = scale (/ det a) (dot (adj a) a)).
    { apply mat_eq; mat_unfold; ring. }
    rewrite Hs, Had, scale_scale.
    replace (/ det a * det a)%R with 1%R by (field; exact Hd).
    rewrite !scale_1. reflexivity.
Qed.

Lemma perspective_matrix_regular (aspect : R) :
  aspect <> 0%R ->
  det (GLWidget._perspective_matrix 45 aspect 0.1 100) <> 0%R.
Proof.
  intros Ha Hd.
  pose proof (perspective_matrix_inverse 45 aspect 0.1 100
                focal_factor_nonzero Ha ltac:(lra) ltac:(lra)) as Hinv.
  pose proof (det_dot (GLWidget._perspective_matrix 45 aspect 0.1 100)
                (perspective_inverse 45 aspect 0.1 100)) as Hm.
  rewrite Hinv, det_identity, Hd in Hm. lra.
Qed.

(** X10. [resizeGL] with height 0 raises ZeroDivisionError and leaves
    the projection matrix as it was; with any other height it completes
    and installs the perspective matrix for 45 degrees, aspect
    width / height, near 0.1 and far 100, which is regular when the width
    is not 0 either.  The camera pose, the limits and the view matrix are
    never touched. *)
Theorem X10_resizeGL :
  forall (s : GLWidget.t) (w h : Z),
    let s' := fst (GLWidget.resizeGL s w h) in
    (GLWidget.width s' = w /\ GLWidget.height s' = h
     /\ GLWidget.camera_rotation s' = GLWidget.camera_rotation s
     /\ GLWidget.camera_distance s' = GLWidget.camera_distance s
     /\ GLWidget.camera_position s' = GLWidget.camera_position s
     /\ GLWidget.view_matrix s' = GLWidget.view_matrix s
     /\ GLWidget.min_zoom s' = GLWidget.min_zoom s
     /\ GLWidget.max_zoom s' = GLWidget.max_zoom s
     /\ GLWidget.zoom_speed s' = GLWidget.zoom_speed s)
    /\ (h = 0%Z ->
        snd (GLWidget.resizeGL s w h) = raise ZeroDivisionError
        /\ GLWidget.projection_matrix s' = GLWidget.projection_matrix s)
    /\ (h <> 0%Z ->
        snd (GLWidget.resizeGL s w h) = ret tt
        /\ GLWidget.projection_matrix s'
           = GLWidget._perspective_matrix 45 (IZR w / IZR h) 0.1 100)
    /\ (w <> 0%Z -> h <> 0%Z -> det (GLWidget.projection_matrix s') <> 0%R).
Proof.
  intros s w h s'. subst s'. unfold GLWidget.resizeGL.
  destruct (Z.eq_dec h 0%Z) as [-> | Hh].
  - rewrite float_div_zero. simpl.
    split; [repeat split |]. split; [auto |]. split; [congruence |].
    intros _ Hc. congruence.
  - assert (Hh' : IZR h <> 0%R) by (apply not_0_IZR; exact Hh).
    rewrite float_div_nonzero by exact Hh'. simpl.
    split; [repeat split |]. split; [congruence |]. split; [auto |].
    intros Hw _. apply perspective_matrix_regular.
    assert (Hw' : IZR w <> 0%R) by (apply not_0_IZR; exact Hw).
    unfold Rdiv. apply Rmult_integral_contrapositive_currified;
      [exact Hw' | apply Rinv_neq_0_compat; exact Hh'].
Qed.

Lemma X10_resizeGL_witness :
  snd (GLWidget.resizeGL (GLWidget.init 0 0) 800 0) = raise ZeroDivisionError
  /\ snd (GLWidget.resizeGL (GLWidget.init 0 0) 800 600) = ret tt.
Proof.
  split.
  - destruct (X10_resizeGL (GLWidget.init 0 0) 800 0) as (_ & Hz & _).
    apply Hz. reflexivity.
  - destruct (X10_resizeGL (GLWidget.init 0 0) 800 600) as (_ & _ & Hn & _).
    apply Hn. lia.
Defined.

Lemma aspect_nonzero (g : GLWidget.t) :
  GLWidget.width g <> 0%Z -> GLWidget.height g <> 0%Z ->
  (IZR (GLWidget.width g) / IZR (GLWidget.height g) <> 0)%R.
Proof.
  intros Hw Hh. unfold Rdiv. apply Rmult_integral_contrapositive_currified.
  - apply not_0_IZR. exact Hw.
  - apply Rinv_neq_0_compat, not_0_IZR. exact Hh.
Qed.

Lemma screen_to_world_visible (g : GLWidget.t) (x y : R) :
  visible g -> exists p, GLWidget._screen_to_world g x y = ret p.
Proof.
  intros (Hw & Hh & Hp & c & Hv).
  rewrite (screen_to_world_painted g c _ x y Hw Hh (aspect_nonzero g Hw Hh) Hp Hv).
  eexists. reflexivity.
Qed.

(** X11. Once the widget has been given a non-empty size by [resizeGL]
    and has been painted, [_screen_to_world] returns a point for every
    screen position, whatever the camera state: it cannot divide by zero
    and the view-projection matrix cannot be singular.  A wheel event on
    such a widget never raises, and leaves it such a widget. *)
Theorem X11_unprojection_total_when_visible :
  (forall (s : GLWidget.t) (w h : Z),
      w <> 0%Z -> h <> 0%Z ->
      visible (GLWidget.refresh_view_matrix (fst (GLWidget.resizeGL s w h))))
  /\ (forall (g : GLWidget.t) (x y : R),
         visible g -> exists p, GLWidget._screen_to_world g x y = ret p)
  /\ (forall (g : GLWidget.t) (delta : Z),
         visible g -> GLWidget.zoom_speed g = 1.1%R ->
         snd (GLWidget.wheelEvent g delta) = ret tt
         /\ visible (fst (GLWidget.wheelEvent g delta))
         /\ visible (GLWidget.refresh_view_matrix
                       (fst (GLWidget.wheelEvent g delta)))).
Proof.
  split; [| split].
  - intros s w h Hw Hh.
    unfold visible, GLWidget.resizeGL.
    rewrite float_div_nonzero by (apply not_0_IZR; exact Hh). simpl.
    split; [exact Hw |]. split; [exact Hh |].
    split; [reflexivity |]. eexists. reflexivity.
  - intros g x y. apply screen_to_world_visible.
  - intros g delta Hvis Hz.
    destruct (screen_to_world_visible g (GLWidget.center_x g)
                (GLWidget.center_y g) Hvis) as [p Hp].
    destruct (wheelEvent_cases g delta Hz) as [Hin Hout].
    set (nd := proposed_distance (GLWidget.camera_distance g) delta) in *.
    destruct (Rle_dec (GLWidget.min_zoom g) nd) as [Hlo | Hlo];
      [destruct (Rle_dec nd (GLWidget.max_zoom g)) as [Hhi | Hhi] |].
    + rewrite (wheelEvent_accepted g delta p Hz (conj Hlo Hhi) Hp). simpl.
      split; [reflexivity |]. split; [exact Hvis |].
      destruct Hvis as (Hw & Hh & Hpm & _).
      split; [exact Hw |]. split; [exact Hh |]. split; [exact Hpm |].
      eexists. reflexivity.
    + rewrite Hout by (intros [_ H]; contradiction). simpl.
      split; [reflexivity |]. split; [exact Hvis |].
      destruct Hvis as (Hw & Hh & Hpm & _).
      split; [exact Hw |]. split; [exact Hh |]. split; [exact Hpm |].
      eexists. reflexivity.
    + rewrite Hout by (intros [H _]; contradiction). simpl.
      split; [reflexivity |]. split; [exact Hvis |].
      destruct Hvis as (Hw & Hh & Hpm & _).
      split; [exact Hw |]. split; [exact Hh |]. split; [exact Hpm |].
      eexists. reflexivity.
Qed.

Lemma X11_unprojection_total_when_visible_witness :
  exists p,
    GLWidget._screen_to_world
      (GLWidget.refresh_view_matrix
         (fst (GLWidget.resizeGL (GLWidget.init 0 0) 640 480))) 17 250 = ret p.
Proof.
  destruct X11_unprojection_total_when_visible as (Hvis & Htot & _).
  apply Htot, Hvis; lia.
Defined.

Ltac break_match :=
  repeat match goal with
         | |- context [match ?x with _ => _ end] => destruct x; simpl
         | |- context [if ?x then _ else _] => destruct x; simpl
         end.

Lemma same_setup_refl (g : GLWidget.t) : same_setup g g.
Proof. repeat split. Qed.

Lemma wheelEvent_setup (s : GLWidget.t) (delta : Z) :
  same_setup s (fst (GLWidget.wheelEvent s delta))
  /\ GLWidget.camera_rotation (fst (GLWidget.wheelEvent s delta))
     = GLWidget.camera_rotation s.
Proof.
  unfold GLWidget.wheelEvent, same_setup.
  break_match; repeat split; reflexivity.
Qed.

Lemma mouseMoveEvent_setup (self : GLView.t) (ev : GLView.QMouseEvent) :
  same_setup (GLView.widget self)
    (GLView.widget (fst (GLView.mouseMoveEvent self ev)))
  /\ GLWidget.camera_distance
       (GLView.widget (fst (GLView.mouseMoveEvent self ev)))
     = GLWidget.camera_distance (GLView.widget self).
Proof.
  unfold GLView.mouseMoveEvent, same_setup.
  break_match; repeat split; reflexivity.
Qed.

Lemma clamp_bounds (r : R) : (-89 <= Rmax (-89) (Rmin 89 r) <= 89)%R.
Proof.
  split.
  - apply Rmax_l.
  - apply Rmax_lub; [lra | apply Rmin_l].
Qed.

(** X12. [mouseMoveEvent] never changes the camera distance, the zoom
    limits, the speeds, the grid size or the cached matrices.  Without a
    preceding press ([last_pos] is None) it does nothing.  A drag with
    the left button that completes adds half the pointer movement to
    orbit and tilt, keeps the tilt within [-89, 89], and leaves
    [camera_position] as it was: the two unprojections it compares read
    the same view matrix.  A move without the left button never changes
    the rotation or the height of the camera offset. *)
Theorem X12_mouse_move :
  forall (self : GLView.t) (ev : GLView.QMouseEvent),
    let self' := fst (GLView.mouseMoveEvent self ev) in
    let g := GLView.widget self in
    let g' := GLView.widget self' in
    same_setup g g'
    /\ GLWidget.camera_distance g' = GLWidget.camera_distance g
    /\ (GLView.last_pos self = None ->
        GLView.mouseMoveEvent self ev = (self, ret tt))
    /\ (forall last_x last_y,
          GLView.last_pos self = Some (last_x, last_y) ->
          GLView.left_down ev = true ->
          snd (GLView.mouseMoveEvent self ev) = ret tt ->
          GLWidget.rotation_speed g = 0.5%R ->
          GLWidget.camera_position g' = GLWidget.camera_position g
          /\ GLWidget.camera_rotation g'
             = (Rmax (-89)
                  (Rmin 89 (fst (fst (GLWidget.camera_rotation g))
                            + IZR (GLView.y ev - last_y) * 0.5)),
                snd (fst (GLWidget.camera_rotation g))
                + IZR (GLView.x ev - last_x) * 0.5,
                snd (GLWidget.camera_rotation g))%R
          /\ (-89 <= fst (fst (GLWidget.camera_rotation g')) <= 89)%R
          /\ GLView.last_pos self' = Some (GLView.x ev, GLView.y ev))
    /\ (GLView.left_down ev = false ->
        GLWidget.camera_rotation g' = GLWidget.camera_rotation g
        /\ snd (GLWidget.camera_position g') = snd (GLWidget.camera_position g)).
Proof.
  intros self ev self' g g'.
  destruct (mouseMoveEvent_setup self ev) as [Hs Hd].
  split; [exact Hs |]. split; [exact Hd |].
  split; [| split].
  - intros Hl. unfold GLView.mouseMoveEvent. rewrite Hl. reflexivity.
  - intros lx ly Hl Hleft Hok Hspeed. subst self' g'. revert Hok.
    unfold GLView.mouseMoveEvent. rewrite Hl, Hleft. fold g.
    destruct (GLWidget._screen_to_world g (GLWidget.center_x g)
                (GLWidget.center_y g)) as [e | [[bx by_] bz]] eqn:Hb;
      [discriminate |].
    destruct (GLWidget.camera_rotation g) as [[r0 r1] r2] eqn:Hr.
    change (GLWidget._screen_to_world
              (GLView.with_camera_rotation g ?r)
              (GLWidget.center_x (GLView.with_camera_rotation g ?r))
              (GLWidget.center_y (GLView.with_camera_rotation g ?r)))
      with (GLWidget._screen_to_world g (GLWidget.center_x g)
              (GLWidget.center_y g)).
    rewrite Hb.
    destruct (GLWidget.camera_position g) as [[px py] pz] eqn:Hp.
    simpl. rewrite Hp, Hspeed. simpl. intros _.
    split; [apply (f_equal2 pair); [apply (f_equal2 pair) |]; ring |].
    split; [reflexivity |]. split; [apply clamp_bounds | reflexivity].
  - intros Hleft. subst self' g'. unfold GLView.mouseMoveEvent.
    rewrite Hleft. fold g.
    destruct (GLView.last_pos self) as [[lx ly] |]; [| split; reflexivity].
    destruct (GLView.middle_down ev); [| split; reflexivity].
    destruct (GLWidget._screen_to_world g (IZR lx) (IZR ly));
      [split; reflexivity |].
    destruct (GLWidget._screen_to_world g (IZR (GLView.x ev))
                (IZR (GLView.y ev))); [split; reflexivity |].
    destruct (GLWidget.camera_position g) as [[px py] pz] eqn:Hp.
    simpl. split; reflexivity.
Qed.




Lemma step_visible (self : GLView.t) (ev : GLView.Event) :
  visible (GLView.widget self) ->
  GLWidget.zoom_speed (GLView.widget self) = 1.1%R ->
  keeps_size ev ->
  snd (GLView.step self ev) = expected ev
  /\ visible (GLView.widget (fst (GLView.step self ev))).
Proof.
  intros Hvis Hz Hk.
  assert (Htot := screen_to_world_visible (GLView.widget self)).
  destruct ev as [d | e | e | e | w h | drawn | n]; simpl.
  - destruct (screen_to_world_visible (GLView.widget self)
                (GLWidget.center_x (GLView.widget self))
                (GLWidget.center_y (GLView.widget self)) Hvis) as [p Hp].
    destruct (wheelEvent_cases (GLView.widget self) d Hz) as [Hin Hout].
    set (nd := proposed_distance _ d) in *.
    destruct (Rle_dec (GLWidget.min_zoom (GLView.widget self)) nd) as [Hlo | Hlo];
      [destruct (Rle_dec nd (GLWidget.max_zoom (GLView.widget self)))
         as [Hhi | Hhi] |].
    + rewrite (wheelEvent_accepted _ d p Hz (conj Hlo Hhi) Hp). simpl.
      split; [reflexivity | exact Hvis].
    + rewrite Hout by (intros [_ H]; contradiction). simpl.
      split; [reflexivity | exact Hvis].
    + rewrite Hout by (intros [H _]; contradiction). simpl.
      split; [reflexivity | exact Hvis].
  - unfold GLView.mousePressEvent.
    destruct (GLView.button e); simpl; try (split; [reflexivity | exact Hvis]).
    destruct (Htot (IZR (GLView.x e)) (IZR (GLView.y e)) Hvis) as [p Hp].
    rewrite Hp. simpl. split; [reflexivity | exact Hvis].
  - unfold GLView.mouseMoveEvent.
    destruct (GLView.last_pos self) as [[lx ly] |];
      [| split; [reflexivity | exact Hvis]].
    destruct (GLView.left_down e).
    + destruct (Htot (GLWidget.center_x (GLView.widget self))
                  (GLWidget.center_y (GLView.widget self)) Hvis)
        as [[[bx by_] bz] Hp].
      rewrite Hp.
      destruct (GLWidget.camera_rotation (GLView.widget self))
        as [[r0 r1] r2].
      change (GLWidget._screen_to_world
                (GLView.with_camera_rotation (GLView.widget self) ?r)
                (GLWidget.center_x
                   (GLView.with_camera_rotation (GLView.widget self) ?r))
                (GLWidget.center_y
                   (GLView.with_camera_rotation (GLView.widget self) ?r)))
        with (GLWidget._screen_to_world (GLView.widget self)
                (GLWidget.center_x (GLView.widget self))
                (GLWidget.center_y (GLView.widget self))).
      rewrite Hp.
      destruct (GLWidget.camera_position (GLView.widget self))
        as [[px py] pz] eqn:Hpos.
      simpl. rewrite Hpos. simpl. split; [reflexivity | exact Hvis].
    + destruct (GLView.middle_down e); [| split; [reflexivity | exact Hvis]].
      destruct (Htot (IZR lx) (IZR ly) Hvis) as [p1 Hp1].
      destruct (Htot (IZR (GLView.x e)) (IZR (GLView.y e)) Hvis) as [p2 Hp2].
      rewrite Hp1, Hp2.
      destruct (GLWidget.camera_position (GLView.widget self))
        as [[px py] pz].
      simpl. split; [reflexivity | exact Hvis].
  - split; [reflexivity |].
    unfold GLView.mouseReleaseEvent. destruct (GLView.button e); exact Hvis.
  - destruct Hk as [Hw Hh]. unfold GLWidget.resizeGL.
    rewrite float_div_nonzero by (apply not_0_IZR; exact Hh). simpl.
    split; [reflexivity |].
    destruct Hvis as (_ & _ & _ & Hc).
    split; [exact Hw |]. split; [exact Hh |]. split; [reflexivity | exact Hc].
  - split; [reflexivity |].
    destruct Hvis as (Hw & Hh & Hp & _).
    split; [exact Hw |]. split; [exact Hh |]. split; [exact Hp |].
    eexists. reflexivity.
  - split; [reflexivity | exact Hvis].
Qed.


Lemma shown_widget_visible : visible shown_widget.
Proof.
  unfold shown_widget, visible, GLWidget.resizeGL.
  rewrite float_div_nonzero by (apply not_0_IZR; lia). simpl.
  split; [lia |]. split; [lia |]. split; [reflexivity |].
  eexists. reflexivity.
Qed.

Lemma shown_widget_in_bounds : camera_in_bounds shown_widget.
Proof.
  unfold shown_widget, camera_in_bounds, GLWidget.resizeGL.
  rewrite float_div_nonzero by (apply not_0_IZR; lia). simpl.
  repeat (split; [reflexivity |]).
  split; [lra |]. split; [lra | reflexivity].
Qed.

Lemma X12_mouse_move_witness :
  GLView.last_pos (fst (GLView.mouseMoveEvent drag_start drag_event))
  = Some (410, 320)%Z
  /\ (-89 <= fst (fst (GLWidget.camera_rotation
                        (GLView.widget
                           (fst (GLView.mouseMoveEvent drag_start drag_event)))))
       <= 89)%R
  /\ GLWidget.camera_position
       (GLView.widget (fst (GLView.mouseMoveEvent drag_start drag_event)))
     = GLWidget.camera_position shown_widget.
Proof.
  destruct (X12_mouse_move drag_start drag_event) as (_ & _ & _ & Hdrag & _).
  destruct (Hdrag 400%Z 300%Z) as (Hpos & _ & Htilt & Hlast).
  - reflexivity.
  - reflexivity.
  - destruct (step_visible drag_start (GLView.Move drag_event)) as [Hout _].
    + exact shown_widget_visible.
    + destruct shown_widget_in_bounds as (_ & _ & Hz & _). exact Hz.
    + exact I.
    + exact Hout.
  - destruct shown_widget_in_bounds as (_ & _ & _ & Hrs & _). exact Hrs.
  - split; [exact Hlast |]. split; [exact Htilt | exact Hpos].
Defined.


(** X14. On a widget that has a non-empty size and has been painted, no
    wheel, pointer or resize handler raises, as long as no resize gives
    it an empty size; a paint ends as the drawing of the entities does,
    and the slot for the editor's map size raises AttributeError for
    [update_map_size] of [GLWidget]; the widget stays such a widget. *)
Theorem X14_handlers_complete_when_visible :
  forall (evs : list GLView.Event) (self : GLView.t),
    visible (GLView.widget self) ->
    GLWidget.zoom_speed (GLView.widget self) = 1.1%R ->
    Forall keeps_size evs ->
    outcomes self evs = map expected evs
    /\ visible (GLView.widget (GLView.run self evs))
    /\ GLWidget.zoom_speed (GLView.widget (GLView.run self evs)) = 1.1%R.
Proof.
  induction evs as [| ev rest IH]; intros self Hvis Hz Hk.
  - split; [reflexivity |]. split; assumption.
  - inversion Hk as [| ? ? Hev Hrest]; subst.
    destruct (step_visible self ev Hvis Hz Hev) as [Hout Hvis'].
    assert (Hz' : GLWidget.zoom_speed
                    (GLView.widget (fst (GLView.step self ev))) = 1.1%R).
    { destruct ev as [d | e | e | e | w h | drawn | n]; simpl.
      - destruct (wheelEvent_setup (GLView.widget self) d)
          as [(_ & _ & H3 & _) _].
        destruct (GLWidget.wheelEvent (GLView.widget self) d).
        simpl in *. rewrite H3. exact Hz.
      - unfold GLView.mousePressEvent.
        destruct (GLView.button e); simpl; try exact Hz.
        destruct (GLWidget._screen_to_world _ _ _); simpl; exact Hz.
      - destruct (mouseMoveEvent_setup self e) as [(_ & _ & H3 & _) _].
        rewrite H3. exact Hz.
      - unfold GLView.mouseReleaseEvent.
        destruct (GLView.button e); simpl; exact Hz.
      - unfold GLWidget.resizeGL.
        destruct (float_div (IZR w) (IZR h)); simpl; exact Hz.
      - exact Hz.
      - exact Hz. }
    destruct (IH _ Hvis' Hz' Hrest) as (Ho & Hv & Hzz).
    split; [| split].
    + simpl. rewrite Hout, Ho. reflexivity.
    + exact Hv.
    + exact Hzz.
Qed.

Lemma X14_handlers_complete_when_visible_witness :
  outcomes (GLView.mk shown_widget None None) session = map expected session
  /\ visible (GLView.widget
                (GLView.run (GLView.mk shown_widget None None) session)).
Proof.
  destruct (X14_handlers_complete_when_visible session
              (GLView.mk shown_widget None None)) as (Ho & Hv & _).
  - exact shown_widget_visible.
  - destruct shown_widget_in_bounds as (_ & _ & Hz & _). exact Hz.
  - unfold session. repeat constructor; simpl; lia.
  - split; assumption.
Defined.

(** ** What a render pass draws *)

Lemma only_draws_refl (w : Scene.t) : only_draws w w.
Proof.
  split; [apply same_entities_refl |].
  split; [reflexivity |]. split; [reflexivity |].
  exists []. symmetry. apply app_nil_r.
Qed.

Lemma only_draws_trans (w1 w2 w3 : Scene.t) :
  only_draws w1 w2 -> only_draws w2 w3 -> only_draws w1 w3.
Proof.
  intros (He & Hg & Hm & c1 & Hc1) (He' & Hg' & Hm' & c2 & Hc2).
  split; [exact (same_entities_trans _ _ _ He He') |].
  split; [congruence |]. split; [congruence |].
  exists (c1 ++ c2). rewrite Hc2, Hc1. symmetry. apply app_assoc.
Qed.

Lemma only_draws_emit (calls : list GLcall) (w : Scene.t) :
  only_draws w (Scene.emit calls w).
Proof.
  split; [apply same_entities_emit |].
  split; [reflexivity |]. split; [reflexivity |].
  exists calls. reflexivity.
Qed.

Lemma only_draws_for_each {A} (body : A -> Scene.t -> Scene.t * result unit)
    (l : list A) :
  (forall a w, only_draws w (fst (body a w))) ->
  forall w, only_draws w (fst (Scene.for_each body l w)).
Proof.
  intros Hbody. induction l as [| a rest IH]; intros w; simpl.
  - apply only_draws_refl.
  - specialize (Hbody a w).
    destruct (body a w) as [w1 [e | u]]; simpl in *.
    + exact Hbody.
    + eapply only_draws_trans; [exact Hbody | apply IH].
Qed.

Lemma only_draws_cylinder_side (radius height step : R) (i : nat)
    (w : Scene.t) :
  only_draws w (fst (Scene.cylinder_side radius height step i w)).
Proof.
  unfold Scene.cylinder_side.
  destruct (float_div _ radius) as [e | nx]; [apply only_draws_refl |].
  destruct (float_div _ radius) as [e | ny]; [apply only_draws_refl |].
  apply only_draws_emit.
Qed.

Lemma only_draws_draw_cylinder (radius height : R) (w : Scene.t) :
  only_draws w (fst (Scene._draw_cylinder radius height w)).
Proof.
  unfold Scene._draw_cylinder.
  match goal with
  | |- context [Scene.for_each ?body ?l ?w0] =>
      pose proof (only_draws_for_each body l
                    (only_draws_cylinder_side _ _ _) w0) as Hloop;
      destruct (Scene.for_each body l w0) as [w1 [e | u]]; simpl in *
  end.
  - eapply only_draws_trans; [apply only_draws_emit | exact Hloop].
  - eapply only_draws_trans; [apply only_draws_emit |].
    eapply only_draws_trans; [exact Hloop | apply only_draws_emit].
Qed.

Lemma only_draws_draw_station (q : QStation.t) (w : Scene.t) :
  only_draws w (fst (Scene._draw_station q w)).
Proof.
  unfold Scene._draw_station.
  destruct (Station.position (QStation.station q)) as [x y].
  set (w0 := Scene.emit _ w).
  assert (H0 : only_draws w w0) by apply only_draws_emit.
  destruct (Scene.station_meshes w0 !! Station.name (QStation.station q))
    as [mesh |]; [| exact H0].
  destruct (QStation.qport q) as [qport |]; simpl.
  - destruct (PathNode.position (QPathNode.node qport)) as [px py].
    match goal with
    | |- context [Scene._draw_cylinder ?r ?h ?w2] =>
        pose proof (only_draws_draw_cylinder r h w2) as Hc;
        destruct (Scene._draw_cylinder r h w2) as [w3 [e | u]]; simpl in *
    end.
    + eapply only_draws_trans; [exact H0 |].
      eapply only_draws_trans; [| exact Hc].
      eapply only_draws_trans; apply only_draws_emit.
    + eapply only_draws_trans; [exact H0 |].
      eapply only_draws_trans; [| apply only_draws_emit].
      eapply only_draws_trans; [| exact Hc].
      eapply only_draws_trans; apply only_draws_emit.
  - eapply only_draws_trans; [exact H0 | apply only_draws_emit].
Qed.

Lemma only_draws_draw_path_node (q : QPathNode.t) (w : Scene.t) :
  only_draws w (fst (Scene._draw_path_node q w)).
Proof.
  unfold Scene._draw_path_node.
  destruct (PathNode.position (QPathNode.node q)) as [x y].
  match goal with
  | |- context [Scene._draw_cylinder ?r ?h ?w1] =>
      pose proof (only_draws_draw_cylinder r h w1) as Hc;
      destruct (Scene._draw_cylinder r h w1) as [w2 [e | u]]; simpl in *
  end.
  - eapply only_draws_trans; [apply only_draws_emit | exact Hc].
  - eapply only_draws_trans; [apply only_draws_emit |].
    eapply only_draws_trans; [exact Hc | apply only_draws_emit].
Qed.

Lemma only_draws_paint_agv (q : QAGV.t) (w : Scene.t) :
  only_draws w (fst (Scene.paint_agv q w)).
Proof.
  unfold Scene.paint_agv. destruct (QAGV.position q) as [x y].
  simpl. apply only_draws_emit.
Qed.

(** The scene after the first three statements of [paintGL]. *)
Lemma only_draws_paintGL (w : Scene.t) :
  only_draws
    (Scene.with_gl_widget (Scene.emit [glClear] w)
       (GLWidget.refresh_view_matrix (Scene.gl_widget w)))
    (fst (Scene.paintGL w)).
Proof.
  unfold Scene.paintGL.
  set (wv := Scene.with_gl_widget _ _).
  set (w0 := Scene._draw_grid _).
  assert (H0 : only_draws wv w0).
  { eapply only_draws_trans; apply only_draws_emit. }
  pose proof (only_draws_for_each Scene._draw_station
                (QClassHolder.get_all_qstations (Scene.qclass_holder w0))
                only_draws_draw_station w0) as H1.
  destruct (Scene.for_each Scene._draw_station _ w0) as [w1 [e | u]];
    simpl in *.
  { exact (only_draws_trans _ _ _ H0 H1). }
  pose proof (only_draws_for_each Scene._draw_path_node
                (QClassHolder.get_all_qpath_nodes (Scene.qclass_holder w1))
                only_draws_draw_path_node w1) as H2.
  destruct (Scene.for_each Scene._draw_path_node _ w1) as [w2 [e | u']];
    simpl in *.
  { exact (only_draws_trans _ _ _ H0 (only_draws_trans _ _ _ H1 H2)). }
  pose proof (only_draws_for_each Scene.paint_agv
                (QClassHolder.get_all_qagvs (Scene.qclass_holder w2))
                only_draws_paint_agv w2) as H3.
  exact (only_draws_trans _ _ _ H0
           (only_draws_trans _ _ _ H1 (only_draws_trans _ _ _ H2 H3))).
Qed.

Lemma for_each_completes {A} (body : A -> Scene.t -> Scene.t * result unit)
    (l : list A) :
  (forall a w, snd (body a w) = ret tt) ->
  forall w, snd (Scene.for_each body l w) = ret tt.
Proof.
  intros Hbody. induction l as [| a rest IH]; intros w; simpl.
  - reflexivity.
  - specialize (Hbody a w).
    destruct (body a w) as [w1 [e | u]]; simpl in *.
    + discriminate Hbody.
    + apply IH.
Qed.

Lemma draw_cylinder_completes (radius height : R) (w : Scene.t) :
  radius <> 0%R -> snd (Scene._draw_cylinder radius height w) = ret tt.
Proof.
  intros Hr. unfold Scene._draw_cylinder.
  match goal with
  | |- context [Scene.for_each ?body ?l ?w0] =>
      assert (Hloop : snd (Scene.for_each body l w0) = ret tt);
      [| destruct (Scene.for_each body l w0) as [w1 [e | u]]; simpl in *;
         [discriminate Hloop | reflexivity]]
  end.
  apply for_each_completes. intros i w0. unfold Scene.cylinder_side.
  rewrite !float_div_nonzero by exact Hr. reflexivity.
Qed.

Lemma draw_path_node_completes (q : QPathNode.t) (w : Scene.t) :
  snd (Scene._draw_path_node q w) = ret tt.
Proof.
  unfold Scene._draw_path_node.
  destruct (PathNode.position (QPathNode.node q)) as [x y].
  match goal with
  | |- context [Scene._draw_cylinder ?r ?h ?w1] =>
      pose proof (draw_cylinder_completes r h w1) as Hc;
      destruct (Scene._draw_cylinder r h w1) as [w2 [e | u]]; simpl in *
  end.
  - assert (H : (0.1 <> 0)%R) by lra. specialize (Hc H). discriminate Hc.
  - reflexivity.
Qed.

Lemma paint_agv_raises (q : QAGV.t) (rest : list QAGV.t) (w : Scene.t) :
  snd (Scene.for_each Scene.paint_agv (q :: rest) w)
  = raise (AttributeError "QAGV" "size").
Proof.
  simpl. unfold Scene.paint_agv. destruct (QAGV.position q) as [x y].
  reflexivity.
Qed.

(** X15. Apart from the OpenGL calls it issues, a render pass changes one
    thing: the widget's view matrix, which it rebuilds from the camera
    state before it draws.  The camera state, the projection matrix, the
    widget size and the stored meshes are what they were, and the calls
    issued before the pass are still there, followed by [glClear]; all of
    this whether the pass completes or raises. *)
Theorem X15_paintGL_frame (w : Scene.t) :
  let w' := fst (Scene.paintGL w) in
  Scene.gl_widget w' = GLWidget.refresh_view_matrix (Scene.gl_widget w)
  /\ GLWidget.view_matrix (Scene.gl_widget w')
     = GLWidget._create_view_matrix (Scene.gl_widget w)
  /\ Scene.station_meshes w' = Scene.station_meshes w
  /\ exists calls, Scene.gl w' = Scene.gl w ++ glClear :: calls.
Proof.
  intros w'.
  destruct (only_draws_paintGL w) as (_ & Hg & Hm & calls & Hc).
  fold w' in Hg, Hm, Hc.
  split; [exact Hg |]. split; [rewrite Hg; reflexivity |].
  split; [exact Hm |].
  exists calls. rewrite Hc. simpl. rewrite <- app_assoc. reflexivity.
Qed.

(** X16. With no station proxy in the scene a render pass completes when
    there is no AGV proxy either (drawing a path node never raises: the
    cylinder radius it divides by is 0.1), and raises AttributeError for
    the attribute [size] of [QAGV] as soon as there is one AGV proxy. *)
Theorem X16_paintGL_outcome (w : Scene.t) :
  QClassHolder.get_all_qstations (Scene.qclass_holder w) = [] ->
  (QClassHolder.get_all_qagvs (Scene.qclass_holder w) = [] ->
   snd (Scene.paintGL w) = ret tt)
  /\ (QClassHolder.get_all_qagvs (Scene.qclass_holder w) <> [] ->
      snd (Scene.paintGL w) = raise (AttributeError "QAGV" "size")).
Proof.
  intros Hst. unfold Scene.paintGL.
  set (w0 := Scene._draw_grid _).
  change (Scene.qclass_holder w0) with (Scene.qclass_holder w).
  rewrite Hst. simpl Scene.for_each. cbv beta iota.
  pose proof (same_entities_for_each Scene._draw_path_node
                (QClassHolder.get_all_qpath_nodes (Scene.qclass_holder w))
                same_entities_draw_path_node w0) as [_ Hq].
  pose proof (for_each_completes Scene._draw_path_node
                (QClassHolder.get_all_qpath_nodes (Scene.qclass_holder w))
                draw_path_node_completes w0) as Hok.
  destruct (Scene.for_each Scene._draw_path_node _ w0) as [w2 [e | u]];
    simpl in Hq, Hok; [discriminate Hok |].
  change (Scene.qclass_holder w0) with (Scene.qclass_holder w) in Hq.
  rewrite Hq. split.
  - intros Hagv. rewrite Hagv. reflexivity.
  - intros Hagv.
    destruct (QClassHolder.get_all_qagvs (Scene.qclass_holder w))
      as [| q rest]; [congruence |].
    apply paint_agv_raises.
Qed.

Lemma X16_paintGL_outcome_witness :
  snd (Scene.paintGL scene_node_agv) = raise (AttributeError "QAGV" "size").
Proof.
  destruct (X16_paintGL_outcome scene_node_agv) as [_ H].
  - reflexivity.
  - apply H. unfold scene_node_agv. simpl.
    unfold QClassHolder.get_all_qagvs. simpl.
    rewrite insert_empty, map_to_list_singleton. discriminate.
Defined.

Lemma radians_minus_90 :
  cos (radians (-90)) = 0%R /\ sin (radians (-90)) = (-1)%R.
Proof.
  replace (radians (-90)) with (- (PI / 2))%R by (unfold radians; field).
  rewrite cos_neg, sin_neg, cos_PI2, sin_PI2. split; reflexivity.
Qed.

Lemma model_matrix_origin (angles : list R) (m : Mat4) :
  dot_vec (fold_left (fun model angle => dot model (rotation_z angle)) angles m)
    (mkV 0 0 0 1)
  = dot_vec m (mkV 0 0 0 1).
Proof.
  revert m. induction angles as [| a rest IH]; intros m; simpl.
  - reflexivity.
  - rewrite IH, dot_vec_dot. f_equal.
    apply vec_eq; mat_unfold; ring.
Qed.

(** X17. Where the 3D view puts an entity.  The model matrix of the draw
    methods maps the local origin to the entity's position, for any list
    of rotations about the z axis.  With the one rotation of a path node
    or port, the arrow tip [(arrow_length, 0, 0)] of [node_arrow] lands
    [arrow_length] away from the position in the direction of the node's
    angle, counter-clockwise from the x axis; with the two rotations of a
    station or an AGV (-90 degrees, then the direction), the arrow tip
    [(0, arrow_length, 0)] of [box_arrow] lands in that same direction. *)
Theorem X17_model_matrix_pose :
  (forall (x y z : R) (angles : list R),
      dot_vec (Scene.model_matrix x y z angles) (mkV 0 0 0 1) = mkV x y z 1)
  /\ (forall (x y z direction arrow_length arrow_width lift : R),
         In (glVertex3f arrow_length 0 0)
           (Scene.node_arrow arrow_length arrow_width)
         /\ dot_vec (Scene.model_matrix x y z [radians direction])
              (mkV arrow_length 0 lift 1)
            = mkV (x + arrow_length * cos (radians direction))
                  (y + arrow_length * sin (radians direction))
                  (z + lift) 1)
  /\ (forall (x y z direction arrow_length arrow_width lift : R),
         In (glVertex3f 0 arrow_length 0)
           (Scene.box_arrow arrow_length arrow_width)
         /\ dot_vec
              (Scene.model_matrix x y z [radians (-90); radians direction])
              (mkV 0 arrow_length lift 1)
            = mkV (x + arrow_length * cos (radians direction))
                  (y + arrow_length * sin (radians direction))
                  (z + lift) 1).
Proof.
  split; [| split].
  - intros x y z angles. unfold Scene.model_matrix.
    rewrite model_matrix_origin.
    apply vec_eq; mat_unfold; ring.
  - intros x y z d len wd lift. split.
    + unfold Scene.node_arrow. simpl. tauto.
    + unfold Scene.model_matrix. simpl.
      apply vec_eq; mat_unfold; ring.
  - intros x y z d len wd lift. split.
    + unfold Scene.box_arrow. simpl. tauto.
    + unfold Scene.model_matrix. simpl.
      destruct radians_minus_90 as [Hc Hs].
      apply vec_eq; mat_unfold; rewrite Hc, Hs; ring.
Qed.

(** ** The editor's handlers *)

Lemma click_add_unfold (self : MapEditor.t) (pos : R * R) (direction : R)
    (item : option QPathNode.t) :
  let h := MapEditor.class_holder self in
  let q := MapEditor.qclass_holder self in
  let i := (IDManager._id_counter (ClassHolder.path_node_id_manager h) + 1)%Z in
  let node :=
    PathNode.new (fst pos / 100) (- snd pos / 100) direction (Some i) None in
  MapEditorHandlers.handle_mouse_press self MapEditorHandlers.PathMode
    MapEditorHandlers.AddTool MapEditorHandlers.LeftButton pos
    (Some direction) item
  = MapEditor.mk (MapEditor.map_size self) (MapEditor.map_size_spin self)
      (MapEditor.station_manager self)
      (ClassHolder.mk (ClassHolder.station_id_manager h)
         (ClassHolder.agv_id_manager h) (ClassHolder.path_id_manager h)
         (IDManager.mk i)
         (ClassHolder.stations h) (ClassHolder.agvs h)
         (<[i := node]> (ClassHolder.path_nodes h))
         (ClassHolder.stations_by_name h) (ClassHolder.agvs_by_name h)
         (ClassHolder.station_types h))
      (QClassHolder.mk (QClassHolder.qstations q) (QClassHolder.qagvs q)
         (<[Some i := QPathNode.init node]> (QClassHolder.qpath_nodes q))).
Proof.
  intros h q i node. unfold MapEditorHandlers.handle_mouse_press. simpl.
  unfold MapEditorHandlers.with_holders, MapEditorHandlers.with_path_node.
  simpl. fold h q i. rewrite !insert_insert_eq. reflexivity.
Qed.

Lemma enter_node_unfold (self : MapEditor.t) (name : string)
    (x y direction : R) :
  let h := MapEditor.class_holder self in
  let q := MapEditor.qclass_holder self in
  let i := (IDManager._id_counter (ClassHolder.path_node_id_manager h) + 1)%Z in
  let node := PathNode.new x y direction (Some i) (Some name) in
  MapEditorHandlers.add_path_node_by_position self
    (Some (name, x, y, direction))
  = MapEditor.mk (MapEditor.map_size self) (MapEditor.map_size_spin self)
      (MapEditor.station_manager self)
      (ClassHolder.mk (ClassHolder.station_id_manager h)
         (ClassHolder.agv_id_manager h) (ClassHolder.path_id_manager h)
         (IDManager.mk i)
         (ClassHolder.stations h) (ClassHolder.agvs h)
         (<[i := node]> (ClassHolder.path_nodes h))
         (ClassHolder.stations_by_name h) (ClassHolder.agvs_by_name h)
         (ClassHolder.station_types h))
      (QClassHolder.mk (QClassHolder.qstations q) (QClassHolder.qagvs q)
         (<[Some i := QPathNode.init node]> (QClassHolder.qpath_nodes q))).
Proof. reflexivity. Qed.

Lemma insert_node_in_sync (ed : MapEditor.t) (i : Z) (node : PathNode.t) :
  PathNode.id node = Some i ->
  nodes_in_sync ed ->
  let h := MapEditor.class_holder ed in
  let q := MapEditor.qclass_holder ed in
  forall idm,
    nodes_in_sync
      (MapEditor.mk (MapEditor.map_size ed) (MapEditor.map_size_spin ed)
         (MapEditor.station_manager ed)
         (ClassHolder.mk (ClassHolder.station_id_manager h)
            (ClassHolder.agv_id_manager h) (ClassHolder.path_id_manager h)
            idm
            (ClassHolder.stations h) (ClassHolder.agvs h)
            (<[i := node]> (ClassHolder.path_nodes h))
            (ClassHolder.stations_by_name h) (ClassHolder.agvs_by_name h)
            (ClassHolder.station_types h))
         (QClassHolder.mk (QClassHolder.qstations q) (QClassHolder.qagvs q)
            (<[Some i := QPathNode.init node]> (QClassHolder.qpath_nodes q)))).
Proof.
  intros Hid [Hnone Hsync] h q idm. split.
  - simpl. rewrite lookup_insert_ne by discriminate. exact Hnone.
  - intros j. unfold QClassHolder.get_qpath_node_by_id,
      ClassHolder.get_path_node_by_id. simpl.
    destruct (decide (j = i)) as [-> | Hne].
    + rewrite !lookup_insert_eq. split; [reflexivity |].
      intros n [= <-]. exact Hid.
    + rewrite !lookup_insert_ne by congruence. apply Hsync.
Qed.

Lemma node_action_in_sync (ed : MapEditor.t) (a : NodeAction) :
  nodes_in_sync ed -> nodes_in_sync (node_action ed a).
Proof.
  intros Hs. destruct a as [pos d | item | name x y d].
  - unfold node_action. rewrite click_add_unfold.
    apply insert_node_in_sync; [reflexivity | exact Hs].
  - destruct Hs as [Hnone Hsync].
    unfold node_action, MapEditorHandlers.handle_mouse_press.
    unfold MapEditorHandlers.pop_qpath_node, MapEditorHandlers.pop_path_node.
    destruct (QPathNode.id item) as [i |]; simpl.
    + split.
      * simpl. rewrite lookup_delete_ne by discriminate. exact Hnone.
      * intros j. unfold QClassHolder.get_qpath_node_by_id,
          ClassHolder.get_path_node_by_id. simpl.
        destruct (decide (j = i)) as [-> | Hne].
        -- rewrite !lookup_delete_eq. split; [reflexivity | discriminate].
        -- rewrite !lookup_delete_ne by congruence. apply Hsync.
    + split.
      * simpl. apply lookup_delete_eq.
      * intros j. unfold QClassHolder.get_qpath_node_by_id. simpl.
        rewrite lookup_delete_ne by discriminate. apply Hsync.
  - unfold node_action. rewrite enter_node_unfold.
    apply insert_node_in_sync; [reflexivity | exact Hs].
Qed.

Lemma node_action_bounded (ed : MapEditor.t) (a : NodeAction) :
  path_node_ids_bounded (MapEditor.class_holder ed) ->
  path_node_ids_bounded (MapEditor.class_holder (node_action ed a)).
Proof.
  intros Hb. destruct a as [pos d | item | name x y d].
  - unfold node_action. rewrite click_add_unfold.
    intros j e. simpl. intros Hj.
    destruct (decide (j = IDManager._id_counter
                (ClassHolder.path_node_id_manager (MapEditor.class_holder ed))
              + 1)%Z) as [-> | Hne]; [lia |].
    rewrite lookup_insert_ne in Hj by congruence.
    specialize (Hb j e Hj). lia.
  - unfold node_action, MapEditorHandlers.handle_mouse_press.
    unfold MapEditorHandlers.pop_path_node.
    destruct (QPathNode.id item) as [i |]; simpl; [| exact Hb].
    intros j e. simpl. intros Hj.
    apply lookup_delete_Some in Hj as [_ Hj]. exact (Hb j e Hj).
  - unfold node_action. rewrite enter_node_unfold.
    intros j e. simpl. intros Hj.
    destruct (decide (j = IDManager._id_counter
                (ClassHolder.path_node_id_manager (MapEditor.class_holder ed))
              + 1)%Z) as [-> | Hne]; [lia |].
    rewrite lookup_insert_ne in Hj by congruence.
    specialize (Hb j e Hj). lia.
Qed.

(** X18. A click with the add tool puts the new node where the user
    clicked.  With the allocator ahead of every stored identifier, a left
    click at scene position [pos] in path mode, confirmed with direction
    [d], files a node under the next identifier in the backend holder, at
    [pos] converted to metres with the y axis turned up, and its proxy
    under the same identifier in the proxy holder; the proxy's circle is
    centred on [pos]; nothing that was stored is replaced or changed. *)
Theorem X18_click_adds_node (self : MapEditor.t) (pos : R * R) (d : R)
    (item : option QPathNode.t) :
  path_node_ids_bounded (MapEditor.class_holder self) ->
  let h := MapEditor.class_holder self in
  let q := MapEditor.qclass_holder self in
  let self' :=
    MapEditorHandlers.handle_mouse_press self MapEditorHandlers.PathMode
      MapEditorHandlers.AddTool MapEditorHandlers.LeftButton pos (Some d) item in
  let h' := MapEditor.class_holder self' in
  let q' := MapEditor.qclass_holder self' in
  let i := (IDManager._id_counter (ClassHolder.path_node_id_manager h) + 1)%Z in
  let node := PathNode.new (fst pos / 100) (- snd pos / 100) d (Some i) None in
  ClassHolder.get_path_node_by_id h i = None
  /\ ClassHolder.get_path_node_by_id h' i = Some node
  /\ QClassHolder.get_qpath_node_by_id q' i = Some (QPathNode.init node)
  /\ scene_center (QPathNode.item_pos (QPathNode.init node))
       (QPathNode.rect (QPathNode.init node)) = pos
  /\ (forall j, j <> i ->
        ClassHolder.get_path_node_by_id h' j
        = ClassHolder.get_path_node_by_id h j
        /\ QClassHolder.get_qpath_node_by_id q' j
           = QClassHolder.get_qpath_node_by_id q j)
  /\ path_node_ids_bounded h'
  /\ ClassHolder.stations h' = ClassHolder.stations h
  /\ ClassHolder.agvs h' = ClassHolder.agvs h
  /\ QClassHolder.qstations q' = QClassHolder.qstations q
  /\ QClassHolder.qagvs q' = QClassHolder.qagvs q.
Proof.
  intros Hb h q self' h' q' i node.
  assert (Hfresh : ClassHolder.path_nodes h !! i = None).
  { destruct (ClassHolder.path_nodes h !! i) as [e |] eqn:He; [| reflexivity].
    specialize (Hb i e He). unfold i in Hb. fold h in Hb. lia. }
  assert (Hbd : path_node_ids_bounded h').
  { exact (node_action_bounded self (ClickAdd pos d) Hb). }
  subst h' q' self'. rewrite click_add_unfold in *. fold h q i node.
  unfold ClassHolder.get_path_node_by_id, QClassHolder.get_qpath_node_by_id.
  simpl.
  split; [exact Hfresh |].
  split; [apply lookup_insert_eq |].
  split; [apply lookup_insert_eq |].
  split.
  { unfold scene_center, rect_center. simpl. destruct pos as [sx sy]. simpl.
    apply (f_equal2 pair); field. }
  split.
  { intros j Hj. rewrite !lookup_insert_ne by congruence.
    split; reflexivity. }
  split; [exact Hbd |].
  split; [reflexivity |]. split; [reflexivity |].
  split; reflexivity.
Qed.

Lemma X18_click_adds_node_witness :
  ClassHolder.get_path_node_by_id
    (MapEditor.class_holder
       (MapEditorHandlers.handle_mouse_press MapEditor.init
          MapEditorHandlers.PathMode MapEditorHandlers.AddTool
          MapEditorHandlers.LeftButton (250, -120)%R (Some 90%R) None)) 1
  = Some (PathNode.new (250 / 100) (- -120 / 100) 90 (Some 1%Z) None).
Proof.
  destruct (X18_click_adds_node MapEditor.init (250, -120)%R 90%R None)
    as (_ & H & _).
  - intros i e He. discriminate He.
  - exact H.
Defined.

(** X19. However the user adds and deletes path nodes (clicks with the
    add tool, clicks with the delete tool on any node item, nodes entered
    by position), the backend holder and the proxy holder stay in step:
    a proxy is filed under an identifier exactly when a backend node is,
    it is the proxy of that node, the node carries that identifier, and
    no stored identifier is ahead of the allocator. *)
Theorem X19_node_stores_in_sync (actions : list NodeAction) :
  let ed := fold_left node_action actions MapEditor.init in
  nodes_in_sync ed
  /\ path_node_ids_bounded (MapEditor.class_holder ed).
Proof.
  assert (H : forall ed0,
             nodes_in_sync ed0
             /\ path_node_ids_bounded (MapEditor.class_holder ed0) ->
             nodes_in_sync (fold_left node_action actions ed0)
             /\ path_node_ids_bounded
                  (MapEditor.class_holder (fold_left node_action actions ed0))).
  { induction actions as [| a rest IH]; intros ed0 [Hs Hb]; simpl.
    - split; assumption.
    - apply IH. split.
      + apply node_action_in_sync, Hs.
      + apply node_action_bounded, Hb. }
  apply H. split.
  - split; [reflexivity |]. intros i. split; [reflexivity | discriminate].
  - intros i e He. discriminate He.
Qed.

(** X20. Adding a station in the editor leaves the two holders out of
    step.  With a station type selected and a non-empty name confirmed,
    [add_station_at_position] files the new station in the backend holder
    (under the next identifier and under its name, with the position,
    size and direction of the form) and then raises AttributeError from
    the proxy constructor, so the proxy holder is what it was: the
    station has no proxy.  In every other case the handler changes
    nothing. *)
Theorem X20_add_station_at_position (self : MapEditor.t)
    (ty : StationType.t) (name : string) (form : MapEditorHandlers.StationForm) :
  name <> EmptyString ->
  let h := MapEditor.class_holder self in
  let i := (IDManager._id_counter (ClassHolder.station_id_manager h) + 1)%Z in
  let station :=
    Station.mk (MapEditorHandlers.pos_x form, MapEditorHandlers.pos_y form)
      ty name (Some i)
      (MapEditorHandlers.width_spin form, MapEditorHandlers.length_spin form,
       MapEditorHandlers.height_spin form)
      (MapEditorHandlers.direction_spin form) None None in
  let r :=
    MapEditorHandlers.add_station_at_position self (Some ty) name true form in
  snd r = raise (AttributeError "QStation" "station_type")
  /\ ClassHolder.get_station_by_id (MapEditor.class_holder (fst r)) i
     = Some station
  /\ ClassHolder.get_station_by_name (MapEditor.class_holder (fst r)) name
     = Some station
  /\ MapEditor.qclass_holder (fst r) = MapEditor.qclass_holder self
  /\ MapEditorHandlers.add_station_at_position self None name true form
     = (self, ret tt)
  /\ MapEditorHandlers.add_station_at_position self (Some ty) name false form
     = (self, ret tt)
  /\ MapEditorHandlers.add_station_at_position self (Some ty) EmptyString true
       form
     = (self, ret tt).
Proof.
  intros Hname h i station r. subst r.
  unfold MapEditorHandlers.add_station_at_position.
  destruct name as [| c name']; [congruence |].
  simpl. fold h i.
  unfold ClassHolder.get_station_by_id, ClassHolder.get_station_by_name.
  simpl.
  split; [reflexivity |].
  split; [apply lookup_insert_eq |].
  split; [apply lookup_insert_eq |].
  split; [reflexivity |].
  split; [reflexivity |]. split; reflexivity.
Qed.

Lemma X20_add_station_at_position_witness :
  snd (MapEditorHandlers.add_station_at_position MapEditor.init
         (Some scenario_type) "A" true form_A)
  = raise (AttributeError "QStation" "station_type")
  /\ ClassHolder.get_station_by_name
       (MapEditor.class_holder
          (fst (MapEditorHandlers.add_station_at_position MapEditor.init
                  (Some scenario_type) "A" true form_A))) "A"
     = Some (Station.mk (2, 3)%R scenario_type "A" (Some 1%Z)
               (1, 2, 0.5)%R 90%R None None).
Proof.
  destruct (X20_add_station_at_position MapEditor.init scenario_type "A"
              form_A) as (H1 & _ & H3 & _).
  - discriminate.
  - split; [exact H1 | exact H3].
Defined.

Lemma values_nil `{Countable K} {A} (m : gmap K A) :
  (map_to_list m).*2 = [] <-> m = ∅.
Proof.
  split.
  - intros Hm. apply fmap_nil_inv in Hm. apply map_to_list_empty_iff, Hm.
  - intros ->. rewrite map_to_list_empty. reflexivity.
Qed.

Lemma add_each_raises {A}
    (add : QClassHolder.t -> A -> QClassHolder.t * result unit)
    (e : exn) (l : list A) (q : QClassHolder.t) :
  (forall q a, add q a = (q, raise e)) ->
  l <> [] -> MapEditorHandlers.add_each add l q = (q, raise e).
Proof.
  intros Hadd Hl. destruct l as [| a rest]; [congruence |].
  simpl. rewrite Hadd. reflexivity.
Qed.

(** X21. Changing the map size drops every proxy.  Whatever the proxy
    holder held, after [update_map_size] it is empty, the backend holder
    is what it was, and the map size is the new one.  The handler
    completes only when there was no proxy to begin with; with a path
    node proxy it raises AttributeError for [position] of [QPathNode],
    and with AGV proxies only, for [status] of [QAGV]. *)
Theorem X21_update_map_size (self : MapEditor.t) (new_size : Z) :
  let r := MapEditorHandlers.update_map_size self new_size in
  let q := MapEditor.qclass_holder self in
  MapEditor.qclass_holder (fst r) = QClassHolder.init
  /\ MapEditor.class_holder (fst r) = MapEditor.class_holder self
  /\ MapEditor.map_size (fst r) = new_size
  /\ (snd r = ret tt <-> q = QClassHolder.init)
  /\ (QClassHolder.get_all_qpath_nodes q <> [] ->
      snd r = raise (AttributeError "QPathNode" "position"))
  /\ (QClassHolder.get_all_qpath_nodes q = [] ->
      QClassHolder.get_all_qstations q = [] ->
      QClassHolder.get_all_qagvs q <> [] ->
      snd r = raise (AttributeError "QAGV" "status")).
Proof.
  intros r q. subst r. unfold MapEditorHandlers.update_map_size. fold q.
  destruct (QClassHolder.get_all_qpath_nodes q) as [| n ns] eqn:Hn.
  2:{ simpl.
      split; [reflexivity |]. split; [reflexivity |]. split; [reflexivity |].
      split.
      - split; [discriminate |].
        intros Hq. rewrite Hq in Hn. discriminate Hn.
      - split; [reflexivity | congruence]. }
  destruct (QClassHolder.get_all_qstations q) as [| s ss] eqn:Hs.
  2:{ simpl.
      split; [reflexivity |]. split; [reflexivity |]. split; [reflexivity |].
      split.
      - split; [discriminate |].
        intros Hq. rewrite Hq in Hs. discriminate Hs.
      - split; congruence. }
  destruct (QClassHolder.get_all_qagvs q) as [| a as_] eqn:Ha.
  2:{ simpl.
      split; [reflexivity |]. split; [reflexivity |]. split; [reflexivity |].
      split.
      - split; [discriminate |].
        intros Hq. rewrite Hq in Ha. discriminate Ha.
      - split; [congruence | reflexivity]. }
  simpl.
  split; [reflexivity |]. split; [reflexivity |]. split; [reflexivity |].
  split.
  - split; [| reflexivity]. intros _.
    apply values_nil in Hn, Hs, Ha.
    destruct q as [qs qa qn]. simpl in *. subst. reflexivity.
  - split; congruence.
Qed.

Lemma X21_update_map_size_witness :
  snd (MapEditorHandlers.update_map_size editor_with_proxy 20)
  = raise (AttributeError "QPathNode" "position")
  /\ MapEditor.qclass_holder
       (fst (MapEditorHandlers.update_map_size editor_with_proxy 20))
     = QClassHolder.init.
Proof.
  destruct (X21_update_map_size editor_with_proxy 20)
    as (Hq & _ & _ & _ & Hn & _).
  split; [| exact Hq].
  apply Hn. unfold editor_with_proxy, node_action.
  rewrite click_add_unfold. simpl.
  unfold QClassHolder.get_all_qpath_nodes. simpl.
  rewrite insert_empty, map_to_list_singleton. discriminate.
Defined.

(** X22. The AGV editor.  [add_agv_at_node] never changes the stores:
    with a node selected and the dialog accepted it raises AttributeError
    for [set_status] of [AGV] before it adds anything, and otherwise it
    returns at once.  [delete_agv], confirmed for a proxy whose AGV has
    identifier [i], removes the entry [i] from both holders and leaves
    every other entry of the two identifier maps alone. *)
Theorem X22_agv_editor (self : MapEditor.t) :
  (forall selected dialog,
      fst (AGVEditor.add_agv_at_node self selected dialog) = self)
  /\ (forall qnode data,
         snd (AGVEditor.add_agv_at_node self (Some qnode) (Some data))
         = raise (AttributeError "AGV" "set_status"))
  /\ (forall qagv i,
         AGV.id (QAGV.agv qagv) = Some i ->
         let self' := AGVEditor.delete_agv self (Some qagv) true in
         ClassHolder.get_agv_by_id (MapEditor.class_holder self') i = None
         /\ QClassHolder.get_qagv_by_id (MapEditor.qclass_holder self') i = None
         /\ (forall j, j <> i ->
               ClassHolder.get_agv_by_id (MapEditor.class_holder self') j
               = ClassHolder.get_agv_by_id (MapEditor.class_holder self) j
               /\ QClassHolder.get_qagv_by_id (MapEditor.qclass_holder self') j
                  = QClassHolder.get_qagv_by_id (MapEditor.qclass_holder self) j))
  /\ (forall selected, AGVEditor.delete_agv self selected false = self).
Proof.
  split; [| split; [| split]].
  - intros [qnode |] [data |]; reflexivity.
  - reflexivity.
  - intros qagv i Hid self'. subst self'.
    unfold AGVEditor.delete_agv. rewrite Hid.
    unfold MapEditorHandlers.pop_agv, MapEditorHandlers.pop_qagv,
      ClassHolder.delete_agv, ClassHolder.get_agv_by_id,
      QClassHolder.get_qagv_by_id.
    destruct (ClassHolder.agvs (MapEditor.class_holder self) !! i)
      as [agv |] eqn:Hagv; simpl.
    + split; [apply lookup_delete_eq |].
      split; [apply lookup_delete_eq |].
      intros j Hj. rewrite !lookup_delete_ne by congruence.
      split; reflexivity.
    + split; [exact Hagv |].
      split; [apply lookup_delete_eq |].
      intros j Hj. rewrite lookup_delete_ne by congruence.
      split; reflexivity.
  - intros [qagv |]; reflexivity.
Qed.

Lemma X22_agv_editor_witness :
  QClassHolder.get_qagv_by_id
    (MapEditor.qclass_holder
       (AGVEditor.delete_agv
          (MapEditor.mk 10 10 StationTypeManager.init
             (Scene.class_holder scene_node_agv)
             (Scene.qclass_holder scene_node_agv))
          (Some (QAGV.init
                   (AGV.with_id (AGV.new "agv-1" (1, 2)%R (0.8, 1.2, 0.3)%R)
                      (Some 1%Z))))
          true)) 1
  = None.
Proof.
  destruct (X22_agv_editor
              (MapEditor.mk 10 10 StationTypeManager.init
                 (Scene.class_holder scene_node_agv)
                 (Scene.qclass_holder scene_node_agv)))
    as (_ & _ & H & _).
  destruct (H (QAGV.init
                 (AGV.with_id (AGV.new "agv-1" (1, 2)%R (0.8, 1.2, 0.3)%R)
                    (Some 1%Z))) 1%Z) as (_ & Hq & _).
  - reflexivity.
  - exact Hq.
Defined.

(** ** The proxies and their holder *)



(** X24. The direction arrow of a path node proxy follows the node.
    After [set_direction] the proxy is the one its constructor makes of
    the re-directed node, so its arrow is always the arrow of the node's
    direction.  The arrow's tip is [arrow_size] = 8 pixels from the item
    origin, in the node's direction with the y axis turned down; its two
    head points are [arrow_size / 2] from the item origin, not from the
    tip. *)
Theorem X24_node_proxy_arrow (n : PathNode.t) (angle : R) :
  QPathNode.set_direction (QPathNode.init n) angle
  = QPathNode.init (PathNode.set_direction n angle)
  /\ (let q := QPathNode.set_direction (QPathNode.init n) angle in
      PathNode.direction (QPathNode.node q) = angle
      /\ PathNode.position (QPathNode.node q) = PathNode.position n
      /\ PathNode.id (QPathNode.node q) = PathNode.id n
      /\ QPathNode.rect q = QPathNode.rect (QPathNode.init n))
  /\ (exists p1 p2,
         QPathNode.direction_arrow (QPathNode.init n)
         = [ (0, 0);
             (8 * cos (radians (PathNode.direction n)),
              - 8 * sin (radians (PathNode.direction n)));
             p1;
             (8 * cos (radians (PathNode.direction n)),
              - 8 * sin (radians (PathNode.direction n)));
             p2 ]%R
         /\ (fst p1 * fst p1 + snd p1 * snd p1 = 4 * 4)%R
         /\ (fst p2 * fst p2 + snd p2 * snd p2 = 4 * 4)%R).
Proof.
  split; [reflexivity |]. split.
  - simpl. repeat split.
  - eexists. eexists. split; [reflexivity |].
    simpl. split.
    + match goal with
      | |- context [cos ?a] =>
          generalize (cos_sin_square a); set (c := cos a); set (s := sin a)
      end.
      intros Hcs. nra.
    + match goal with
      | |- context [cos ?a] =>
          generalize (cos_sin_square a); set (c := cos a); set (s := sin a)
      end.
      intros Hcs. nra.
Qed.
